(** * Automatic cash-register scheduling: schedule evaluator, executor and
    report aggregation.

    Shallow embedding of [server/cash-schedule-storage.ts]
    (class [CashScheduleStorage]) and of the automation service
    (class [CashAutomationService]).

    Conventions of the embedding.
    - An instant ([Date]) is the number of seconds since the Unix epoch, in
      [Z]; the zone database used by [Intl.DateTimeFormat] is not part of the
      repository and is a variable [utcOffset] of the development.
    - A JavaScript number produced by [parseInt] is an [option Z], [None]
      being [NaN].  Amounts are IEEE 754 binary64 numbers as the standard
      library specifies them ([SpecFloat], 53 bits of precision):
      [parseFloat] rounds a decimal to the nearest number, every sum,
      product and quotient is rounded, [toFixed] and [toString] print the
      exact value of the number they are given.
    - A string is a sequence of bytes, UTF-8 where it is not ASCII.
    - A nullable column is an [option]; [x || d] on it is written out.
    - Calls to the data store may throw; which call throws, and with which
      message, is given by a fault plan ([Faults]).  State written before a
      throw stays written. *)

From Stdlib Require Import ZArith List String Ascii Bool Lia.
From Stdlib Require Import Floats.SpecFloat.
From Stdlib Require Import Sorting.Sorted Sorting.Permutation.
From Stdlib Require DecimalString.
Import ListNotations.

Local Open Scope string_scope.
Local Open Scope Z_scope.

(** ** JavaScript primitives used by the source *)

Module Js.

(** White space skipped by [parseInt] and [parseFloat]: the characters of
    one byte. *)
Definition isSpace (c : ascii) : bool :=
  let n := Z.of_nat (nat_of_ascii c) in
  (n =? 32) || ((9 <=? n) && (n <=? 13)).

(** The white space of two and of three bytes: U+00A0, U+1680,
    U+2000..U+200A, U+2028, U+2029, U+202F, U+205F, U+3000, U+FEFF. *)
Definition isSpace2 (a b : ascii) : bool :=
  (nat_of_ascii a =? 194)%nat && (nat_of_ascii b =? 160)%nat.

Definition isSpace3 (a b c : ascii) : bool :=
  let x := Z.of_nat (nat_of_ascii a) in
  let y := Z.of_nat (nat_of_ascii b) in
  let z := Z.of_nat (nat_of_ascii c) in
  ((x =? 225) && (y =? 154) && (z =? 128))
  || ((x =? 226) && (y =? 128)
      && (((128 <=? z) && (z <=? 138)) || (z =? 168) || (z =? 169)
          || (z =? 175)))
  || ((x =? 226) && (y =? 129) && (z =? 159))
  || ((x =? 227) && (y =? 128) && (z =? 128))
  || ((x =? 239) && (y =? 187) && (z =? 191)).

(** [TrimString(s, start)]: [s] without its leading white space and line
    terminators. *)
Fixpoint trimStart (s : string) : string :=
  match s with
  | String a r =>
      if isSpace a then trimStart r
      else
        match r with
        | String b r2 =>
            if isSpace2 a b then trimStart r2
            else
              match r2 with
              | String c r3 => if isSpace3 a b c then trimStart r3 else s
              | EmptyString => s
              end
        | EmptyString => s
        end
  | EmptyString => s
  end.

(** Value of a digit character in the given radix, if it is one. *)
Definition digitOf (radix : Z) (c : ascii) : option Z :=
  let n := Z.of_nat (nat_of_ascii c) in
  let v := if (48 <=? n) && (n <=? 57) then n - 48
           else if (97 <=? n) && (n <=? 122) then n - 87
           else if (65 <=? n) && (n <=? 90) then n - 55
           else radix in
  if v <? radix then Some v else None.

(** Longest prefix of digits, as a number; [acc] is [None] until a digit
    has been read. *)
Fixpoint digits (radix : Z) (s : string) (acc : option Z) : option Z :=
  match s with
  | String c r =>
      match digitOf radix c with
      | Some d =>
          digits radix r
            (Some (radix * (match acc with Some a => a | None => 0 end) + d))
      | None => acc
      end
  | EmptyString => acc
  end.

(** [parseInt(s)] without a radix argument: leading white space, an
    optional sign, an optional [0x] prefix, then the digits; [None] is
    [NaN]. *)
Definition parseInt (s : string) : option Z :=
  let s1 := trimStart s in
  let '(sign, s2) :=
    match s1 with
    | String "-" r => (-1, r)
    | String "+" r => (1, r)
    | _ => (1, s1)
    end in
  let mag :=
    match s2 with
    | String "0" (String "x" r) => digits 16 r None
    | String "0" (String "X" r) => digits 16 r None
    | _ => digits 10 s2 None
    end in
  option_map (Z.mul sign) mag.

(** [s.split(sep)] for a one-character separator. *)
Fixpoint split (sep : ascii) (s : string) : list string :=
  match s with
  | EmptyString => [EmptyString]
  | String c r =>
      if Ascii.eqb c sep then EmptyString :: split sep r
      else match split sep r with
           | h :: t => String c h :: t
           | [] => [String c EmptyString]
           end
  end.

(** [xs.includes(n)] on an array of numbers: [NaN] is never equal to a
    day number. *)
Definition includes (xs : list (option Z)) (n : Z) : bool :=
  existsb (fun x => match x with Some z => z =? n | None => false end) xs.

(** [x || d] for a nullable integer column: [null] and [0] are falsy. *)
Definition orZ (x : option Z) (d : Z) : Z :=
  match x with
  | Some z => if z =? 0 then d else z
  | None => d
  end.

(** Truthiness of a nullable boolean column. *)
Definition truthy (x : option bool) : bool :=
  match x with Some b => b | None => false end.

(** The [d] low decimal digits of [n], most significant first. *)
Fixpoint fixedDigits (d : nat) (n : Z) : string :=
  match d with
  | O => EmptyString
  | S d' =>
      fixedDigits d' (n / 10)
      ++ String (ascii_of_nat (48 + Z.to_nat (n mod 10))) EmptyString
  end.

Definition decimal (n : Z) : string :=
  DecimalString.NilZero.string_of_uint (N.to_uint (Z.to_N n)).

(** *** Numbers *)

(** A number is an IEEE 754 binary64 value: 53 bits of precision,
    exponents below 1024. *)
Definition number : Set := spec_float.

Definition plus : number -> number -> number := SFadd 53 1024.
Definition minus : number -> number -> number := SFsub 53 1024.
Definition times : number -> number -> number := SFmul 53 1024.
Definition divide : number -> number -> number := SFdiv 53 1024.

(** The number nearest to [n / d], ties to the even significand, with the
    sign [neg]: the value of a decimal literal. *)
Definition nearest (neg : bool) (n : Z) (d : positive) : number :=
  match n with
  | Zpos p =>
      let '(q, e, l) := SFdiv_core_binary 53 1024 (Zpos p) 0 (Zpos d) 0 in
      binary_round_aux 53 1024 neg q e l
  | _ => S754_zero neg
  end.

Definition ofZ (z : Z) : number := nearest (z <? 0) (Z.abs z) 1.

Definition ofNat (n : nat) : number := ofZ (Z.of_nat n).

(** [m * 2^e] as a fraction. *)
Definition magnitude (m : positive) (e : Z) : Z * Z :=
  if 0 <=? e then (Zpos m * 2 ^ e, 1) else (Zpos m, 2 ^ (- e)).

(** The same number, bit for bit. *)
Definition sameNumber (x y : number) : bool :=
  match x, y with
  | S754_zero s, S754_zero t => Bool.eqb s t
  | S754_infinity s, S754_infinity t => Bool.eqb s t
  | S754_nan, S754_nan => true
  | S754_finite s m e, S754_finite t n f =>
      Bool.eqb s t && Pos.eqb m n && (e =? f)
  | _, _ => false
  end.

(** Number of decimal digits of [n]. *)
Definition numDigits (n : Z) : Z := Z.of_nat (String.length (decimal n)).

(** The least [j >= from] with [b <= a * 10^j]. *)
Fixpoint firstDigitAt (fuel : nat) (a b : Z) (j : Z) : Z :=
  match fuel with
  | O => j
  | S fuel' => if b <=? a * 10 ^ j then j else firstDigitAt fuel' a b (j + 1)
  end.

(** The [n] with [10^(n-1) <= a / b < 10^n], for a positive fraction. *)
Definition decimalExponent (a b : Z) : Z :=
  if b <=? a then numDigits (a / b) else 1 - firstDigitAt 400 a b 1.

(** [s * 10^p] as a number. *)
Definition scaled (s p : Z) : number :=
  if 0 <=? p then nearest false (s * 10 ^ p) 1
  else nearest false s (Z.to_pos (10 ^ (- p))).

(** The digits of [Number::toString]: the shortest [s] (of [k] digits)
    and the [n] for which [s * 10^(n-k)] is read back as [m * 2^e]; of two
    such [s] the one nearer to the value, the even one on a tie. *)
Fixpoint shortestFrom (fuel : nat) (k : Z) (m : positive) (e : Z) (n : Z)
  : Z * Z :=
  let '(a, b) := magnitude m e in
  let p := n - k in
  let '(num, den) := if 0 <=? p then (a, b * 10 ^ p)
                     else (a * 10 ^ (- p), b) in
  let lo := num / den in
  let hi := lo + 1 in
  let ok s := sameNumber (scaled s p) (S754_finite false m e) in
  let pick s := if s =? 10 ^ k then (10 ^ (k - 1), n + 1) else (s, n) in
  match fuel with
  | O => pick lo
  | S fuel' =>
      if ok lo && ok hi then
        match 2 * num ?= (2 * lo + 1) * den with
        | Lt => pick lo
        | Gt => pick hi
        | Eq => if Z.even lo then pick lo else pick hi
        end
      else if ok lo then pick lo
      else if ok hi then pick hi
      else shortestFrom fuel' (k + 1) m e n
  end.

Definition shortest (m : positive) (e : Z) : Z * Z :=
  let '(a, b) := magnitude m e in
  shortestFrom 17 1 m e (decimalExponent a b).

Fixpoint zeros (n : nat) : string :=
  match n with
  | O => EmptyString
  | S n' => String "0" (zeros n')
  end.

(** [Number::toString] in radix 10. *)
Definition toString (x : number) : string :=
  match x with
  | S754_nan => "NaN"
  | S754_zero _ => "0"
  | S754_infinity s => if s then "-Infinity" else "Infinity"
  | S754_finite s m e =>
      let '(digs, n) := shortest m e in
      let ds := decimal digs in
      let k := Z.of_nat (String.length ds) in
      let body :=
        if (k <=? n) && (n <=? 21) then ds ++ zeros (Z.to_nat (n - k))
        else if (0 <? n) && (n <=? 21) then
          substring 0 (Z.to_nat n) ds ++ "."
          ++ substring (Z.to_nat n) (Z.to_nat (k - n)) ds
        else if (-6 <? n) && (n <=? 0) then
          "0." ++ zeros (Z.to_nat (- n)) ++ ds
        else
          let ex := (if n - 1 <? 0 then "-" else "+")
                    ++ decimal (Z.abs (n - 1)) in
          if k =? 1 then ds ++ "e" ++ ex
          else substring 0 1 ds ++ "."
               ++ substring 1 (Z.to_nat (k - 1)) ds ++ "e" ++ ex in
      if s then "-" ++ body else body
  end.

(** [n] printed with [d] decimals, [n] counting units of [10^-d]. *)
Definition fixedPoint (d : nat) (n : Z) : string :=
  decimal (n / 10 ^ Z.of_nat d)
  ++ match d with
     | O => EmptyString
     | _ => "." ++ fixedDigits d (n mod 10 ^ Z.of_nat d)
     end.

(** [x.toFixed(d)] for [0 <= d <= 100]: the multiple of [10^-d] nearest to
    the exact value of [x], the larger one on a tie; from [10^21] on, and
    for what is not finite, [toString]. *)
Definition toFixed (d : nat) (x : number) : string :=
  match x with
  | S754_finite s m e =>
      let '(a, b) := magnitude m e in
      if 10 ^ 21 * b <=? a then toString x
      else
        let n := (2 * a * 10 ^ Z.of_nat d + b) / (2 * b) in
        (if s then "-" else "") ++ fixedPoint d n
  | S754_zero _ => fixedPoint d 0
  | _ => toString x
  end.

Fixpoint afterDigits (s : string) : string :=
  match s with
  | String c r =>
      match digitOf 10 c with
      | Some _ => afterDigits r
      | None => s
      end
  | EmptyString => s
  end.

Fixpoint countDigits (s : string) : Z :=
  match s with
  | String c r =>
      match digitOf 10 c with
      | Some _ => 1 + countDigits r
      | None => 0
      end
  | EmptyString => 0
  end.

(** The exponent part at the head of [s], if there is one: [e] or [E], an
    optional sign, at least one digit. *)
Definition exponentPart (s : string) : Z :=
  let value (r : string) : option Z :=
    match r with
    | String "+" r' => digits 10 r' None
    | String "-" r' => option_map Z.opp (digits 10 r' None)
    | _ => digits 10 r None
    end in
  match s with
  | String "e" r | String "E" r =>
      match value r with Some z => z | None => 0 end
  | _ => 0
  end.

(** [parseFloat(s)]: leading white space, then the longest prefix that is
    a decimal literal ([Infinity], or digits with an optional fraction and
    an optional exponent), rounded to the nearest number; [NaN] when there
    is no such prefix. *)
Definition parseFloat (s : string) : number :=
  let s1 := trimStart s in
  let '(neg, s2) :=
    match s1 with
    | String "-" r => (true, r)
    | String "+" r => (false, r)
    | _ => (false, s1)
    end in
  if prefix "Infinity" s2 then S754_infinity neg
  else
    let whole := digits 10 s2 None in
    let s3 := afterDigits s2 in
    let '(fracPart, s4) :=
      match s3 with
      | String "." r => (r, afterDigits r)
      | _ => (EmptyString, s3)
      end in
    let frac := digits 10 fracPart None in
    match whole, frac with
    | None, None => S754_nan
    | _, _ =>
        let fracLen := countDigits fracPart in
        let mantissa :=
          match whole with Some z => z | None => 0 end * 10 ^ fracLen
          + match frac with Some z => z | None => 0 end in
        let e10 := exponentPart s4 - fracLen in
        if 0 <=? e10 then nearest neg (mantissa * 10 ^ e10) 1
        else nearest neg mantissa (Z.to_pos (10 ^ (- e10)))
    end.

(** Values a caller can put in a field of an untyped object. *)
Inductive Val : Type :=
| Undefined
| Null
| Boolean (b : bool)
| Number (x : number)
| Str (s : string).

(** [parseInt(v)]: the argument is converted to a string first, so only
    numbers and numeric strings give a number; of a number, the digits
    that [toString] prints before a point or an exponent are read. *)
Definition parseIntVal (v : Val) : option Z :=
  match v with
  | Number x => parseInt (toString x)
  | Str s => parseInt s
  | _ => None
  end.

End Js.

(** ** Data model *)

(** A wall-clock date as [new Date(year, month, day, hour, minute, second)]
    builds it from the parts of the formatter: the seconds since the epoch
    of the local wall clock.  1970-01-01 was a Thursday. *)
Definition getDay (t : Z) : Z := (t / 86400 + 4) mod 7.
Definition getHours (t : Z) : Z := (t mod 86400) / 3600.
Definition getMinutes (t : Z) : Z := (t mod 3600) / 60.
Definition localDate (t : Z) : Z := t / 86400.

Definition argentina : string := "America/Argentina/Buenos_Aires".

(** Row of [cash_schedule_config]: the columns that the class reads, every
    one but the client nullable.  The serial [id] and the timestamps
    [createdAt] and [updatedAt], which the class writes and never reads,
    are left out. *)
Record ScheduleConfig : Type := {
  cfg_clientId : Z;
  autoOpenEnabled : option bool;
  autoCloseEnabled : option bool;
  openHour : option Z;
  openMinute : option Z;
  closeHour : option Z;
  closeMinute : option Z;
  activeDays : option string;
  timezone : option string
}.

Definition withTimezone (tz : option string) (c : ScheduleConfig)
  : ScheduleConfig := {|
  cfg_clientId := cfg_clientId c;
  autoOpenEnabled := autoOpenEnabled c;
  autoCloseEnabled := autoCloseEnabled c;
  openHour := openHour c;
  openMinute := openMinute c;
  closeHour := closeHour c;
  closeMinute := closeMinute c;
  activeDays := activeDays c;
  timezone := tz
|}.

Inductive Operation : Type := Open | Close.

Inductive OperationType : Type := auto_open | auto_close.

Inductive Status : Type := success | skipped | failed.

(** Row of [cash_auto_operations_log]; the serial id is the position in
    the table, [executedTime] is filled by the store ([defaultNow]). *)
Record LogEntry : Type := {
  log_clientId : Z;
  operationType : OperationType;
  cashRegisterId : option Z;
  scheduledTime : option Z;
  executedTime : Z;
  log_status : Status;
  errorMessage : option string;
  reportId : option Z;
  notes : option string
}.

(** The columns of a cash register that the service reads or writes. *)
Record CashRegister : Type := {
  reg_id : Z;
  reg_clientId : Z;
  isOpen : bool;
  reg_status : string;
  initialBalance : string;
  finalBalance : option Js.number;
  closedAt : option Z;
  closedBy : option Z
}.

(** Argument of [storage.createCashRegister]. *)
Record NewCashRegister : Type := {
  new_clientId : Z;
  new_date : Z;
  initialUsd : string;
  initialArs : string;
  initialUsdt : string;
  currentUsd : string;
  currentArs : string;
  currentUsdt : string;
  dailySales : string;
  new_totalExpenses : string;
  dailyGlobalExchangeRate : string;
  new_isOpen : bool;
  new_isActive : bool
}.

(** Result of [getRealTimeCashState]. *)
Record CashState : Type := {
  total_ventas : Js.number;
  total_gastos : Js.number;
  efectivo_ars : Js.number;
  efectivo_usd : Js.number;
  transferencia_ars : Js.number;
  transferencia_usd : Js.number;
  transferencia_usdt : Js.number;
  financiera_ars : Js.number;
  financiera_usd : Js.number;
  balance_final : Js.number;
  total_movimientos : option Z
}.

(** Row of [dailyReports] as the close workflow inserts it. *)
Record DailyReport : Type := {
  dr_id : Z;
  dr_clientId : Z;
  reportDate : Z;
  balanceApertura : Js.number;
  totalVentas : Js.number;
  totalGastos : Js.number;
  efectivoArs : Js.number;
  efectivoUsd : Js.number;
  transferenciaArs : Js.number;
  transferenciaUsd : Js.number;
  transferenciaUsdt : Js.number;
  financieraArs : Js.number;
  financieraUsd : Js.number;
  balanceCierre : Js.number;
  gananciaNeta : Js.number;
  movimientos : Z;
  autoGeneratedType : string
}.

(** The tables of the data store. *)
Record World : Type := {
  configs : list ScheduleConfig;
  registers : list CashRegister;
  reports : list DailyReport;
  operationsLog : list LogEntry
}.

(** Which store calls throw during one run, and with which message. *)
Record Faults : Type := {
  selectConfig_throws : option string;
  writeConfig_throws : option string;
  getCurrentCashRegister_throws : option string;
  createCashRegister_throws : option string;
  selectRegister_throws : option string;
  insertReport_throws : option string;
  updateRegister_throws : option string;
  insertLog_throws : Status -> option string;
  selectLog_throws : option string
}.

Definition noFaults : Faults := {|
  selectConfig_throws := None;
  writeConfig_throws := None;
  getCurrentCashRegister_throws := None;
  createCashRegister_throws := None;
  selectRegister_throws := None;
  insertReport_throws := None;
  updateRegister_throws := None;
  insertLog_throws := fun _ => None;
  selectLog_throws := None
|}.

Definition withConfigs (cs : list ScheduleConfig) (w : World) : World :=
  {| configs := cs; registers := registers w; reports := reports w;
     operationsLog := operationsLog w |}.

Definition withRegisters (rs : list CashRegister) (w : World) : World :=
  {| configs := configs w; registers := rs; reports := reports w;
     operationsLog := operationsLog w |}.

Definition withReports (ds : list DailyReport) (w : World) : World :=
  {| configs := configs w; registers := registers w; reports := ds;
     operationsLog := operationsLog w |}.

Definition withLog (l : list LogEntry) (w : World) : World :=
  {| configs := configs w; registers := registers w; reports := reports w;
     operationsLog := l |}.

(** ** Effects: store state and exceptions *)

Inductive Outcome (A : Type) : Type :=
| Returned (a : A)
| Thrown (message : string).

Arguments Returned {A} a.
Arguments Thrown {A} message.

Definition Eff (A : Type) : Type := World -> Outcome A * World.

Definition ret {A : Type} (a : A) : Eff A := fun w => (Returned a, w).

Definition throw {A : Type} (message : string) : Eff A :=
  fun w => (Thrown message, w).

Definition bind {A B : Type} (c : Eff A) (k : A -> Eff B) : Eff B :=
  fun w =>
    match c w with
    | (Returned a, w') => k a w'
    | (Thrown m, w') => (Thrown m, w')
    end.

(** [try { c } catch (error) { h(error.message) }] *)
Definition tryCatch {A : Type} (c : Eff A) (h : string -> Eff A) : Eff A :=
  fun w =>
    match c w with
    | (Thrown m, w') => h m w'
    | r => r
    end.

(** A store call: it throws when the fault plan says so, before it has
    touched the tables. *)
Definition call {A : Type} (fault : option string) (c : Eff A) : Eff A :=
  match fault with
  | Some m => throw m
  | None => c
  end.

Definition exec {A : Type} (c : Eff A) (w : World) : World := snd (c w).

Declare Scope eff_scope.
Delimit Scope eff_scope with eff.
Notation "x <- c ;; k" := (bind c (fun x => k))
  (at level 100, c at next level, right associativity) : eff_scope.
Notation "c ;;; k" := (bind c (fun _ => k))
  (at level 100, right associativity) : eff_scope.
Local Open Scope eff_scope.

(** ** [CashScheduleStorage] *)

(** [getScheduleConfig]: first row of the client, [null] when there is
    none or when the query throws. *)
Definition getScheduleConfig (f : Faults) (clientId : Z)
  : Eff (option ScheduleConfig) :=
  tryCatch
    (call (selectConfig_throws f)
       (fun w => (Returned (find (fun c => cfg_clientId c =? clientId)
                                 (configs w)), w)))
    (fun _ => ret None).

(** The decision of [shouldExecuteAutoOperation] once the configuration
    has been read and [argentinaTime] has been built. *)
Definition shouldExecuteAt (config : ScheduleConfig)
  (operation : Operation) (argentinaTime : Z) : bool :=
  let currentDay := if getDay argentinaTime =? 0 then 7
                    else getDay argentinaTime in
  let activeDays :=
    match activeDays config with
    | Some s => map Js.parseInt (Js.split "," s)
    | None => []
    end in
  let currentHour := getHours argentinaTime in
  let currentMinute := getMinutes argentinaTime in
  let currentTime := currentHour * 60 + currentMinute in
  let openHour := Js.orZ (openHour config) 9 in
  let openMinute := Js.orZ (openMinute config) 0 in
  let closeHour := Js.orZ (closeHour config) 18 in
  let closeMinute := Js.orZ (closeMinute config) 0 in
  match operation with
  | Open =>
      if Js.truthy (autoOpenEnabled config) then
        if negb (Js.includes activeDays currentDay) then false
        else
          let openTime := openHour * 60 + openMinute in
          (openTime <=? currentTime) && (currentTime <? openTime + 5)
      else false
  | Close =>
      if Js.truthy (autoCloseEnabled config) then
        let closeTime := closeHour * 60 + closeMinute in
        if (closeHour <? openHour)
           || ((closeHour =? openHour) && (closeMinute <=? openMinute))
        then
          let tomorrowDay := currentDay mod 7 + 1 in
          if negb (Js.includes activeDays tomorrowDay) then false
          else (closeTime <=? currentTime) && (currentTime <? closeTime + 5)
        else
          if negb (Js.includes activeDays currentDay) then false
          else (closeTime <=? currentTime) && (currentTime <? closeTime + 5)
      else false
  end.

(** Argument of [upsertScheduleConfig]: an untyped object. *)
Record ConfigData : Type := {
  cd_autoOpenEnabled : option bool;
  cd_autoCloseEnabled : option bool;
  cd_openHour : Js.Val;
  cd_openMinute : Js.Val;
  cd_closeHour : Js.Val;
  cd_closeMinute : Js.Val;
  cd_activeDays : option string;
  cd_timezone : option string
}.

(** [s || d] for an optional string: [undefined] and the empty string are
    falsy. *)
Definition orString (s : option string) (d : string) : string :=
  match s with
  | Some EmptyString => d
  | Some v => v
  | None => d
  end.

(** [cleanData] of [upsertScheduleConfig], as the row of the client. *)
Definition cleanData (clientId : Z) (configData : ConfigData)
  : ScheduleConfig := {|
  cfg_clientId := clientId;
  autoOpenEnabled := Some (Js.truthy (cd_autoOpenEnabled configData));
  autoCloseEnabled := Some (Js.truthy (cd_autoCloseEnabled configData));
  openHour := Some (Js.orZ (Js.parseIntVal (cd_openHour configData)) 9);
  openMinute := Some (Js.orZ (Js.parseIntVal (cd_openMinute configData)) 0);
  closeHour := Some (Js.orZ (Js.parseIntVal (cd_closeHour configData)) 18);
  closeMinute :=
    Some (Js.orZ (Js.parseIntVal (cd_closeMinute configData)) 0);
  activeDays := Some (orString (cd_activeDays configData) "1,2,3,4,5,6,7");
  timezone := Some (orString (cd_timezone configData) argentina)
|}.

(** [upsertScheduleConfig]: the rows of the client are overwritten when
    there is one, a row is appended otherwise; errors of the write are
    thrown again. *)
Definition upsertScheduleConfig (f : Faults) (clientId : Z)
  (configData : ConfigData) : Eff ScheduleConfig :=
  existingConfig <- getScheduleConfig f clientId ;;
  let row := cleanData clientId configData in
  match existingConfig with
  | Some _ =>
      call (writeConfig_throws f)
        (fun w =>
           (Returned row,
            withConfigs
              (map (fun c => if cfg_clientId c =? clientId then row else c)
                   (configs w)) w))
  | None =>
      call (writeConfig_throws f)
        (fun w => (Returned row, withConfigs (configs w ++ [row])%list w))
  end.

(** Argument of [logAutoOperation]. *)
Record OperationData : Type := {
  od_clientId : Z;
  od_operationType : OperationType;
  od_cashRegisterId : option Z;
  od_scheduledTime : option Z;
  od_status : option Status;
  od_errorMessage : option string;
  od_reportId : option Z;
  od_notes : option string
}.

(** The row the store keeps for [operationData]: [status] defaults to
    [success], [executedTime] to the time of the insertion. *)
Definition logRow (now : Z) (operationData : OperationData) : LogEntry := {|
  log_clientId := od_clientId operationData;
  operationType := od_operationType operationData;
  cashRegisterId := od_cashRegisterId operationData;
  scheduledTime := od_scheduledTime operationData;
  executedTime := now;
  log_status := match od_status operationData with
                | Some s => s
                | None => success
                end;
  errorMessage := od_errorMessage operationData;
  reportId := od_reportId operationData;
  notes := od_notes operationData
|}.

(** [logAutoOperation]: one row appended; an error of the insertion is
    thrown again. *)
Definition logAutoOperation (f : Faults) (now : Z)
  (operationData : OperationData) : Eff LogEntry :=
  let logged := logRow now operationData in
  call (insertLog_throws f (log_status logged))
    (fun w => (Returned logged,
               withLog (operationsLog w ++ [logged])%list w)).

(** [ORDER BY executed_time], ascending as [orderBy] is without [desc];
    rows of equal time keep their table order. *)
Fixpoint insertByExecutedTime (e : LogEntry) (l : list LogEntry)
  : list LogEntry :=
  match l with
  | [] => [e]
  | h :: t =>
      if executedTime e <=? executedTime h then e :: l
      else h :: insertByExecutedTime e t
  end.

Definition orderByExecutedTime (l : list LogEntry) : list LogEntry :=
  fold_right insertByExecutedTime [] l.

(** [getAutoOperationsLog(clientId, limit = 50)] *)
Definition getAutoOperationsLog (f : Faults) (clientId : Z)
  (limit : option nat) : Eff (list LogEntry) :=
  tryCatch
    (call (selectLog_throws f)
       (fun w =>
          (Returned
             (firstn (match limit with Some n => n | None => 50%nat end)
                (orderByExecutedTime
                   (filter (fun e => log_clientId e =? clientId)
                           (operationsLog w)))), w)))
    (fun _ => ret []).

(** ** [CashAutomationService]

    The workflows reach the store through [storage], through
    [cashScheduleStorage] and, in [executeAutoClose], through a handle
    [db].  They are written here against a store whose calls may throw as
    the fault plan says.

    The service file binds [db] itself, to a stand-in (lines 10-14):
    [db.select().from(t).where(c)] answers the plain object [{}], and
    [const [openRegister] = await db.select()...] throws a [TypeError] on
    it, since [{}] cannot be iterated; [insert] and [update] of the
    stand-in touch no table.  So in every run of the file as it is, the
    register query of [executeAutoClose] throws before a table has been
    read: these runs are the fault plans [standIn message f], where
    [message] is the text that the engine gives the error. *)

Definition standIn (message : string) (f : Faults) : Faults := {|
  selectConfig_throws := selectConfig_throws f;
  writeConfig_throws := writeConfig_throws f;
  getCurrentCashRegister_throws := getCurrentCashRegister_throws f;
  createCashRegister_throws := createCashRegister_throws f;
  selectRegister_throws := Some message;
  insertReport_throws := insertReport_throws f;
  updateRegister_throws := updateRegister_throws f;
  insertLog_throws := insertLog_throws f;
  selectLog_throws := selectLog_throws f
|}.

(** The state that the placeholder [getRealTimeCashState] of the source
    returns: the numbers that its decimal literals denote. *)
Definition placeholderCashState : CashState := {|
  total_ventas := Js.nearest false 150075 100;
  total_gastos := Js.nearest false 20050 100;
  efectivo_ars := Js.ofZ 50000;
  efectivo_usd := Js.ofZ 150;
  transferencia_ars := Js.ofZ 25000;
  transferencia_usd := Js.nearest false 7550 100;
  transferencia_usdt := Js.ofZ 100;
  financiera_ars := Js.ofZ 10000;
  financiera_usd := Js.ofZ 50;
  balance_final := Js.nearest false 7500075 100;
  total_movimientos := Some 25
|}.

(** [getRealTimeCashState] *)
Definition getRealTimeCashState (clientId : Z) : Eff CashState :=
  ret placeholderCashState.

(** The register query of [executeAutoClose]: the rows of the client whose
    status is [open]. *)
Definition openRegistersOf (clientId : Z) (rs : list CashRegister)
  : list CashRegister :=
  filter (fun r => (reg_clientId r =? clientId)
                   && String.eqb (reg_status r) "open") rs.

Section Service.

(** The zone database: offset from UTC, in seconds, of a zone at an
    instant. *)
Variable utcOffset : string -> Z -> Z.

(** [storage.getCurrentCashRegister] and the row that
    [storage.createCashRegister] inserts: the storage module is not part of
    the sources, any query and any row builder are allowed. *)
Variable getCurrentCashRegister : list CashRegister -> Z -> option CashRegister.
Variable createCashRegister : list CashRegister -> NewCashRegister -> CashRegister.

(** The local wall clock of [zone] at the instant [now], as the formatter
    gives its parts and [new Date(...)] assembles them. *)
Definition wallClock (zone : string) (now : Z) : Z := now + utcOffset zone now.

(** [shouldExecuteAutoOperation]: the zone is the constant of the source. *)
Definition shouldExecuteAutoOperation (f : Faults) (now : Z) (clientId : Z)
  (operation : Operation) : Eff bool :=
  tryCatch
    (config <- getScheduleConfig f clientId ;;
     match config with
     | None => ret false
     | Some config =>
         let argentinaTime := wallClock argentina now in
         ret (shouldExecuteAt config operation argentinaTime)
     end)
    (fun _ => ret false).

(** [executeAutoOpen] *)
Definition executeAutoOpen (f : Faults) (now : Z) (clientId : Z) : Eff unit :=
  tryCatch
    (currentCashRegister <-
       call (getCurrentCashRegister_throws f)
         (fun w => (Returned (getCurrentCashRegister (registers w) clientId),
                    w)) ;;
     let openNew : Eff unit :=
       newCashRegister <-
         call (createCashRegister_throws f)
           (fun w =>
              let r := createCashRegister (registers w) {|
                new_clientId := clientId;
                new_date := now;
                initialUsd := "0.00";
                initialArs := "0.00";
                initialUsdt := "0.00";
                currentUsd := "0.00";
                currentArs := "0.00";
                currentUsdt := "0.00";
                dailySales := "0.00";
                new_totalExpenses := "0.00";
                dailyGlobalExchangeRate := "1200.00";
                new_isOpen := true;
                new_isActive := true |} in
              (Returned r, withRegisters (registers w ++ [r])%list w)) ;;
       logAutoOperation f now {|
         od_clientId := clientId;
         od_operationType := auto_open;
         od_cashRegisterId := Some (reg_id newCashRegister);
         od_scheduledTime := None;
         od_status := Some success;
         od_errorMessage := None;
         od_reportId := None;
         od_notes := Some "Cash register opened automatically" |} ;;;
       ret tt in
     match currentCashRegister with
     | Some r =>
         if isOpen r then
           logAutoOperation f now {|
             od_clientId := clientId;
             od_operationType := auto_open;
             od_cashRegisterId := Some (reg_id r);
             od_scheduledTime := None;
             od_status := Some skipped;
             od_errorMessage := None;
             od_reportId := None;
             od_notes := Some "Cash register already open" |} ;;;
           ret tt
         else openNew
     | None => openNew
     end)
    (fun message =>
       logAutoOperation f now {|
         od_clientId := clientId;
         od_operationType := auto_open;
         od_cashRegisterId := None;
         od_scheduledTime := None;
         od_status := Some failed;
         od_errorMessage := Some message;
         od_reportId := None;
         od_notes := None |} ;;;
       ret tt).

(** The row of [dailyReports] that [executeAutoClose] inserts. *)
Definition closingReport (id clientId reportDate : Z)
  (openRegister : CashRegister) (realTimeState : CashState) : DailyReport := {|
  dr_id := id;
  dr_clientId := clientId;
  reportDate := reportDate;
  balanceApertura := Js.parseFloat (initialBalance openRegister);
  totalVentas := Js.parseFloat (Js.toString (total_ventas realTimeState));
  totalGastos := Js.parseFloat (Js.toString (total_gastos realTimeState));
  efectivoArs := Js.parseFloat (Js.toString (efectivo_ars realTimeState));
  efectivoUsd := Js.parseFloat (Js.toString (efectivo_usd realTimeState));
  transferenciaArs :=
    Js.parseFloat (Js.toString (transferencia_ars realTimeState));
  transferenciaUsd :=
    Js.parseFloat (Js.toString (transferencia_usd realTimeState));
  transferenciaUsdt :=
    Js.parseFloat (Js.toString (transferencia_usdt realTimeState));
  financieraArs := Js.parseFloat (Js.toString (financiera_ars realTimeState));
  financieraUsd := Js.parseFloat (Js.toString (financiera_usd realTimeState));
  balanceCierre := Js.parseFloat (Js.toString (balance_final realTimeState));
  gananciaNeta :=
    Js.minus (Js.parseFloat (Js.toString (balance_final realTimeState)))
      (Js.parseFloat (initialBalance openRegister));
  movimientos := match total_movimientos realTimeState with
                 | Some n => n
                 | None => 0
                 end;
  autoGeneratedType := "auto_close"
|}.

(** The [set] of the update that closes a register. *)
Definition closeRegister (finalBalance : Js.number) (closedAt : Z)
  (r : CashRegister)
  : CashRegister := {|
  reg_id := reg_id r;
  reg_clientId := reg_clientId r;
  isOpen := isOpen r;
  reg_status := "closed";
  initialBalance := initialBalance r;
  finalBalance := Some finalBalance;
  closedAt := Some closedAt;
  closedBy := None
|}.

(** [executeAutoClose], with [db] as a handle on the store.  [reportDate]
    is the date part of [argentinaTime.toISOString()]: the date of the
    Argentine wall clock on a server whose own zone is UTC, which is the
    case written here. *)
Definition executeAutoClose (f : Faults) (now : Z) (clientId : Z) : Eff unit :=
  tryCatch
    (rows <-
       call (selectRegister_throws f)
         (fun w =>
            (Returned
               (openRegistersOf clientId (registers w)), w)) ;;
     match rows with
     | [] =>
         logAutoOperation f now {|
           od_clientId := clientId;
           od_operationType := auto_close;
           od_cashRegisterId := None;
           od_scheduledTime := None;
           od_status := Some skipped;
           od_errorMessage := None;
           od_reportId := None;
           od_notes :=
             Some "No open cash register found - cannot close what is not open"
         |} ;;;
         ret tt
     | openRegister :: _ =>
         let argentinaTime := wallClock argentina now in
         let reportDate := localDate argentinaTime in
         realTimeState <- getRealTimeCashState clientId ;;
         dailyReport <-
           call (insertReport_throws f)
             (fun w =>
                let d := closingReport (1 + Z.of_nat (List.length (reports w)))
                           clientId reportDate openRegister realTimeState in
                (Returned d, withReports (reports w ++ [d])%list w)) ;;
         call (updateRegister_throws f)
           (fun w =>
              (Returned tt,
               withRegisters
                 (map (fun r =>
                         if reg_id r =? reg_id openRegister
                         then closeRegister
                                (Js.parseFloat
                                   (Js.toString (balance_final realTimeState)))
                                argentinaTime r
                         else r)
                      (registers w)) w)) ;;;
         logAutoOperation f now {|
           od_clientId := clientId;
           od_operationType := auto_close;
           od_cashRegisterId := Some (reg_id openRegister);
           od_scheduledTime := Some argentinaTime;
           od_status := Some success;
           od_errorMessage := None;
           od_reportId := Some (dr_id dailyReport);
           od_notes :=
             Some ("Auto-closed with balance: "
                   ++ Js.toString (balance_final realTimeState)
                   ++ ", report generated: "
                   ++ Js.decimal (dr_id dailyReport)) |} ;;;
         ret tt
     end)
    (fun message =>
       logAutoOperation f now {|
         od_clientId := clientId;
         od_operationType := auto_close;
         od_cashRegisterId := None;
         od_scheduledTime := Some now;
         od_status := Some failed;
         od_errorMessage := Some message;
         od_reportId := None;
         od_notes := None |} ;;;
       ret tt).

(** [processClientScheduledOperations]: both evaluations of one tick read
    the clock at [now]; whatever is thrown is logged to the console only. *)
Definition processClientScheduledOperations (f : Faults) (now : Z)
  (clientId : Z) : Eff unit :=
  tryCatch
    (shouldOpen <- shouldExecuteAutoOperation f now clientId Open ;;
     (if shouldOpen then executeAutoOpen f now clientId else ret tt) ;;;
     shouldClose <- shouldExecuteAutoOperation f now clientId Close ;;
     if shouldClose then executeAutoClose f now clientId else ret tt)
    (fun _ => ret tt).

End Service.

(** ** Report aggregation *)

Record Order : Type := {
  order_id : Z;
  orderNumber : string;
  vendorId : option Z;
  totalUsd : option string;
  order_status : string;
  paymentStatus : string;
  items : option nat
}.

Record Payment : Type := {
  payment_id : Z;
  orderId : option Z;
  amountUsd : option string
}.

Record Expense : Type := {
  expense_id : Z;
  expense_amountUsd : option string
}.

Record DebtPayment : Type := {
  debt_id : Z;
  debt_amountUsd : option string
}.

Record CashMovement : Type := {
  movement_id : Z;
  movement_amountUsd : option string
}.

Record Vendor : Type := {
  vendor_id : Z;
  vendor_name : string;
  phone : option string;
  commissionPercentage : option string;
  vendor_commission : option string
}.

(** One element of the array returned by [calculateVendorStatistics]. *)
Record VendorStats : Type := {
  vs_vendorId : Z;
  vendorName : string;
  vendorPhone : string;
  commissionRate : string;
  totalOrders : nat;
  completedOrders : nat;
  paidOrders : nat;
  totalSales : string;
  totalPaymentsReceived : string;
  estimatedProfit : string;
  commission : string;
  averageOrderValue : string;
  completionRate : string;
  paymentCollectionRate : string;
  orderDetails : list Order
}.

(** [parseFloat(x || "0")] on a decimal column, which the store hands
    over as a string; [None] is [null]. *)
Definition amount (x : option string) : Js.number :=
  Js.parseFloat (orString x "0").

(** [xs.reduce((sum, x) => sum + f(x), 0)] *)
Definition sumOf {A : Type} (f : A -> Js.number) (xs : list A) : Js.number :=
  fold_left (fun sum x => Js.plus sum (f x)) xs (Js.ofZ 0).

(** Orders of a vendor: [order.vendorId === vendor.id]. *)
Definition ordersOf (orders : list Order) (vendor : Vendor) : list Order :=
  filter (fun order => match vendorId order with
                       | Some v => v =? vendor_id vendor
                       | None => false
                       end) orders.

(** [parseFloat(vendor.commissionPercentage || vendor.commission || "10")] *)
Definition commissionRateOf (vendor : Vendor) : Js.number :=
  Js.parseFloat
    (orString (commissionPercentage vendor)
       (orString (vendor_commission vendor) "10")).

(** The body of the [map] of [calculateVendorStatistics]. *)
Definition vendorStatistics (orders : list Order) (payments : list Payment)
  (vendor : Vendor) : VendorStats :=
  let vendorOrders := ordersOf orders vendor in
  let vendorPayments :=
    filter (fun payment =>
              existsb (fun order => match orderId payment with
                                    | Some o => order_id order =? o
                                    | None => false
                                    end) vendorOrders) payments in
  let totalSales := sumOf (fun order => amount (totalUsd order)) vendorOrders in
  let totalPaymentsReceived :=
    sumOf (fun payment => amount (amountUsd payment)) vendorPayments in
  let commissionRate := commissionRateOf vendor in
  let estimatedProfit := Js.times totalSales (Js.nearest false 3 10) in
  let commission :=
    Js.divide (Js.times estimatedProfit commissionRate) (Js.ofZ 100) in
  let completedOrders :=
    List.length (filter (fun order => String.eqb (order_status order)
                                        "completado") vendorOrders) in
  let paidOrders :=
    List.length (filter (fun order => String.eqb (paymentStatus order)
                                        "pagado") vendorOrders) in
  let n := List.length vendorOrders in
  {| vs_vendorId := vendor_id vendor;
     vendorName := vendor_name vendor;
     vendorPhone := orString (phone vendor) "N/A";
     commissionRate := Js.toFixed 1 commissionRate;
     totalOrders := n;
     completedOrders := completedOrders;
     paidOrders := paidOrders;
     totalSales := Js.toFixed 2 totalSales;
     totalPaymentsReceived := Js.toFixed 2 totalPaymentsReceived;
     estimatedProfit := Js.toFixed 2 estimatedProfit;
     commission := Js.toFixed 2 commission;
     averageOrderValue :=
       if (0 <? n)%nat
       then Js.toFixed 2 (Js.divide totalSales (Js.ofNat n))
       else "0.00";
     completionRate :=
       if (0 <? n)%nat
       then Js.toFixed 1
              (Js.times (Js.divide (Js.ofNat completedOrders) (Js.ofNat n))
                 (Js.ofZ 100))
       else "0.0";
     paymentCollectionRate :=
       if (0 <? n)%nat
       then Js.toFixed 1
              (Js.times (Js.divide (Js.ofNat paidOrders) (Js.ofNat n))
                 (Js.ofZ 100))
       else "0.0";
     orderDetails := vendorOrders |}.

(** [calculateVendorStatistics]; the [expenses] argument is not used by the
    source either. *)
Definition calculateVendorStatistics (orders : list Order)
  (payments : list Payment) (vendors : list Vendor) (expenses : list Expense)
  : list VendorStats :=
  let vendorStats := map (vendorStatistics orders payments) vendors in
  filter (fun stats => (0 <? totalOrders stats)%nat) vendorStats.

(** The row that [generateComprehensiveReport] hands to
    [storage.createDailyReport] (without the serialised detail). *)
Record ComprehensiveReport : Type := {
  cr_clientId : Z;
  cr_reportDate : Z;
  totalIncome : string;
  totalExpenses : string;
  totalDebts : string;
  totalDebtPayments : string;
  netProfit : string;
  vendorCommissions : string;
  exchangeRateUsed : string;
  isAutoGenerated : bool;
  openingBalance : string;
  closingBalance : string;
  totalMovements : nat
}.

(** [generateComprehensiveReport], from the arrays that the storage queries
    of the day returned. *)
Definition generateComprehensiveReport (clientId : Z) (reportDate : Z)
  (orders : list Order) (payments : list Payment) (expenses : list Expense)
  (cashMovements : list CashMovement) (vendors : list Vendor)
  (debtPayments : list DebtPayment) : ComprehensiveReport :=
  let vendorStats :=
    calculateVendorStatistics orders payments vendors expenses in
  let totalIncome := sumOf (fun p => amount (amountUsd p)) payments in
  let totalExpenses := sumOf (fun e => amount (expense_amountUsd e)) expenses in
  let totalDebtPayments :=
    sumOf (fun dp => amount (debt_amountUsd dp)) debtPayments in
  let netProfit := Js.minus totalIncome totalExpenses in
  let totalVendorCommissions :=
    sumOf (fun v => Js.parseFloat (commission v)) vendorStats in
  {| cr_clientId := clientId;
     cr_reportDate := reportDate;
     totalIncome := Js.toFixed 2 totalIncome;
     totalExpenses := Js.toFixed 2 totalExpenses;
     totalDebts := "0.00";
     totalDebtPayments := Js.toFixed 2 totalDebtPayments;
     netProfit := Js.toFixed 2 netProfit;
     vendorCommissions := Js.toFixed 2 totalVendorCommissions;
     exchangeRateUsed := "1200.00";
     isAutoGenerated := true;
     openingBalance := "0.00";
     closingBalance := Js.toFixed 2 netProfit;
     totalMovements := List.length cashMovements |}.

(** ** The next scheduled operations *)

(** One element of the array returned by [getScheduledOperations]. *)
Record ScheduledOperation : Type := {
  so_type : OperationType;
  so_scheduledTime : Z;
  so_enabled : option bool
}.

(** The wall-clock date of local day [day] after [setHours(hour, minute, 0,
    0)]; hours and minutes out of range carry over, as [Date] does. *)
Definition atTime (day hour minute : Z) : Z :=
  day * 86400 + hour * 3600 + minute * 60.

(** The loop [while (daysToAdd <= 7 && !activeDaysArray.includes(testDay))]
    with its two counters; it returns [daysToAdd].  The counter starts at 1
    and the loop stops when it passes 7, so eight rounds of fuel are never
    used up. *)
Fixpoint searchActiveDay (fuel : nat) (activeDaysArray : list (option Z))
  (testDay daysToAdd : Z) : Z :=
  match fuel with
  | O => daysToAdd
  | S fuel' =>
      if (daysToAdd <=? 7) && negb (Js.includes activeDaysArray testDay)
      then searchActiveDay fuel' activeDaysArray (testDay mod 7 + 1)
             (daysToAdd + 1)
      else daysToAdd
  end.

(** The next occurrence of the time [hour]:[minute] as
    [getScheduledOperations] computes it, for the opening and for the
    closing alike. *)
Definition nextOccurrence (activeDaysArray : list (option Z))
  (argentinaTime hour minute : Z) : Z :=
  let currentDay := if getDay argentinaTime =? 0 then 7
                    else getDay argentinaTime in
  let isActiveDay := Js.includes activeDaysArray currentDay in
  let next := atTime (localDate argentinaTime) hour minute in
  if next <=? argentinaTime then
    let daysToAdd :=
      searchActiveDay 8 activeDaysArray (currentDay mod 7 + 1) 1 in
    atTime (localDate argentinaTime + daysToAdd) hour minute
  else if negb isActiveDay then
    let daysToAdd :=
      searchActiveDay 8 activeDaysArray (currentDay mod 7 + 1) 1 in
    atTime (localDate argentinaTime + daysToAdd) hour minute
  else next.

(** [activeDaysArray] of [getScheduledOperations]: without a list every day
    is active. *)
Definition activeDaysArrayOf (config : ScheduleConfig) : list (option Z) :=
  match activeDays config with
  | Some s => map Js.parseInt (Js.split "," s)
  | None => [Some 1; Some 2; Some 3; Some 4; Some 5; Some 6; Some 7]
  end.

(** The array of [getScheduledOperations] once the configuration has been
    read and [argentinaTime] has been built. *)
Definition scheduledOperationsAt (config : ScheduleConfig)
  (argentinaTime : Z) : list ScheduledOperation :=
  let activeDaysArray := activeDaysArrayOf config in
  let openHour := Js.orZ (openHour config) 9 in
  let openMinute := Js.orZ (openMinute config) 0 in
  let closeHour := Js.orZ (closeHour config) 18 in
  let closeMinute := Js.orZ (closeMinute config) 0 in
  ((if Js.truthy (autoOpenEnabled config)
    then [ {| so_type := auto_open;
              so_scheduledTime :=
                nextOccurrence activeDaysArray argentinaTime openHour
                  openMinute;
              so_enabled := autoOpenEnabled config |} ]
    else [])
   ++
   (if Js.truthy (autoCloseEnabled config)
    then [ {| so_type := auto_close;
              so_scheduledTime :=
                nextOccurrence activeDaysArray argentinaTime closeHour
                  closeMinute;
              so_enabled := autoCloseEnabled config |} ]
    else []))%list.

(** ** The private check of the service *)

(** [shouldExecuteOperation]: [currentTime] is a wall-clock date. *)
Definition shouldExecuteOperation (currentTime : Z)
  (scheduledHour scheduledMinute : Z) (activeDays : list Z) : bool :=
  let currentDay := if getDay currentTime =? 0 then 7
                    else getDay currentTime in
  let currentHour := getHours currentTime in
  let currentMinute := getMinutes currentTime in
  if negb (existsb (Z.eqb currentDay) activeDays) then false
  else
    let scheduledTimeInMinutes := scheduledHour * 60 + scheduledMinute in
    let currentTimeInMinutes := currentHour * 60 + currentMinute in
    let timeDiff := currentTimeInMinutes - scheduledTimeInMinutes in
    (0 <=? timeDiff) && (timeDiff <=? 1).

(** ** The life cycle of the service *)

(** The interval timers of the runtime: the ids that are armed, and the
    next id that [setInterval] hands out. *)
Record Timers : Type := {
  armed : list nat;
  nextTimer : nat
}.

(** The fields of [CashAutomationService], with the timers it arms. *)
Record Service : Type := {
  intervalId : option nat;
  isRunning : bool;
  timers : Timers
}.

Definition newService : Service :=
  {| intervalId := None; isRunning := false;
     timers := {| armed := []; nextTimer := 1 |} |}.

(** [start] *)
Definition start (s : Service) : Service :=
  if isRunning s then s
  else
    let id := nextTimer (timers s) in
    {| intervalId := Some id;
       isRunning := true;
       timers := {| armed := id :: armed (timers s);
                    nextTimer := S id |} |}.

(** [stop] *)
Definition stop (s : Service) : Service :=
  {| intervalId := None;
     isRunning := false;
     timers :=
       match intervalId s with
       | Some id =>
           {| armed := filter (fun t => negb (Nat.eqb t id)) (armed (timers s));
              nextTimer := nextTimer (timers s) |}
       | None => timers s
       end |}.

(** [getStatus], without the time stamp of the call. *)
Definition getStatus (s : Service) : bool * string :=
  (isRunning s, if isRunning s then "Active" else "Stopped").

Inductive Command : Type := Start | Stop.

Definition runCommand (s : Service) (c : Command) : Service :=
  match c with Start => start s | Stop => stop s end.

(** ** The tick over all clients *)

(** A row of the clients table, as far as the tick reads it. *)
Record Client : Type := {
  client_id : Z;
  client_isActive : bool
}.

Section Tick.

Variable utcOffset : string -> Z -> Z.
Variable getCurrentCashRegister : list CashRegister -> Z -> option CashRegister.
Variable createCashRegister : list CashRegister -> NewCashRegister -> CashRegister.

(** [storage.getAllClients]: the storage module is not part of the sources;
    any query that reads the store and returns the clients or throws is
    allowed. *)
Variable getAllClients : World -> Outcome (list Client).

(** [getScheduledOperations] *)
Definition getScheduledOperations (f : Faults) (now : Z) (clientId : Z)
  : Eff (list ScheduledOperation) :=
  tryCatch
    (config <- getScheduleConfig f clientId ;;
     match config with
     | None => ret []
     | Some config =>
         let argentinaTime := wallClock utcOffset argentina now in
         ret (scheduledOperationsAt config argentinaTime)
     end)
    (fun _ => ret []).

(** The [for] loop of [checkScheduledOperations]; [f] gives the fault plan
    of the store calls made for each client. *)
Fixpoint forEachClient (f : Z -> Faults) (now : Z) (clients : list Client)
  : Eff unit :=
  match clients with
  | [] => ret tt
  | client :: rest =>
      if negb (client_isActive client) then forEachClient f now rest
      else
        processClientScheduledOperations utcOffset getCurrentCashRegister
          createCashRegister (f (client_id client)) now (client_id client) ;;;
        forEachClient f now rest
  end.

(** [checkScheduledOperations] *)
Definition checkScheduledOperations (f : Z -> Faults) (now : Z) : Eff unit :=
  tryCatch
    (clients <- (fun w => (getAllClients w, w)) ;;
     forEachClient f now clients)
    (fun _ => ret tt).

End Tick.

(** ** Vocabulary of the statements *)

(** Entries of the open and of the close workflow. *)
Definition isOpenEntry (e : LogEntry) : bool :=
  match operationType e with auto_open => true | auto_close => false end.

Definition isCloseEntry (e : LogEntry) : bool :=
  match operationType e with auto_close => true | auto_open => false end.

(** The order of [ORDER BY executed_time]. *)
Definition notAfter (a b : LogEntry) : Prop := executedTime a <= executedTime b.

(** The values that [executeAutoOpen] hands to [createCashRegister]. *)
Definition openingValues (clientId now : Z) : NewCashRegister := {|
  new_clientId := clientId;
  new_date := now;
  initialUsd := "0.00";
  initialArs := "0.00";
  initialUsdt := "0.00";
  currentUsd := "0.00";
  currentArs := "0.00";
  currentUsdt := "0.00";
  dailySales := "0.00";
  new_totalExpenses := "0.00";
  dailyGlobalExchangeRate := "1200.00";
  new_isOpen := true;
  new_isActive := true
|}.

(** What the update of [executeAutoClose] leaves alone in a register. *)
Definition keptByClose (r : CashRegister) : Z * Z * bool * string :=
  (reg_id r, reg_clientId r, isOpen r, initialBalance r).

(** The day number [k] days after the day number [d], both from 1 to 7. *)
Definition dayAfter (d k : Z) : Z := (d - 1 + k) mod 7 + 1.

(** The day number of a wall-clock date, 1 for Monday to 7 for Sunday. *)
Definition dayNumber (t : Z) : Z := if getDay t =? 0 then 7 else getDay t.

(** Hours and minutes that a clock can show. *)
Definition onTheClock (hour minute : Z) : Prop :=
  0 <= hour < 24 /\ 0 <= minute < 60.

(** The list of active days as [shouldExecuteAutoOperation] reads it:
    without a list no day is active. *)
Definition evaluatorDays (config : ScheduleConfig) : list (option Z) :=
  match activeDays config with
  | Some s => map Js.parseInt (Js.split "," s)
  | None => []
  end.

(** A computation whose only use of the operation log is to append to it,
    at most one entry, which satisfies [P]: run on the same store with another
    log, it has the same outcome, leaves the same tables and appends the same
    entries. *)
Definition appendsAtMostOne {A : Type} (P : LogEntry -> Prop) (c : Eff A)
  (w : World) : Prop :=
  exists es,
    (forall l, c (withLog l w)
               = (fst (c w), withLog (l ++ es)%list (snd (c w))))
    /\ (List.length es <= 1)%nat
    /\ Forall P es.

(** ** Sample data *)

(** A zone table for the examples: Buenos Aires is at UTC-3 all year,
    Tokyo at UTC+9, any other name is read as UTC. *)
Definition sampleOffsets (zone : string) (now : Z) : Z :=
  if String.eqb zone argentina then -10800
  else if String.eqb zone "Asia/Tokyo" then 32400
  else 0.

(** A schedule that opens at 09:00 and closes at 02:00, after midnight. *)
Definition nightSchedule (days : string) (zone : string) : ScheduleConfig := {|
  cfg_clientId := 1;
  autoOpenEnabled := Some true;
  autoCloseEnabled := Some true;
  openHour := Some 9;
  openMinute := Some 0;
  closeHour := Some 2;
  closeMinute := Some 0;
  activeDays := Some days;
  timezone := Some zone
|}.

(** A schedule from 09:00 to 18:00 on every day. *)
Definition daySchedule (zone : string) : ScheduleConfig := {|
  cfg_clientId := 1;
  autoOpenEnabled := Some true;
  autoCloseEnabled := Some true;
  openHour := Some 9;
  openMinute := Some 0;
  closeHour := Some 18;
  closeMinute := Some 0;
  activeDays := Some "1,2,3,4,5,6,7";
  timezone := Some zone
|}.

(** A row that stores midnight as its opening time, as a writer other than
    [upsertScheduleConfig] can leave it. *)
Definition midnightSchedule : ScheduleConfig := {|
  cfg_clientId := 1;
  autoOpenEnabled := Some true;
  autoCloseEnabled := Some true;
  openHour := Some 0;
  openMinute := Some 0;
  closeHour := Some 18;
  closeMinute := Some 0;
  activeDays := Some "1,2,3,4,5,6,7";
  timezone := Some argentina
|}.

Definition emptyWorld : World :=
  {| configs := []; registers := []; reports := []; operationsLog := [] |}.

(** Tuesday 2025-01-07, 02:00 in Buenos Aires (05:00 UTC). *)
Definition tuesday0200 : Z := 20095 * 86400 + 5 * 3600.

(** Tuesday 2025-01-07, 09:00 in Tokyo (00:00 UTC, Monday 21:00 in Buenos
    Aires). *)
Definition tokyo0900 : Z := 20095 * 86400.

(** Tuesday 2025-01-07, 09:00 in Buenos Aires (12:00 UTC). *)
Definition tuesday0900 : Z := 20095 * 86400 + 12 * 3600.

(** Tuesday 2025-01-07, 18:00 in Buenos Aires (21:00 UTC). *)
Definition tuesday1800 : Z := 20095 * 86400 + 21 * 3600.

(** Modelled from the spec: the storage module with
    [getCurrentCashRegister] is missing from the sources; the interface says
    [getCurrentOpenRegister(tenantId) -> Register | none], the open register
    of the tenant when there is one. *)
Definition sampleCurrentRegister (rs : list CashRegister) (clientId : Z)
  : option CashRegister :=
  find (fun r => (reg_clientId r =? clientId) && isOpen r) rs.

(** Modelled from the spec: the storage module with [createCashRegister]
    is missing from the sources; the interface says
    [createRegister(tenantId, initialFields) -> Register], here a row with
    the next serial id, in the open state, its balance at zero. *)
Definition sampleCreateRegister (rs : list CashRegister)
  (values : NewCashRegister) : CashRegister := {|
  reg_id := 1 + Z.of_nat (List.length rs);
  reg_clientId := new_clientId values;
  isOpen := new_isOpen values;
  reg_status := "open";
  initialBalance := "0.00";
  finalBalance := None;
  closedAt := None;
  closedBy := None
|}.

(** An open register of tenant 1 that started the day with 100.00. *)
Definition openRegister1 : CashRegister := {|
  reg_id := 1;
  reg_clientId := 1;
  isOpen := true;
  reg_status := "open";
  initialBalance := "100.00";
  finalBalance := None;
  closedAt := None;
  closedBy := None
|}.

Definition openWorld : World :=
  withRegisters [openRegister1] (withConfigs [daySchedule argentina] emptyWorld).

Definition closedWorld : World :=
  withConfigs [daySchedule argentina] emptyWorld.

(** The register query of the close workflow throws. *)
Definition selectRegisterFails : Faults := {|
  selectConfig_throws := None;
  writeConfig_throws := None;
  getCurrentCashRegister_throws := None;
  createCashRegister_throws := None;
  selectRegister_throws := Some "object is not iterable";
  insertReport_throws := None;
  updateRegister_throws := None;
  insertLog_throws := fun _ => None;
  selectLog_throws := None
|}.

(** An entry of tenant 1 written at [t]. *)
Definition entryAt (t : Z) (s : Status) : LogEntry := {|
  log_clientId := 1;
  operationType := auto_close;
  cashRegisterId := None;
  scheduledTime := None;
  executedTime := t;
  log_status := s;
  errorMessage := None;
  reportId := None;
  notes := None
|}.

(** A configuration request for midnight, with no active days given. *)
Definition midnightRequest : ConfigData := {|
  cd_autoOpenEnabled := Some true;
  cd_autoCloseEnabled := Some true;
  cd_openHour := Js.Number (Js.ofZ 0);
  cd_openMinute := Js.Number (Js.ofZ 0);
  cd_closeHour := Js.Str "0";
  cd_closeMinute := Js.Number (Js.ofZ 30);
  cd_activeDays := Some "";
  cd_timezone := None
|}.

(** Two orders of vendor 7, of 400.00 and 600.00, a vendor at ten per cent
    and a vendor without orders. *)
Definition sampleOrders : list Order :=
  [ {| order_id := 1; orderNumber := "A-1"; vendorId := Some 7;
       totalUsd := Some "400.00"; order_status := "completado";
       paymentStatus := "pagado"; items := Some 2%nat |};
    {| order_id := 2; orderNumber := "A-2"; vendorId := Some 7;
       totalUsd := Some "600.00"; order_status := "pendiente";
       paymentStatus := "pagado"; items := None |} ].

Definition vendor7 : Vendor :=
  {| vendor_id := 7; vendor_name := "Ana"; phone := None;
     commissionPercentage := Some "10.00"; vendor_commission := None |}.

Definition vendor8 : Vendor :=
  {| vendor_id := 8; vendor_name := "Luis"; phone := Some "555-0100";
     commissionPercentage := None; vendor_commission := None |}.

(** The opening of Tuesday 09:00 as [getScheduledOperations] announces it
    at 02:00 of that day. *)
Definition tuesdayOpening : ScheduledOperation := {|
  so_type := auto_open;
  so_scheduledTime := atTime 20095 9 0;
  so_enabled := Some true
|}.

(** The closing of Tuesday 18:00, the same day. *)
Definition tuesdayClosing : ScheduledOperation := {|
  so_type := auto_close;
  so_scheduledTime := atTime 20095 18 0;
  so_enabled := Some true
|}.

(** The closing of Monday 2025-01-13, 02:00, six days after Tuesday, and
    the instant at which the clock of Buenos Aires shows it. *)
Definition mondayClosing : ScheduledOperation := {|
  so_type := auto_close;
  so_scheduledTime := atTime 20101 2 0;
  so_enabled := Some true
|}.

Definition monday0200 : Z := 20101 * 86400 + 5 * 3600.

(** The closing at 02:00 eight days after Tuesday 2025-01-07. *)
Definition farClosing : ScheduledOperation := {|
  so_type := auto_close;
  so_scheduledTime := atTime 20103 2 0;
  so_enabled := Some true
|}.

(** Stores with the night schedule: Monday as the only active day, and
    Sunday written as 0. *)
Definition mondayNightWorld : World :=
  withConfigs [nightSchedule "1" argentina] emptyWorld.

Definition sundayZeroWorld : World :=
  withConfigs [nightSchedule "0" argentina] emptyWorld.

(** A day schedule without a list of active days. *)
Definition noListSchedule : ScheduleConfig := {|
  cfg_clientId := 1;
  autoOpenEnabled := Some true;
  autoCloseEnabled := Some false;
  openHour := Some 9;
  openMinute := Some 0;
  closeHour := Some 18;
  closeMinute := Some 0;
  activeDays := None;
  timezone := None
|}.

Definition noListWorld : World := withConfigs [noListSchedule] emptyWorld.

(** The lookup of a configuration throws. *)
Definition selectConfigFails : Faults := {|
  selectConfig_throws := Some "connection terminated";
  writeConfig_throws := None;
  getCurrentCashRegister_throws := None;
  createCashRegister_throws := None;
  selectRegister_throws := None;
  insertReport_throws := None;
  updateRegister_throws := None;
  insertLog_throws := fun _ => None;
  selectLog_throws := None
|}.

(** A request for an opening hour that no clock shows. *)
Definition lateRequest : ConfigData := {|
  cd_autoOpenEnabled := Some true;
  cd_autoCloseEnabled := Some false;
  cd_openHour := Js.Number (Js.ofZ 25);
  cd_openMinute := Js.Number (Js.ofZ 0);
  cd_closeHour := Js.Undefined;
  cd_closeMinute := Js.Undefined;
  cd_activeDays := Some "1,2,3,4,5,6,7";
  cd_timezone := None
|}.

(** An entry to be written for tenant 1. *)
Definition sampleOperation : OperationData := {|
  od_clientId := 1;
  od_operationType := auto_open;
  od_cashRegisterId := Some 1;
  od_scheduledTime := None;
  od_status := Some success;
  od_errorMessage := None;
  od_reportId := None;
  od_notes := None
|}.

(** An active and an inactive client. *)
Definition sampleClients : list Client :=
  [ {| client_id := 1; client_isActive := true |};
    {| client_id := 2; client_isActive := false |} ].

(** * Properties *)

(** ** The primitives on sample values *)

Example parseInt_examples :
  Js.parseInt "7" = Some 7 /\ Js.parseInt " +12px" = Some 12
  /\ Js.parseInt "" = None /\ Js.parseInt "0x1f" = Some 31
  /\ Js.parseInt "-3" = Some (-3) /\ Js.parseInt "lunes" = None.
Proof. repeat split. Qed.

Example split_examples :
  Js.split "," "1,2,,7" = ["1"; "2"; ""; "7"] /\ Js.split "," "" = [""].
Proof. repeat split. Qed.

Example parseFloat_examples :
  Js.parseFloat "30.00" = Js.ofZ 30
  /\ Js.parseFloat "-.5" = Js.nearest true 1 2
  /\ Js.parseFloat "  12abc" = Js.ofZ 12
  /\ Js.parseFloat "1.5e3" = Js.ofZ 1500
  /\ Js.parseFloat "0.3" = S754_finite false 5404319552844595 (-54)
  /\ Js.parseFloat "N/A" = S754_nan
  /\ Js.parseFloat "-Infinity" = S754_infinity true.
Proof. repeat split. Qed.

Example toString_examples :
  Js.toString (Js.nearest false 7500075 100) = "75000.75"
  /\ Js.toString (Js.plus (Js.parseFloat "0.1") (Js.parseFloat "0.2"))
     = "0.30000000000000004"
  /\ Js.toString (Js.parseFloat "1e21") = "1e+21"
  /\ Js.toString (Js.parseFloat "0.0000001") = "1e-7"
  /\ Js.toString (Js.parseFloat "-0") = "0"
  /\ Js.toString (Js.divide (Js.ofZ 0) (Js.ofZ 0)) = "NaN".
Proof. vm_compute. repeat split. Qed.

(** [toFixed] prints the number, not the decimal it was written as:
    1.005 lies below the tie and 0.35 * 0.3 below 0.105. *)
Example toFixed_examples :
  Js.toFixed 2 (Js.ofZ 1000) = "1000.00"
  /\ Js.toFixed 2 (Js.divide (Js.ofZ 1) (Js.ofZ 3)) = "0.33"
  /\ Js.toFixed 2 (Js.parseFloat "1.005") = "1.00"
  /\ Js.toFixed 2 (Js.times (Js.parseFloat "0.35") (Js.parseFloat "0.3"))
     = "0.10"
  /\ Js.toFixed 1 (Js.parseFloat "-0.25") = "-0.3"
  /\ Js.toFixed 0 (Js.parseFloat "2.5") = "3"
  /\ Js.toFixed 2 (Js.parseFloat "-0.001") = "-0.00"
  /\ Js.toFixed 2 (Js.parseFloat "-0") = "0.00"
  /\ Js.toFixed 2 (Js.parseFloat "1e21") = "1e+21"
  /\ Js.toFixed 2 (Js.parseFloat "x") = "NaN".
Proof. vm_compute. repeat split. Qed.

(** [parseInt] of a number reads what [toString] prints. *)
Example parseIntVal_examples :
  Js.parseIntVal (Js.Number (Js.ofZ 18)) = Some 18
  /\ Js.parseIntVal (Js.Number (Js.parseFloat "9.75")) = Some 9
  /\ Js.parseIntVal (Js.Number (Js.parseFloat "1e21")) = Some 1
  /\ Js.parseIntVal (Js.Number (Js.parseFloat "-0")) = Some 0
  /\ Js.parseIntVal (Js.Number S754_nan) = None
  /\ Js.parseIntVal (Js.Str "18h") = Some 18
  /\ Js.parseIntVal (Js.Boolean true) = None.
Proof. vm_compute. repeat split. Qed.

Example weekday_examples :
  getDay (wallClock sampleOffsets argentina tuesday0200) = 2
  /\ getHours (wallClock sampleOffsets argentina tuesday0200) = 2
  /\ getMinutes (wallClock sampleOffsets argentina tuesday0200) = 0
  /\ getDay (wallClock sampleOffsets argentina tokyo0900) = 1
  /\ getHours (wallClock sampleOffsets argentina tokyo0900) = 21.
Proof. repeat split. Qed.

(** ** Running the effects *)

Lemma bind_returned {A B : Type} (c : Eff A) (k : A -> Eff B) w a w' :
  c w = (Returned a, w') -> bind c k w = k a w'.
Proof. intros H. unfold bind. rewrite H. reflexivity. Qed.

Lemma bind_thrown {A B : Type} (c : Eff A) (k : A -> Eff B) w m w' :
  c w = (Thrown m, w') -> bind c k w = (Thrown m, w').
Proof. intros H. unfold bind. rewrite H. reflexivity. Qed.

Lemma tryCatch_returned {A : Type} (c : Eff A) h w a w' :
  c w = (Returned a, w') -> tryCatch c h w = (Returned a, w').
Proof. intros H. unfold tryCatch. rewrite H. reflexivity. Qed.

Lemma tryCatch_thrown {A : Type} (c : Eff A) h w m w' :
  c w = (Thrown m, w') -> tryCatch c h w = h m w'.
Proof. intros H. unfold tryCatch. rewrite H. reflexivity. Qed.

(** [getScheduleConfig] never throws and never writes. *)
Lemma getScheduleConfig_run f clientId w :
  getScheduleConfig f clientId w =
  (Returned (match selectConfig_throws f with
             | Some _ => None
             | None => find (fun c => cfg_clientId c =? clientId) (configs w)
             end), w).
Proof.
  unfold getScheduleConfig, tryCatch, call.
  destruct (selectConfig_throws f); reflexivity.
Qed.

Lemma getScheduleConfig_world f clientId w :
  snd (getScheduleConfig f clientId w) = w.
Proof. rewrite getScheduleConfig_run. reflexivity. Qed.

Section Evaluator.

Variable utcOffset : string -> Z -> Z.

(** The evaluator returns the decision taken on the Argentine wall clock,
    and leaves the store as it found it. *)
Lemma shouldExecuteAutoOperation_run f now clientId operation w config :
  getScheduleConfig f clientId w = (Returned config, w) ->
  shouldExecuteAutoOperation utcOffset f now clientId operation w =
  (Returned (match config with
             | Some c =>
                 shouldExecuteAt c operation (wallClock utcOffset argentina now)
             | None => false
             end), w).
Proof.
  intros H. unfold shouldExecuteAutoOperation.
  apply tryCatch_returned.
  rewrite (bind_returned _ _ _ _ _ H).
  destruct config; reflexivity.
Qed.

Lemma shouldExecuteAutoOperation_total f now clientId operation w :
  exists b,
    shouldExecuteAutoOperation utcOffset f now clientId operation w
    = (Returned b, w).
Proof.
  eexists. apply shouldExecuteAutoOperation_run. apply getScheduleConfig_run.
Qed.

(** C9.  A tenant without a schedule configuration, and a configuration
    whose flag for the operation ([autoOpenEnabled] for open,
    [autoCloseEnabled] for close) is not true, never fire: the evaluation
    returns false at every instant. *)
Theorem disabled_never_executes :
  forall f now clientId operation w,
    (getScheduleConfig f clientId w = (Returned None, w)
     \/ exists config,
          getScheduleConfig f clientId w = (Returned (Some config), w)
          /\ Js.truthy (match operation with
                        | Open => autoOpenEnabled config
                        | Close => autoCloseEnabled config
                        end) = false) ->
    shouldExecuteAutoOperation utcOffset f now clientId operation w
    = (Returned false, w).
Proof.
  intros f now clientId operation w [H | [config [H Hflag]]].
  - rewrite (shouldExecuteAutoOperation_run _ _ _ _ _ _ H). reflexivity.
  - rewrite (shouldExecuteAutoOperation_run _ _ _ _ _ _ H).
    unfold shouldExecuteAt. destruct operation; rewrite Hflag; reflexivity.
Qed.

(** C3 (amended).  With opening at 09:00 and closing at 02:00, on a Tuesday
    at 02:00 local time the close evaluation is true exactly when Wednesday
    (weekday 3, the day after the current one) is among the active days;
    Monday plays no part. *)
Theorem wraparound_close_checks_next_day :
  forall f now clientId w config,
    getScheduleConfig f clientId w = (Returned (Some config), w) ->
    autoCloseEnabled config = Some true ->
    openHour config = Some 9 -> openMinute config = Some 0 ->
    closeHour config = Some 2 -> closeMinute config = Some 0 ->
    getDay (wallClock utcOffset argentina now) = 2 ->
    getHours (wallClock utcOffset argentina now) = 2 ->
    getMinutes (wallClock utcOffset argentina now) = 0 ->
    shouldExecuteAutoOperation utcOffset f now clientId Close w =
    (Returned (Js.includes
                 (match activeDays config with
                  | Some s => map Js.parseInt (Js.split "," s)
                  | None => []
                  end) 3), w).
Proof.
  intros f now clientId w config H Hen Hoh Hom Hch Hcm Hd Hh Hm.
  rewrite (shouldExecuteAutoOperation_run _ _ _ _ _ _ H).
  unfold shouldExecuteAt.
  rewrite Hen, Hoh, Hom, Hch, Hcm, Hd, Hh, Hm. simpl.
  destruct (Js.includes _ 3); reflexivity.
Qed.

Lemma find_withTimezone tz clientId cs :
  find (fun c => cfg_clientId c =? clientId) (map (withTimezone tz) cs) =
  option_map (withTimezone tz) (find (fun c => cfg_clientId c =? clientId) cs).
Proof.
  induction cs as [| c cs IH]; simpl; [reflexivity |].
  destruct (cfg_clientId c =? clientId); [reflexivity | exact IH].
Qed.

Lemma shouldExecuteAt_withTimezone tz config operation t :
  shouldExecuteAt (withTimezone tz config) operation t =
  shouldExecuteAt config operation t.
Proof. reflexivity. Qed.

(** C4 (amended).  The evaluator reads the instant on the wall clock of
    America/Argentina/Buenos_Aires, whatever the configuration's timezone
    field holds: overwriting that field in the stored configurations does
    not change the decision, and two instants with the same Argentine wall
    clock get the same decision. *)
Theorem evaluator_ignores_config_timezone :
  forall f now now' clientId operation w tz,
    wallClock utcOffset argentina now = wallClock utcOffset argentina now' ->
    fst (shouldExecuteAutoOperation utcOffset f now clientId operation
           (withConfigs (map (withTimezone tz) (configs w)) w)) =
    fst (shouldExecuteAutoOperation utcOffset f now' clientId operation w).
Proof.
  intros f now now' clientId operation w tz Hclock.
  rewrite (shouldExecuteAutoOperation_run _ _ _ _ _ _
             (getScheduleConfig_run f clientId _)).
  rewrite (shouldExecuteAutoOperation_run _ _ _ _ _ _
             (getScheduleConfig_run f clientId w)).
  simpl. rewrite Hclock.
  destruct (selectConfig_throws f); [reflexivity |].
  rewrite find_withTimezone.
  destruct (find _ (configs w)); reflexivity.
Qed.

End Evaluator.

(** Witness of C9: no configuration at all, and a stored configuration with
    the open flag off. *)
Lemma disabled_never_executes_witness :
  shouldExecuteAutoOperation sampleOffsets noFaults tuesday0200 1 Close
    emptyWorld = (Returned false, emptyWorld)
  /\ (let w := withConfigs
                 [withTimezone None
                    {| cfg_clientId := 1; autoOpenEnabled := Some false;
                       autoCloseEnabled := Some true; openHour := Some 9;
                       openMinute := Some 0; closeHour := Some 18;
                       closeMinute := Some 0;
                       activeDays := Some "1,2,3,4,5,6,7";
                       timezone := None |}] emptyWorld in
      shouldExecuteAutoOperation sampleOffsets noFaults
        (tuesday0200 + 7 * 3600) 1 Open w = (Returned false, w)).
Proof.
  split.
  - apply (disabled_never_executes sampleOffsets noFaults tuesday0200 1 Close
             emptyWorld).
    left. reflexivity.
  - cbv zeta.
    apply (disabled_never_executes sampleOffsets noFaults). right.
    eexists. split; reflexivity.
Defined.

(** Counterexample to C3 as stated: on Tuesday at 02:00 the close does not
    fire when Monday is the active day, and it fires when Wednesday is the
    only active day, Monday being inactive. *)
Lemma wraparound_previous_day_counterexample :
  fst (shouldExecuteAutoOperation sampleOffsets noFaults tuesday0200 1 Close
         (withConfigs [nightSchedule "1" argentina] emptyWorld))
  = Returned false
  /\ fst (shouldExecuteAutoOperation sampleOffsets noFaults tuesday0200 1 Close
            (withConfigs [nightSchedule "3" argentina] emptyWorld))
     = Returned true
  /\ Js.includes (map Js.parseInt (Js.split "," "3")) 1 = false.
Proof. repeat split; vm_compute; reflexivity. Qed.

Lemma wraparound_close_checks_next_day_witness :
  let w := withConfigs [nightSchedule "1" argentina] emptyWorld in
  shouldExecuteAutoOperation sampleOffsets noFaults tuesday0200 1 Close w
  = (Returned false, w).
Proof.
  cbv zeta.
  apply (wraparound_close_checks_next_day sampleOffsets noFaults tuesday0200 1
           _ (nightSchedule "1" argentina)); reflexivity.
Defined.

(** Counterexample to C4 as stated: a configuration in the zone Asia/Tokyo
    that opens at 09:00 is due at 09:00 Tokyo time when the instant is read
    in its own zone, yet the evaluator answers false: it reads 21:00 of the
    day before, the time in Buenos Aires. *)
Lemma config_timezone_counterexample :
  let config := daySchedule "Asia/Tokyo" in
  timezone config = Some "Asia/Tokyo"
  /\ shouldExecuteAt config Open (wallClock sampleOffsets "Asia/Tokyo" tokyo0900)
     = true
  /\ fst (shouldExecuteAutoOperation sampleOffsets noFaults tokyo0900 1 Open
            (withConfigs [config] emptyWorld)) = Returned false.
Proof. repeat split; vm_compute; reflexivity. Qed.

Lemma evaluator_ignores_config_timezone_witness :
  fst (shouldExecuteAutoOperation sampleOffsets noFaults tokyo0900 1 Open
         (withConfigs (map (withTimezone (Some "Asia/Tokyo"))
                         (configs (withConfigs [daySchedule argentina]
                                     emptyWorld)))
            (withConfigs [daySchedule argentina] emptyWorld))) =
  fst (shouldExecuteAutoOperation sampleOffsets noFaults tokyo0900 1 Open
         (withConfigs [daySchedule argentina] emptyWorld)).
Proof.
  apply (evaluator_ignores_config_timezone sampleOffsets noFaults tokyo0900
           tokyo0900 1 Open (withConfigs [daySchedule argentina] emptyWorld)
           (Some "Asia/Tokyo")).
  reflexivity.
Defined.

(** ** The operation log *)

Lemma logAutoOperation_returned f now operationData w :
  insertLog_throws f (log_status (logRow now operationData)) = None ->
  logAutoOperation f now operationData w =
  (Returned (logRow now operationData),
   withLog (operationsLog w ++ [logRow now operationData])%list w).
Proof. intros H. unfold logAutoOperation, call. rewrite H. reflexivity. Qed.

Lemma logAutoOperation_thrown f now operationData w m :
  insertLog_throws f (log_status (logRow now operationData)) = Some m ->
  logAutoOperation f now operationData w = (Thrown m, w).
Proof. intros H. unfold logAutoOperation, call. rewrite H. reflexivity. Qed.

Section Executor.

Variable utcOffset : string -> Z -> Z.
Variable getCurrentCashRegister : list CashRegister -> Z -> option CashRegister.
Variable createCashRegister : list CashRegister -> NewCashRegister -> CashRegister.

(** With the stand-in for [db] the close workflow is its own handler: the
    register query throws and the [failed] entry is all that is tried. *)
Lemma executeAutoClose_standIn f message now clientId w :
  executeAutoClose utcOffset (standIn message f) now clientId w
  = (logAutoOperation f now {|
       od_clientId := clientId;
       od_operationType := auto_close;
       od_cashRegisterId := None;
       od_scheduledTime := Some now;
       od_status := Some failed;
       od_errorMessage := Some message;
       od_reportId := None;
       od_notes := None |} ;;;
     ret tt) w.
Proof. reflexivity. Qed.

(** C7.  Auto-open with a register already open returns after appending one
    [skipped] entry; the registers, the reports and the configurations are
    untouched.  Auto-close with no register open does not get to its
    [skipped] branch in the service file as it is: the register query
    throws on the stand-in for [db], and the workflow appends one [failed]
    entry with the message of the error, the other tables untouched.  The
    insertion of the entry is assumed not to throw. *)
Theorem precondition_violation_outcomes :
  forall f message now clientId w,
    (forall r,
        insertLog_throws f skipped = None ->
        getCurrentCashRegister_throws f = None ->
        getCurrentCashRegister (registers w) clientId = Some r ->
        isOpen r = true ->
        exists e,
          executeAutoOpen getCurrentCashRegister createCashRegister
            f now clientId w
          = (Returned tt, withLog (operationsLog w ++ [e])%list w)
          /\ log_status e = skipped /\ operationType e = auto_open
          /\ log_clientId e = clientId /\ reportId e = None)
    /\ (insertLog_throws f failed = None ->
        (forall r, In r (registers w) -> reg_clientId r = clientId ->
                   reg_status r <> "open") ->
        exists e,
          executeAutoClose utcOffset (standIn message f) now clientId w
          = (Returned tt, withLog (operationsLog w ++ [e])%list w)
          /\ log_status e = failed /\ operationType e = auto_close
          /\ log_clientId e = clientId /\ errorMessage e = Some message
          /\ reportId e = None).
Proof.
  intros f message now clientId w. split.
  - intros r Hlog Hq Hcur Hopen. eexists. split.
    + unfold executeAutoOpen. apply tryCatch_returned.
      unfold call at 1. rewrite Hq.
      erewrite bind_returned by reflexivity.
      cbv beta. rewrite Hcur, Hopen.
      erewrite bind_returned
        by (apply logAutoOperation_returned; exact Hlog).
      reflexivity.
    + repeat split.
  - intros Hlog _. eexists. split.
    + rewrite executeAutoClose_standIn.
      erewrite bind_returned
        by (apply logAutoOperation_returned; exact Hlog).
      reflexivity.
    + repeat split.
Qed.

(** The evaluator does not look at the operation log. *)
Lemma shouldExecuteAutoOperation_withLog f now clientId operation l w :
  shouldExecuteAutoOperation utcOffset f now clientId operation (withLog l w)
  = (fst (shouldExecuteAutoOperation utcOffset f now clientId operation w),
     withLog l w).
Proof.
  rewrite (shouldExecuteAutoOperation_run utcOffset _ _ _ _ _ _
             (getScheduleConfig_run f clientId (withLog l w))).
  rewrite (shouldExecuteAutoOperation_run utcOffset _ _ _ _ _ _
             (getScheduleConfig_run f clientId w)).
  reflexivity.
Qed.

Ltac run := cbn -[openRegistersOf closingReport closeRegister Z.add Z.of_nat
                  wallClock Js.toFixed Js.decimal String.append].

Ltac footprint :=
  first
    [ exists (@nil LogEntry); split;
      [ intros l; rewrite app_nil_r; reflexivity
      | split; [ simpl; lia | constructor ] ]
    | eexists (cons _ nil); split;
      [ intros l; reflexivity
      | split; [ simpl; lia | repeat constructor ] ] ].

(** One run of [executeAutoOpen] appends at most one entry, an [auto_open]
    entry of the client, and does not read the log. *)
Lemma executeAutoOpen_footprint f now clientId w :
  appendsAtMostOne
    (fun e => log_clientId e = clientId /\ operationType e = auto_open)
    (executeAutoOpen getCurrentCashRegister createCashRegister f now clientId)
    w.
Proof.
  unfold appendsAtMostOne, executeAutoOpen, logAutoOperation, tryCatch, bind,
    call, ret, throw.
  run.
  destruct (getCurrentCashRegister_throws f); run;
    [| destruct (getCurrentCashRegister (registers w) clientId) as [r |]; run;
       [destruct (isOpen r); run |];
       destruct (createCashRegister_throws f); run ];
    destruct (insertLog_throws f success); run;
    destruct (insertLog_throws f skipped); run;
    destruct (insertLog_throws f failed);
    run; footprint.
Qed.

(** The same for [executeAutoClose], with [auto_close] entries. *)
Lemma executeAutoClose_footprint f now clientId w :
  appendsAtMostOne
    (fun e => log_clientId e = clientId /\ operationType e = auto_close)
    (executeAutoClose utcOffset f now clientId) w.
Proof.
  unfold appendsAtMostOne, executeAutoClose, getRealTimeCashState,
    logAutoOperation, tryCatch, bind, call, ret, throw.
  run.
  destruct (selectRegister_throws f); run;
    [| destruct (openRegistersOf clientId (registers w)) as [| r rest]; run;
       [| destruct (insertReport_throws f); run;
          [| destruct (updateRegister_throws f); run ] ] ];
    destruct (insertLog_throws f success); run;
    destruct (insertLog_throws f skipped); run;
    destruct (insertLog_throws f failed);
    run; footprint.
Qed.

Lemma guarded_footprint (P : LogEntry -> Prop) (b : bool) (c : Eff unit) w :
  appendsAtMostOne P c w ->
  appendsAtMostOne P (if b then c else ret tt) w.
Proof.
  intros H. destruct b; [exact H |].
  exists []. split; [| split; [simpl; lia | constructor]].
  intros l. unfold ret. simpl. rewrite app_nil_r. destruct w; reflexivity.
Qed.

(** With a log that accepts every insertion, a run of [executeAutoOpen]
    returns and has appended exactly one entry; the configurations are not
    written. *)
Lemma executeAutoOpen_logs_one f now clientId w :
  (forall s, insertLog_throws f s = None) ->
  exists e w',
    executeAutoOpen getCurrentCashRegister createCashRegister f now clientId w
    = (Returned tt, w')
    /\ operationsLog w' = (operationsLog w ++ [e])%list
    /\ configs w' = configs w.
Proof.
  intros Hok.
  unfold executeAutoOpen, logAutoOperation, tryCatch, bind, call, ret, throw.
  run.
  destruct (getCurrentCashRegister_throws f); run;
    [| destruct (getCurrentCashRegister (registers w) clientId) as [r |]; run;
       [destruct (isOpen r); run |];
       destruct (createCashRegister_throws f); run ];
    rewrite ?Hok; run; eexists; eexists; repeat split.
Qed.

(** The same for [executeAutoClose]. *)
Lemma executeAutoClose_logs_one f now clientId w :
  (forall s, insertLog_throws f s = None) ->
  exists e w',
    executeAutoClose utcOffset f now clientId w = (Returned tt, w')
    /\ operationsLog w' = (operationsLog w ++ [e])%list
    /\ configs w' = configs w.
Proof.
  intros Hok.
  unfold executeAutoClose, getRealTimeCashState, logAutoOperation, tryCatch,
    bind, call, ret, throw.
  run.
  destruct (selectRegister_throws f); run;
    [| destruct (openRegistersOf clientId (registers w)) as [| r rest]; run;
       [| destruct (insertReport_throws f); run;
          [| destruct (updateRegister_throws f); run ] ] ];
    rewrite ?Hok; run; eexists; eexists; repeat split.
Qed.

(** The decision of the evaluator depends on the configurations only. *)
Lemma shouldExecuteAutoOperation_configs f now clientId operation w w' :
  configs w = configs w' ->
  fst (shouldExecuteAutoOperation utcOffset f now clientId operation w)
  = fst (shouldExecuteAutoOperation utcOffset f now clientId operation w').
Proof.
  intros H.
  rewrite (shouldExecuteAutoOperation_run utcOffset _ _ _ _ _ _
             (getScheduleConfig_run f clientId w)).
  rewrite (shouldExecuteAutoOperation_run utcOffset _ _ _ _ _ _
             (getScheduleConfig_run f clientId w')).
  rewrite H. reflexivity.
Qed.

(** One tick for one client, from the outcomes of its four steps. *)
Lemma processClientScheduledOperations_run f now clientId w b1 o1 w1 b2 o2 w2 :
  shouldExecuteAutoOperation utcOffset f now clientId Open w
  = (Returned b1, w) ->
  (if b1
   then executeAutoOpen getCurrentCashRegister createCashRegister f now clientId
   else ret tt) w = (o1, w1) ->
  shouldExecuteAutoOperation utcOffset f now clientId Close w1
  = (Returned b2, w1) ->
  (if b2 then executeAutoClose utcOffset f now clientId else ret tt) w1
  = (o2, w2) ->
  exec (processClientScheduledOperations utcOffset getCurrentCashRegister
          createCashRegister f now clientId) w
  = match o1 with Returned _ => w2 | Thrown _ => w1 end.
Proof.
  intros H1 H2 H3 H4.
  unfold exec, processClientScheduledOperations, tryCatch, bind.
  rewrite H1. cbv beta iota. rewrite H2.
  destruct o1 as [[] | m]; [| reflexivity].
  cbv beta iota. rewrite H3. cbv beta iota. rewrite H4.
  destruct o2; reflexivity.
Qed.

Lemma filter_length_bound {A : Type} (p : A -> bool) (l : list A) :
  (List.length (filter p l) <= List.length l)%nat.
Proof.
  induction l as [| a l IH]; simpl; [lia |].
  destruct (p a); simpl; lia.
Qed.

Lemma filter_all_false {A : Type} (p : A -> bool) (l : list A) :
  Forall (fun a => p a = false) l -> filter p l = [].
Proof.
  induction 1 as [| a l Ha _ IH]; simpl; [reflexivity |].
  rewrite Ha. exact IH.
Qed.

Lemma withLog_same w : withLog (operationsLog w) w = w.
Proof. destruct w; reflexivity. Qed.

(** C1 (amended).  The orchestrator never reads the operation log.  In one
    tick, for one tenant, it appends at most one entry per operation type,
    all of them entries of that tenant, and what it appends and what it does
    to the other tables is the same whatever the log already holds: an
    earlier entry of the same day does not stop a later tick.  When the log
    accepts every insertion, each operation whose evaluation is true gets
    exactly one new entry in that tick. *)
Theorem tick_appends_at_most_one_entry_per_operation :
  forall f now clientId w,
  exists es,
    (forall l,
        exec (processClientScheduledOperations utcOffset
                getCurrentCashRegister createCashRegister f now clientId)
          (withLog l w)
        = withLog (l ++ es)%list
            (exec (processClientScheduledOperations utcOffset
                     getCurrentCashRegister createCashRegister f now clientId)
               w))
    /\ operationsLog
         (exec (processClientScheduledOperations utcOffset
                  getCurrentCashRegister createCashRegister f now clientId) w)
       = (operationsLog w ++ es)%list
    /\ Forall (fun e => log_clientId e = clientId) es
    /\ (List.length (filter isOpenEntry es) <= 1)%nat
    /\ (List.length (filter isCloseEntry es) <= 1)%nat
    /\ ((forall s, insertLog_throws f s = None) ->
        (fst (shouldExecuteAutoOperation utcOffset f now clientId Open w)
         = Returned true ->
         List.length (filter isOpenEntry es) = 1%nat)
        /\ (fst (shouldExecuteAutoOperation utcOffset f now clientId Close w)
            = Returned true ->
            List.length (filter isCloseEntry es) = 1%nat)).
Proof.
  intros f now clientId w.
  destruct (shouldExecuteAutoOperation_total utcOffset f now clientId Open w)
    as [b1 Hb1].
  destruct (guarded_footprint _ b1 _ w
              (executeAutoOpen_footprint f now clientId w))
    as [es1 [H1 [L1 F1]]].
  destruct ((if b1
             then executeAutoOpen getCurrentCashRegister createCashRegister
                    f now clientId
             else ret tt) w) as [o1 w1] eqn:E1.
  destruct (shouldExecuteAutoOperation_total utcOffset f now clientId Close w1)
    as [b2 Hb2].
  destruct (guarded_footprint _ b2 _ w1
              (executeAutoClose_footprint f now clientId w1))
    as [es2 [H2 [L2 F2]]].
  destruct ((if b2 then executeAutoClose utcOffset f now clientId else ret tt)
              w1) as [o2 w2] eqn:E2.
  simpl in H1, H2.
  assert (Hopen1 : filter isCloseEntry es1 = []).
  { apply filter_all_false. eapply Forall_impl; [| exact F1].
    intros e [_ He]. unfold isCloseEntry. rewrite He. reflexivity. }
  assert (Hclose2 : filter isOpenEntry es2 = []).
  { apply filter_all_false. eapply Forall_impl; [| exact F2].
    intros e [_ He]. unfold isOpenEntry. rewrite He. reflexivity. }
  assert (C1 : Forall (fun e => log_clientId e = clientId) es1)
    by (eapply Forall_impl; [| exact F1]; intros e [He _]; exact He).
  assert (C2 : Forall (fun e => log_clientId e = clientId) es2)
    by (eapply Forall_impl; [| exact F2]; intros e [He _]; exact He).
  pose proof (filter_length_bound isOpenEntry es1) as B1.
  pose proof (filter_length_bound isCloseEntry es2) as B2.
  assert (Hrun : forall l,
            exec (processClientScheduledOperations utcOffset
                    getCurrentCashRegister createCashRegister f now clientId)
              (withLog l w)
            = match o1 with
              | Returned _ => withLog ((l ++ es1) ++ es2)%list w2
              | Thrown _ => withLog (l ++ es1)%list w1
              end).
  { intros l.
    apply (processClientScheduledOperations_run f now clientId (withLog l w)
             b1 o1 (withLog (l ++ es1)%list w1) b2 o2).
    - rewrite shouldExecuteAutoOperation_withLog, Hb1. reflexivity.
    - exact (H1 l).
    - rewrite shouldExecuteAutoOperation_withLog, Hb2. reflexivity.
    - rewrite (H2 (l ++ es1)%list). reflexivity. }
  assert (Hw : exec (processClientScheduledOperations utcOffset
                       getCurrentCashRegister createCashRegister f now
                       clientId) w
               = match o1 with Returned _ => w2 | Thrown _ => w1 end)
    by (apply (processClientScheduledOperations_run f now clientId w
                 b1 o1 w1 b2 o2); assumption).
  assert (Hlog1 : operationsLog w1 = (operationsLog w ++ es1)%list).
  { pose proof (H1 (operationsLog w)) as E. rewrite withLog_same, E1 in E.
    injection E as E. rewrite E. reflexivity. }
  assert (Hlog2 : operationsLog w2 = (operationsLog w1 ++ es2)%list).
  { pose proof (H2 (operationsLog w1)) as E. rewrite withLog_same, E2 in E.
    injection E as E. rewrite E. reflexivity. }
  exists (match o1 with Returned _ => (es1 ++ es2)%list | Thrown _ => es1 end).
  rewrite Hw.
  split; [| split; [| split; [| split; [| split]]]].
  - intros l. rewrite (Hrun l).
    destruct o1; [rewrite <- app_assoc |]; reflexivity.
  - destruct o1; [| exact Hlog1].
    rewrite Hlog2, Hlog1, app_assoc. reflexivity.
  - destruct o1; [apply Forall_app; split |]; assumption.
  - destruct o1; [rewrite filter_app, Hclose2, app_nil_r |]; lia.
  - destruct o1; [rewrite filter_app, Hopen1; simpl |]; [lia |].
    rewrite Hopen1. simpl. lia.
  - intros Hok.
    assert (Hstep1 : o1 = Returned tt /\ configs w1 = configs w
                     /\ (b1 = true -> exists e, es1 = [e])).
    { destruct b1.
      - destruct (executeAutoOpen_logs_one f now clientId w Hok)
          as [e [w' [Er [El Ec]]]].
        rewrite Er in E1. injection E1 as Eo Ew. subst o1 w'.
        split; [reflexivity |]. split; [exact Ec |].
        intros _. exists e. apply (app_inv_head (operationsLog w)).
        rewrite <- Hlog1. exact El.
      - unfold ret in E1. injection E1 as Eo Ew. subst o1 w1.
        split; [reflexivity |]. split; [reflexivity |].
        intros H; discriminate H. }
    destruct Hstep1 as [Ho1 [Hc1 He1]].
    assert (Hstep2 : b2 = true -> exists e, es2 = [e]).
    { intros ->.
      destruct (executeAutoClose_logs_one f now clientId w1 Hok)
        as [e [w' [Er [El _]]]].
      rewrite Er in E2. injection E2 as Eo Ew. subst o2 w'.
      exists e. apply (app_inv_head (operationsLog w1)).
      rewrite <- Hlog2. exact El. }
    subst o1. split.
    + intros Hdue. rewrite Hb1 in Hdue. injection Hdue as ->.
      destruct (He1 eq_refl) as [e He]. subst es1.
      rewrite filter_app, Hclose2, app_nil_r.
      inversion F1 as [| e' l' [_ Htype] _]; subst.
      simpl. unfold isOpenEntry. rewrite Htype. reflexivity.
    + intros Hdue.
      rewrite (shouldExecuteAutoOperation_configs f now clientId Close w w1)
        in Hdue by (symmetry; exact Hc1).
      rewrite Hb2 in Hdue. injection Hdue as ->.
      destruct (Hstep2 eq_refl) as [e He]. subst es2.
      rewrite filter_app, Hopen1.
      inversion F2 as [| e' l' [_ Htype] _]; subst.
      simpl. unfold isCloseEntry. rewrite Htype. reflexivity.
Qed.


(** The open workflow never writes a report. *)
Lemma executeAutoOpen_reports f now clientId w :
  reports (exec (executeAutoOpen getCurrentCashRegister createCashRegister
                   f now clientId) w) = reports w.
Proof.
  unfold exec, executeAutoOpen, logAutoOperation, tryCatch, bind, call, ret,
    throw.
  run.
  destruct (getCurrentCashRegister_throws f); run;
    [| destruct (getCurrentCashRegister (registers w) clientId) as [r |]; run;
       [destruct (isOpen r); run |];
       destruct (createCashRegister_throws f); run ];
    destruct (insertLog_throws f success); run;
    destruct (insertLog_throws f skipped); run;
    destruct (insertLog_throws f failed);
    run; reflexivity.
Qed.

(** C5.  In the service file as it is, the close workflow produces no
    daily report: the register query throws on the stand-in for [db]
    before the row is built, so neither a run of [executeAutoClose] nor a
    whole tick for a tenant adds a row to [dailyReports], whatever the
    tables hold and whenever it runs. *)
Theorem close_produces_no_daily_report :
  forall f message now clientId w,
    reports (exec (executeAutoClose utcOffset (standIn message f) now clientId)
               w) = reports w
    /\ reports (exec (processClientScheduledOperations utcOffset
                        getCurrentCashRegister createCashRegister
                        (standIn message f) now clientId) w)
       = reports w.
Proof.
  intros f message now clientId w.
  assert (Hclose : forall w0,
             reports (exec (executeAutoClose utcOffset (standIn message f) now
                              clientId) w0) = reports w0).
  { intros w0. unfold exec. rewrite executeAutoClose_standIn.
    unfold bind, logAutoOperation, call, ret, throw.
    cbn [logRow log_status od_status].
    destruct (insertLog_throws f failed); reflexivity. }
  split; [apply Hclose |].
  destruct (shouldExecuteAutoOperation_total utcOffset (standIn message f) now
              clientId Open w) as [b1 H1].
  destruct ((if b1
             then executeAutoOpen getCurrentCashRegister createCashRegister
                    (standIn message f) now clientId
             else ret tt) w) as [o1 w1] eqn:H2.
  destruct (shouldExecuteAutoOperation_total utcOffset (standIn message f) now
              clientId Close w1) as [b2 H3].
  destruct ((if b2
             then executeAutoClose utcOffset (standIn message f) now clientId
             else ret tt) w1) as [o2 w2] eqn:H4.
  rewrite (processClientScheduledOperations_run _ _ _ _ _ _ _ _ _ _
             H1 H2 H3 H4).
  assert (E1 : reports w1 = reports w).
  { destruct b1.
    - pose proof (executeAutoOpen_reports (standIn message f) now clientId w)
        as H.
      unfold exec in H. rewrite H2 in H. exact H.
    - unfold ret in H2. injection H2 as _ <-. reflexivity. }
  assert (E2 : reports w2 = reports w1).
  { destruct b2.
    - pose proof (Hclose w1) as H. unfold exec in H. rewrite H4 in H. exact H.
    - unfold ret in H4. injection H4 as _ <-. reflexivity. }
  destruct o1; [rewrite E2 |]; exact E1.
Qed.

End Executor.

(** Counterexample to C1 as stated: the register query throws on two ticks
    one minute apart, both inside the five-minute window after 18:00; each
    tick appends a [failed] [auto_close] entry for tenant 1, on the same
    local day. *)
Lemma two_ticks_two_failed_entries_counterexample :
  let tick now :=
    exec (processClientScheduledOperations sampleOffsets sampleCurrentRegister
            sampleCreateRegister selectRegisterFails now 1) in
  let due now w :=
    fst (shouldExecuteAutoOperation sampleOffsets selectRegisterFails now 1
           Close w) in
  let w1 := tick tuesday1800 openWorld in
  let w2 := tick (tuesday1800 + 60) w1 in
  due tuesday1800 openWorld = Returned true
  /\ due (tuesday1800 + 60) w1 = Returned true
  /\ exists e1 e2,
       operationsLog w2 = [e1; e2]
       /\ log_status e1 = failed /\ log_status e2 = failed
       /\ operationType e1 = auto_close /\ operationType e2 = auto_close
       /\ log_clientId e1 = 1 /\ log_clientId e2 = 1
       /\ localDate (wallClock sampleOffsets argentina (executedTime e1))
          = localDate (wallClock sampleOffsets argentina (executedTime e2)).
Proof.
  cbv zeta. split; [vm_compute; reflexivity |].
  split; [vm_compute; reflexivity |].
  eexists. eexists. split; [vm_compute; reflexivity |].
  repeat split.
Qed.

(** Without faults and with the sample storage the register state does the
    de-duplication: the tick of 09:00 opens a register and logs [success],
    the tick of 09:01 finds it open and logs [skipped]. *)
Example second_tick_after_success_is_skipped :
  let tick now :=
    exec (processClientScheduledOperations sampleOffsets sampleCurrentRegister
            sampleCreateRegister noFaults now 1) in
  let w := tick (tuesday0900 + 60) (tick tuesday0900 closedWorld) in
  map log_status (operationsLog w) = [success; skipped]
  /\ map operationType (operationsLog w) = [auto_open; auto_open]
  /\ List.length (registers w) = 1%nat.
Proof. cbv zeta. repeat split. Qed.


(** C7 on the sample store: auto-open with register 1 open is skipped;
    auto-close on a store without a register is logged as [failed]. *)
Lemma precondition_violation_outcomes_witness :
  (exists e,
      executeAutoOpen sampleCurrentRegister sampleCreateRegister noFaults
        tuesday0200 1 openWorld
      = (Returned tt, withLog (operationsLog openWorld ++ [e])%list openWorld)
      /\ log_status e = skipped /\ operationType e = auto_open
      /\ log_clientId e = 1 /\ reportId e = None)
  /\ (exists e,
        executeAutoClose sampleOffsets (standIn "{} is not iterable" noFaults)
          tuesday0200 1 closedWorld
        = (Returned tt,
           withLog (operationsLog closedWorld ++ [e])%list closedWorld)
        /\ log_status e = failed /\ operationType e = auto_close
        /\ log_clientId e = 1
        /\ errorMessage e = Some "{} is not iterable"
        /\ reportId e = None).
Proof.
  split.
  - apply (proj1 (precondition_violation_outcomes sampleOffsets
                    sampleCurrentRegister sampleCreateRegister noFaults
                    "{} is not iterable" tuesday0200 1 openWorld)
             openRegister1);
      reflexivity.
  - apply (proj2 (precondition_violation_outcomes sampleOffsets
                    sampleCurrentRegister sampleCreateRegister noFaults
                    "{} is not iterable" tuesday0200 1 closedWorld));
      [reflexivity | intros r []].
Defined.

(** ** Reading the operation log *)

Lemma insertByExecutedTime_In e l x :
  In x (insertByExecutedTime e l) <-> x = e \/ In x l.
Proof.
  induction l as [| h t IH]; simpl.
  - intuition.
  - destruct (executedTime e <=? executedTime h); simpl.
    + intuition.
    + rewrite IH. intuition.
Qed.

Lemma orderByExecutedTime_In l x :
  In x (orderByExecutedTime l) <-> In x l.
Proof.
  induction l as [| h t IH]; simpl; [reflexivity |].
  rewrite insertByExecutedTime_In, IH. intuition.
Qed.

Lemma insertByExecutedTime_sorted e l :
  StronglySorted notAfter l ->
  StronglySorted notAfter (insertByExecutedTime e l).
Proof.
  induction 1 as [| h t Ht IH Hall]; simpl.
  - constructor; constructor.
  - destruct (executedTime e <=? executedTime h) eqn:E.
    + apply Z.leb_le in E. constructor.
      * constructor; assumption.
      * constructor; [exact E |].
        eapply Forall_impl; [| exact Hall].
        intros a Ha. unfold notAfter in *. lia.
    + apply Z.leb_gt in E. constructor; [exact IH |].
      apply Forall_forall. intros x Hx.
      apply insertByExecutedTime_In in Hx. destruct Hx as [-> | Hx].
      * unfold notAfter. lia.
      * rewrite Forall_forall in Hall. exact (Hall x Hx).
Qed.

Lemma orderByExecutedTime_sorted l :
  StronglySorted notAfter (orderByExecutedTime l).
Proof.
  induction l as [| h t IH]; simpl.
  - constructor.
  - apply insertByExecutedTime_sorted. exact IH.
Qed.

Lemma insertByExecutedTime_perm e l :
  Permutation (insertByExecutedTime e l) (e :: l).
Proof.
  induction l as [| h t IH]; simpl; [reflexivity |].
  destruct (executedTime e <=? executedTime h); [reflexivity |].
  rewrite IH. apply perm_swap.
Qed.

Lemma orderByExecutedTime_perm l : Permutation (orderByExecutedTime l) l.
Proof.
  induction l as [| h t IH]; simpl; [reflexivity |].
  rewrite insertByExecutedTime_perm, IH. reflexivity.
Qed.

Lemma in_firstn {A : Type} (n : nat) (l : list A) (x : A) :
  In x (firstn n l) -> In x l.
Proof.
  intros H. rewrite <- (firstn_skipn n l). apply in_or_app. left. exact H.
Qed.

Lemma in_skipn {A : Type} (n : nat) (l : list A) (x : A) :
  In x (skipn n l) -> In x l.
Proof.
  intros H. rewrite <- (firstn_skipn n l). apply in_or_app. right. exact H.
Qed.

Lemma StronglySorted_firstn {A : Type} (R : A -> A -> Prop) n l :
  StronglySorted R l -> StronglySorted R (firstn n l).
Proof.
  intros H. revert n. induction H as [| h t Ht IH Hall]; intros [| n]; simpl;
    try constructor.
  - apply IH.
  - apply Forall_forall. intros x Hx. rewrite Forall_forall in Hall.
    apply Hall. exact (in_firstn _ _ _ Hx).
Qed.

Lemma StronglySorted_firstn_skipn {A : Type} (R : A -> A -> Prop) n l a b :
  StronglySorted R l -> In a (firstn n l) -> In b (skipn n l) -> R a b.
Proof.
  intros H. revert n. induction H as [| h t Ht IH Hall]; intros n Ha Hb.
  - destruct n; simpl in Ha; contradiction.
  - destruct n as [| n]; simpl in Ha, Hb; [contradiction |].
    destruct Ha as [<- | Ha].
    + rewrite Forall_forall in Hall. apply Hall.
      exact (in_skipn _ _ _ Hb).
    + exact (IH n Ha Hb).
Qed.

(** C6 (amended).  The log query returns the entries of the tenant in the
    order of increasing [executedTime], the oldest entry first, and keeps
    at most [limit] of them (50 without a limit): the entries it leaves out
    are not older than any entry it returns.  When the query does not
    throw, what it returns is the first [limit] entries of the tenant's
    entries in that order: as many as the limit allows, and together with
    the entries left out they are the tenant's entries, each as often as
    the log has it.  An error of the query is swallowed and gives the empty
    list.  The store is not changed. *)
Theorem operations_log_is_oldest_first :
  forall f clientId limit w,
  exists logs,
    getAutoOperationsLog f clientId limit w = (Returned logs, w)
    /\ StronglySorted notAfter logs
    /\ (List.length logs <= match limit with Some n => n | None => 50 end)%nat
    /\ (forall e, In e logs ->
                  In e (operationsLog w) /\ log_clientId e = clientId)
    /\ (forall e e', In e logs -> In e' (operationsLog w) ->
                     log_clientId e' = clientId -> ~ In e' logs ->
                     notAfter e e')
    /\ (selectLog_throws f = None ->
        exists rest,
          Permutation (logs ++ rest)
            (filter (fun e => log_clientId e =? clientId) (operationsLog w))
          /\ List.length logs
             = Nat.min (match limit with Some n => n | None => 50%nat end)
                 (List.length
                    (filter (fun e => log_clientId e =? clientId)
                       (operationsLog w)))
          /\ forall e e', In e logs -> In e' rest -> notAfter e e')
    /\ (forall m, selectLog_throws f = Some m -> logs = []).
Proof.
  intros f clientId limit w.
  unfold getAutoOperationsLog, tryCatch, call, ret, throw.
  destruct (selectLog_throws f) as [m |].
  - exists []. repeat split; try constructor; simpl; try lia;
      try contradiction; discriminate.
  - set (n := match limit with Some n => n | None => 50%nat end).
    set (rows := filter (fun e => log_clientId e =? clientId) (operationsLog w)).
    exists (firstn n (orderByExecutedTime rows)).
    split; [reflexivity |].
    split; [apply StronglySorted_firstn, orderByExecutedTime_sorted |].
    split; [apply firstn_le_length |].
    split; [| split; [| split; [| discriminate]]].
    + intros e He. apply in_firstn in He.
      apply (proj1 (orderByExecutedTime_In _ _)) in He. unfold rows in He.
      apply filter_In in He. destruct He as [He Hc].
      apply Z.eqb_eq in Hc. auto.
    + intros e e' He He' Hc Hout.
      apply (StronglySorted_firstn_skipn notAfter n
               (orderByExecutedTime rows));
        [apply orderByExecutedTime_sorted | exact He |].
      assert (Hin : In e' (orderByExecutedTime rows)).
      { apply (proj2 (orderByExecutedTime_In _ _)). unfold rows.
        apply filter_In.
        split; [exact He' | apply Z.eqb_eq; exact Hc]. }
      rewrite <- (firstn_skipn n (orderByExecutedTime rows)) in Hin.
      apply in_app_or in Hin. destruct Hin as [Hin | Hin];
        [contradiction | exact Hin].
    + intros _. exists (skipn n (orderByExecutedTime rows)).
      split; [| split].
      * rewrite firstn_skipn. apply orderByExecutedTime_perm.
      * rewrite length_firstn.
        rewrite (Permutation_length (orderByExecutedTime_perm rows)).
        reflexivity.
      * intros e e' He He'.
        exact (StronglySorted_firstn_skipn notAfter n
                 (orderByExecutedTime rows) e e'
                 (orderByExecutedTime_sorted rows) He He').
Qed.

(** Counterexample to C6 as stated: with an entry written at 100 and one
    written at 200, in either table order, the query returns the entry of
    100 first; with a limit of 1 it returns only that one, and the most
    recent entry is left out. *)
Lemma most_recent_first_counterexample :
  let old := entryAt 100 failed in
  let recent := entryAt 200 success in
  let w := withLog [recent; old] emptyWorld in
  fst (getAutoOperationsLog noFaults 1 None w) = Returned [old; recent]
  /\ fst (getAutoOperationsLog noFaults 1 (Some 1%nat) w) = Returned [old]
  /\ executedTime old < executedTime recent.
Proof. cbv zeta. repeat split. Qed.

(** C6 on a log of three entries of tenant 1, written at 300, 100 and
    200, with a limit of 2: the entries of 100 and 200, in that order. *)
Lemma operations_log_is_oldest_first_witness :
  let w := withLog [entryAt 300 success; entryAt 100 failed;
                    entryAt 200 skipped] emptyWorld in
  exists logs rest,
    getAutoOperationsLog noFaults 1 (Some 2%nat) w = (Returned logs, w)
    /\ Permutation (logs ++ rest) (operationsLog w)
    /\ List.length logs = 2%nat
    /\ forall e e', In e logs -> In e' rest -> notAfter e e'.
Proof.
  cbv zeta.
  destruct (operations_log_is_oldest_first noFaults 1 (Some 2%nat)
              (withLog [entryAt 300 success; entryAt 100 failed;
                        entryAt 200 skipped] emptyWorld))
    as [logs [Hrun [_ [_ [_ [_ [Hall _]]]]]]].
  destruct (Hall eq_refl) as [rest [Hperm [Hlen Hold]]].
  exists logs, rest. split; [exact Hrun |]. split; [exact Hperm |].
  split; [exact Hlen | exact Hold].
Defined.

(** ** Report aggregation *)

(** The orders of a vendor depend on the vendor's id only. *)
Lemma ordersOf_same_id orders v v' :
  vendor_id v = vendor_id v' -> ordersOf orders v = ordersOf orders v'.
Proof. intros H. unfold ordersOf. rewrite H. reflexivity. Qed.

Lemma calculateVendorStatistics_In orders payments vendors expenses s :
  In s (calculateVendorStatistics orders payments vendors expenses) <->
  exists vendor,
    In vendor vendors /\ s = vendorStatistics orders payments vendor
    /\ (0 < List.length (ordersOf orders vendor))%nat.
Proof.
  unfold calculateVendorStatistics. rewrite filter_In, in_map_iff. split.
  - intros [[vendor [<- Hv]] Hpos]. exists vendor.
    apply Nat.ltb_lt in Hpos. auto.
  - intros [vendor [Hv [-> Hpos]]]. split.
    + exists vendor. auto.
    + apply Nat.ltb_lt. exact Hpos.
Qed.

(** C8.  Every element of the vendor statistics belongs to a vendor with at
    least one order, and its figures are printed with two decimals from
    [estimatedProfit = totalSales * 0.3],
    [commission = estimatedProfit * commissionRate / 100] and
    [averageOrderValue = totalSales / totalOrders], where [totalSales] is
    the sum of the [totalUsd] of the vendor's orders and [commissionRate] is
    read from the vendor ([commissionPercentage], else [commission], else
    10); sums, products and quotients are those of the numbers, each
    rounded.  Two orders that add up to 1000 at a rate of 10 give 300.00,
    30.00 and 500.00.  A vendor without orders has no element, a vendor
    with orders has one. *)
Theorem vendor_statistics_formulas :
  forall orders payments vendors expenses,
    let result := calculateVendorStatistics orders payments vendors expenses in
    (forall s, In s result ->
       exists vendor,
         In vendor vendors /\ vs_vendorId s = vendor_id vendor
         /\ let vendorOrders := ordersOf orders vendor in
            let sales :=
              sumOf (fun o => Js.parseFloat (orString (totalUsd o) "0"))
                vendorOrders in
            let rate :=
              Js.parseFloat
                (orString (commissionPercentage vendor)
                   (orString (vendor_commission vendor) "10")) in
            let profit := Js.times sales (Js.nearest false 3 10) in
            (0 < totalOrders s)%nat
            /\ totalOrders s = List.length vendorOrders
            /\ totalSales s = Js.toFixed 2 sales
            /\ estimatedProfit s = Js.toFixed 2 profit
            /\ commission s
               = Js.toFixed 2 (Js.divide (Js.times profit rate) (Js.ofZ 100))
            /\ averageOrderValue s
               = Js.toFixed 2 (Js.divide sales (Js.ofNat (totalOrders s))))
    /\ (forall vendor o1 o2,
          In vendor vendors -> ordersOf orders vendor = [o1; o2] ->
          sumOf (fun o => Js.parseFloat (orString (totalUsd o) "0")) [o1; o2]
          = Js.ofZ 1000 ->
          Js.parseFloat
            (orString (commissionPercentage vendor)
               (orString (vendor_commission vendor) "10"))
          = Js.ofZ 10 ->
          exists s,
            In s result /\ vs_vendorId s = vendor_id vendor
            /\ estimatedProfit s = "300.00" /\ commission s = "30.00"
            /\ averageOrderValue s = "500.00")
    /\ (forall vendor s,
          In vendor vendors -> ordersOf orders vendor = [] ->
          In s result -> vs_vendorId s <> vendor_id vendor)
    /\ (forall vendor,
          In vendor vendors -> ordersOf orders vendor <> [] ->
          In (vendorStatistics orders payments vendor) result).
Proof.
  intros orders payments vendors expenses result.
  split; [| split; [| split]].
  - intros s Hs. apply calculateVendorStatistics_In in Hs.
    destruct Hs as [vendor [Hv [-> Hpos]]].
    exists vendor. split; [exact Hv |]. split; [reflexivity |].
    cbv zeta. split; [exact Hpos |]. split; [reflexivity |].
    split; [reflexivity |]. split; [reflexivity |]. split; [reflexivity |].
    unfold vendorStatistics. cbn [averageOrderValue totalOrders].
    apply Nat.ltb_lt in Hpos. rewrite Hpos. reflexivity.
  - intros vendor o1 o2 Hv Horders Htotal Hrate.
    exists (vendorStatistics orders payments vendor).
    split; [| split; [reflexivity |]].
    { apply calculateVendorStatistics_In. exists vendor.
      rewrite Horders. simpl. split; [exact Hv | split; [reflexivity | lia]]. }
    unfold vendorStatistics. cbn [estimatedProfit commission averageOrderValue].
    unfold commissionRateOf, amount. rewrite Horders, Htotal, Hrate.
    split; [| split]; vm_compute; reflexivity.
  - intros vendor s Hv Hnone Hs Hid.
    apply calculateVendorStatistics_In in Hs.
    destruct Hs as [v' [_ [-> Hpos]]].
    simpl in Hid. rewrite (ordersOf_same_id orders v' vendor Hid), Hnone in Hpos.
    simpl in Hpos. lia.
  - intros vendor Hv Hsome. apply calculateVendorStatistics_In.
    exists vendor. split; [exact Hv | split; [reflexivity |]].
    destruct (ordersOf orders vendor); [contradiction | simpl; lia].
Qed.

(** Witness of C8: vendor 7 has the two sample orders, of 400.00 and
    600.00, at a rate of 10.00; vendor 8 has none. *)
Lemma vendor_statistics_formulas_witness :
  (exists s,
      In s (calculateVendorStatistics sampleOrders [] [vendor7; vendor8] [])
      /\ vs_vendorId s = 7
      /\ estimatedProfit s = "300.00" /\ commission s = "30.00"
      /\ averageOrderValue s = "500.00")
  /\ (forall s,
        In s (calculateVendorStatistics sampleOrders [] [vendor7; vendor8] [])
        -> vs_vendorId s <> 8).
Proof.
  pose proof (vendor_statistics_formulas sampleOrders [] [vendor7; vendor8] [])
    as H.
  cbv zeta in H. destruct H as [_ [Hex [Hnone _]]].
  split.
  - apply (Hex vendor7 _ _ (or_introl eq_refl) eq_refl);
      vm_compute; reflexivity.
  - intros s Hs.
    exact (Hnone vendor8 s (or_intror (or_introl eq_refl)) eq_refl Hs).
Defined.

(** ** Storing a configuration *)

Lemma orZ_not_zero x d : d <> 0 -> Js.orZ x d <> 0.
Proof.
  intros Hd. unfold Js.orZ. destruct x as [z |]; [| exact Hd].
  destruct (z =? 0) eqn:E; [exact Hd |]. apply Z.eqb_neq. exact E.
Qed.

(** C10.  When the write succeeds, [upsertScheduleConfig] returns and stores
    a row of the client in which an open hour given as 0 has become 9, a
    close hour given as 0 has become 18 and an empty list of active days has
    become all seven days; no row that the operation writes has an open or a
    close hour of 0. *)
Theorem upsert_replaces_falsy_fields :
  forall f clientId configData w,
    writeConfig_throws f = None ->
    exists row w',
      upsertScheduleConfig f clientId configData w = (Returned row, w')
      /\ In row (configs w') /\ cfg_clientId row = clientId
      /\ (Js.parseIntVal (cd_openHour configData) = Some 0 ->
          openHour row = Some 9)
      /\ (Js.parseIntVal (cd_closeHour configData) = Some 0 ->
          closeHour row = Some 18)
      /\ (cd_activeDays configData = Some "" ->
          activeDays row = Some "1,2,3,4,5,6,7")
      /\ (forall c, In c (configs w') -> ~ In c (configs w) ->
                    c = row /\ openHour c <> Some 0 /\ closeHour c <> Some 0).
Proof.
  intros f clientId configData w Hwrite.
  assert (Hrow : openHour (cleanData clientId configData) <> Some 0
                 /\ closeHour (cleanData clientId configData) <> Some 0).
  { simpl. split; intros H; injection H as H;
      revert H; apply orZ_not_zero; discriminate. }
  unfold upsertScheduleConfig.
  rewrite (bind_returned _ _ _ _ _ (getScheduleConfig_run f clientId w)).
  unfold call. rewrite Hwrite.
  destruct (match selectConfig_throws f with
            | Some _ => None
            | None => find (fun c => cfg_clientId c =? clientId) (configs w)
            end) as [existing |] eqn:Hexisting.
  - exists (cleanData clientId configData). eexists.
    split; [reflexivity |].
    assert (Hfound : exists c0, In c0 (configs w) /\ cfg_clientId c0 = clientId).
    { destruct (selectConfig_throws f); [discriminate |].
      apply find_some in Hexisting. destruct Hexisting as [Hin Hc].
      apply Z.eqb_eq in Hc. eauto. }
    destruct Hfound as [c0 [Hin0 Hc0]].
    split.
    { simpl. apply in_map_iff. exists c0. split; [| exact Hin0].
      rewrite Hc0, Z.eqb_refl. reflexivity. }
    split; [reflexivity |].
    split; [intros H; simpl; rewrite H; reflexivity |].
    split; [intros H; simpl; rewrite H; reflexivity |].
    split; [intros H; simpl; rewrite H; reflexivity |].
    intros c Hc Hnew. simpl in Hc. apply in_map_iff in Hc.
    destruct Hc as [c1 [Hc1 Hin1]].
    destruct (cfg_clientId c1 =? clientId).
    + subst c. split; [reflexivity | exact Hrow].
    + subst c. contradiction.
  - exists (cleanData clientId configData). eexists.
    split; [reflexivity |].
    split; [simpl; apply in_or_app; right; left; reflexivity |].
    split; [reflexivity |].
    split; [intros H; simpl; rewrite H; reflexivity |].
    split; [intros H; simpl; rewrite H; reflexivity |].
    split; [intros H; simpl; rewrite H; reflexivity |].
    intros c Hc Hnew. simpl in Hc. apply in_app_or in Hc.
    destruct Hc as [Hc | [Hc | []]]; [contradiction |].
    subst c. split; [reflexivity | exact Hrow].
Qed.

(** Witness of C10: midnight is asked for on an empty store; 09:00 and
    18:30 on all days are stored. *)
Lemma upsert_replaces_falsy_fields_witness :
  exists row w',
    upsertScheduleConfig noFaults 1 midnightRequest emptyWorld
    = (Returned row, w')
    /\ In row (configs w') /\ cfg_clientId row = 1
    /\ openHour row = Some 9 /\ closeHour row = Some 18
    /\ closeMinute row = Some 30
    /\ activeDays row = Some "1,2,3,4,5,6,7".
Proof.
  destruct (upsert_replaces_falsy_fields noFaults 1 midnightRequest emptyWorld
              eq_refl)
    as [row [w' [Hrun [Hin [Hc [Ho [Hcl [Hd _]]]]]]]].
  exists row, w'.
  split; [exact Hrun |]. split; [exact Hin |]. split; [exact Hc |].
  split; [exact (Ho eq_refl) |]. split; [exact (Hcl eq_refl) |].
  split; [| exact (Hd eq_refl)].
  vm_compute in Hrun. injection Hrun as Hrow _. rewrite <- Hrow. reflexivity.
Defined.

(** Witness of C1: the tick of 09:00 on a store without a register and
    without faults appends exactly one [auto_open] entry. *)
Lemma tick_appends_at_most_one_entry_per_operation_witness :
  exists es,
    operationsLog
      (exec (processClientScheduledOperations sampleOffsets
               sampleCurrentRegister sampleCreateRegister noFaults
               tuesday0900 1) closedWorld)
    = (operationsLog closedWorld ++ es)%list
    /\ List.length (filter isOpenEntry es) = 1%nat
    /\ (List.length (filter isCloseEntry es) <= 1)%nat.
Proof.
  destruct (tick_appends_at_most_one_entry_per_operation sampleOffsets
              sampleCurrentRegister sampleCreateRegister noFaults
              tuesday0900 1 closedWorld)
    as [es [_ [Hlog [_ [_ [Hclose Hone]]]]]].
  exists es. split; [exact Hlog |]. split; [| exact Hclose].
  apply (proj1 (Hone (fun _ => eq_refl))). reflexivity.
Defined.

(** * Further properties *)

(** ** The clock *)

Lemma getHours_range t : 0 <= getHours t < 24.
Proof. unfold getHours. Z.div_mod_to_equations. lia. Qed.

Lemma getMinutes_range t : 0 <= getMinutes t < 60.
Proof. unfold getMinutes. Z.div_mod_to_equations. lia. Qed.

(** Hours and minutes put together are the minute of the local day. *)
Lemma minute_of_day t :
  getHours t * 60 + getMinutes t = (t mod 86400) / 60.
Proof. unfold getHours, getMinutes. Z.div_mod_to_equations. lia. Qed.

(** The day number that the source calls [currentDay]: 1 for Monday to 7
    for Sunday. *)
Lemma currentDay_eq t :
  (if getDay t =? 0 then 7 else getDay t) = (localDate t + 3) mod 7 + 1.
Proof.
  unfold getDay, localDate.
  destruct (Z.eqb_spec ((t / 86400 + 4) mod 7) 0) as [E | E];
    Z.div_mod_to_equations; lia.
Qed.

Lemma currentDay_range t :
  1 <= (if getDay t =? 0 then 7 else getDay t) <= 7.
Proof. rewrite currentDay_eq. Z.div_mod_to_equations. lia. Qed.

Lemma atTime_fields day hour minute :
  0 <= hour < 24 -> 0 <= minute < 60 ->
  localDate (atTime day hour minute) = day
  /\ getHours (atTime day hour minute) = hour
  /\ getMinutes (atTime day hour minute) = minute.
Proof.
  intros Hh Hm. unfold localDate, getHours, getMinutes, atTime.
  repeat split; Z.div_mod_to_equations; lia.
Qed.

(** ** The matching window *)

(** The minute of the day at which an operation is scheduled. *)
Lemma shouldExecuteAt_minutes config operation t :
  shouldExecuteAt config operation t = true ->
  let scheduled :=
    match operation with
    | Open => Js.orZ (openHour config) 9 * 60 + Js.orZ (openMinute config) 0
    | Close => Js.orZ (closeHour config) 18 * 60
               + Js.orZ (closeMinute config) 0
    end in
  scheduled <= (t mod 86400) / 60 < scheduled + 5.
Proof.
  unfold shouldExecuteAt. rewrite minute_of_day.
  destruct operation.
  - destruct (Js.truthy (autoOpenEnabled config)); [| discriminate].
    destruct (negb _); [discriminate |].
    intros H. apply andb_true_iff in H. cbv zeta. lia.
  - destruct (Js.truthy (autoCloseEnabled config)); [| discriminate].
    destruct (_ || _); (destruct (negb _); [discriminate |]);
      intros H; apply andb_true_iff in H; cbv zeta; lia.
Qed.

Lemma shouldExecuteAt_no_day config operation t :
  (forall d, 1 <= d <= 7 -> Js.includes (evaluatorDays config) d = false) ->
  shouldExecuteAt config operation t = false.
Proof.
  intros Hdays. unfold shouldExecuteAt. fold (evaluatorDays config).
  pose proof (currentDay_range t) as Hr.
  set (currentDay := if getDay t =? 0 then 7 else getDay t) in *.
  assert (Htomorrow : 1 <= currentDay mod 7 + 1 <= 7)
    by (Z.div_mod_to_equations; lia).
  rewrite (Hdays currentDay Hr), (Hdays _ Htomorrow). simpl.
  destruct operation.
  - destruct (Js.truthy (autoOpenEnabled config)); reflexivity.
  - destruct (Js.truthy (autoCloseEnabled config)); [| reflexivity].
    destruct (_ || _); reflexivity.
Qed.

Section Window.

Variable utcOffset : string -> Z -> Z.

Lemma shouldExecuteAutoOperation_true f now clientId operation w :
  fst (shouldExecuteAutoOperation utcOffset f now clientId operation w)
  = Returned true ->
  exists config,
    getScheduleConfig f clientId w = (Returned (Some config), w)
    /\ shouldExecuteAt config operation (wallClock utcOffset argentina now)
       = true.
Proof.
  intros H.
  destruct (fst (getScheduleConfig f clientId w)) as [config | m] eqn:E;
    rewrite getScheduleConfig_run in E; simpl in E; [| discriminate E].
  injection E as E.
  rewrite (shouldExecuteAutoOperation_run utcOffset _ _ _ _ _ _
             (getScheduleConfig_run f clientId w)) in H.
  rewrite E in H. simpl in H. destruct config as [config |].
  - exists config. rewrite getScheduleConfig_run, E.
    split; [reflexivity |]. injection H as H. exact H.
  - discriminate H.
Qed.

(** X1.  The evaluation is true only during the five minutes that follow
    the scheduled time on the same local day: the second of the local day
    lies between the scheduled minute and 300 seconds after it, so a
    window that would pass midnight is cut at midnight. *)
Theorem window_stays_within_the_day :
  forall f now clientId operation w,
    fst (shouldExecuteAutoOperation utcOffset f now clientId operation w)
    = Returned true ->
    exists config,
      getScheduleConfig f clientId w = (Returned (Some config), w)
      /\ let scheduled :=
           match operation with
           | Open => Js.orZ (openHour config) 9 * 60
                     + Js.orZ (openMinute config) 0
           | Close => Js.orZ (closeHour config) 18 * 60
                      + Js.orZ (closeMinute config) 0
           end in
         60 * scheduled <= wallClock utcOffset argentina now mod 86400
         /\ wallClock utcOffset argentina now mod 86400 < 60 * scheduled + 300
         /\ wallClock utcOffset argentina now mod 86400 < 86400.
Proof.
  intros f now clientId operation w H.
  destruct (shouldExecuteAutoOperation_true _ _ _ _ _ H) as [config [Hc Ht]].
  exists config. split; [exact Hc |].
  apply shouldExecuteAt_minutes in Ht. cbv zeta in *.
  revert Ht. generalize (wallClock utcOffset argentina now). intros t Ht.
  Z.div_mod_to_equations. lia.
Qed.

(** X2.  Two instants at which the evaluation of one operation of a tenant
    is true are less than five minutes apart on the Argentine wall clock,
    unless they are more than 23 hours 55 minutes apart: the window opens
    once a day and lasts less than 300 seconds. *)
Theorem window_opens_once_a_day :
  forall f f' now now' clientId operation w,
    fst (shouldExecuteAutoOperation utcOffset f now clientId operation w)
    = Returned true ->
    fst (shouldExecuteAutoOperation utcOffset f' now' clientId operation w)
    = Returned true ->
    wallClock utcOffset argentina now <= wallClock utcOffset argentina now' ->
    wallClock utcOffset argentina now' - wallClock utcOffset argentina now
    <= 86100 ->
    wallClock utcOffset argentina now' - wallClock utcOffset argentina now
    < 300.
Proof.
  intros f f' now now' clientId operation w H H' Hle Hday.
  destruct (shouldExecuteAutoOperation_true _ _ _ _ _ H) as [c [Hc Ht]].
  destruct (shouldExecuteAutoOperation_true _ _ _ _ _ H') as [c' [Hc' Ht']].
  assert (c' = c).
  { rewrite getScheduleConfig_run in Hc, Hc'.
    injection Hc as Hc. injection Hc' as Hc'.
    destruct (selectConfig_throws f); [discriminate |].
    destruct (selectConfig_throws f'); [discriminate |]. congruence. }
  subst c'.
  apply shouldExecuteAt_minutes in Ht. apply shouldExecuteAt_minutes in Ht'.
  cbv zeta in *.
  revert Ht Ht' Hle Hday.
  generalize (wallClock utcOffset argentina now).
  generalize (wallClock utcOffset argentina now').
  intros t' t.
  generalize (match operation with
              | Open => Js.orZ (openHour c) 9 * 60 + Js.orZ (openMinute c) 0
              | Close => Js.orZ (closeHour c) 18 * 60
                         + Js.orZ (closeMinute c) 0
              end).
  intros scheduled Ht Ht' Hle Hday.
  Z.div_mod_to_equations. lia.
Qed.

(** X3.  The day number compared with the list of active days is always
    between 1 and 7, for the opening, for the closing of the same day and
    for the closing after midnight.  A configuration whose list has none of
    the numbers 1 to 7 (no list at all, an empty one, Sunday written as 0)
    never fires, at any instant and for either operation. *)
Theorem no_day_from_1_to_7_never_fires :
  forall f now clientId operation w config,
    getScheduleConfig f clientId w = (Returned (Some config), w) ->
    (forall d, 1 <= d <= 7 -> Js.includes (evaluatorDays config) d = false) ->
    shouldExecuteAutoOperation utcOffset f now clientId operation w
    = (Returned false, w).
Proof.
  intros f now clientId operation w config Hc Hdays.
  rewrite (shouldExecuteAutoOperation_run utcOffset _ _ _ _ _ _ Hc).
  rewrite (shouldExecuteAt_no_day _ _ _ Hdays). reflexivity.
Qed.

End Window.

(** ** The next scheduled operations *)

Lemma dayAfter_0 d : 1 <= d <= 7 -> dayAfter d 0 = d.
Proof. intros H. unfold dayAfter. Z.div_mod_to_equations. lia. Qed.

Lemma dayAfter_next d k : 1 <= d <= 7 ->
  dayAfter (d mod 7 + 1) k = dayAfter d (k + 1).
Proof. intros H. unfold dayAfter. Z.div_mod_to_equations. lia. Qed.

Lemma dayAfter_range d k : 1 <= dayAfter d k <= 7.
Proof. unfold dayAfter. Z.div_mod_to_equations. lia. Qed.

Lemma dayNumber_atTime t k hour minute :
  onTheClock hour minute ->
  dayNumber (atTime (localDate t + k) hour minute) = dayAfter (dayNumber t) k.
Proof.
  intros [Hh Hm]. unfold dayNumber. rewrite !currentDay_eq.
  destruct (atTime_fields (localDate t + k) hour minute Hh Hm) as [-> _].
  unfold dayAfter. Z.div_mod_to_equations. lia.
Qed.

(** What the search loop returns: the number of days to add is between its
    start and 8; when it is at most 7 the day reached is active; the days
    passed on the way are not.  The fuel is never what stops the loop. *)
Lemma searchActiveDay_spec fuel arr d a :
  1 <= d <= 7 -> 1 <= a <= 8 -> 9 <= a + Z.of_nat fuel ->
  a <= searchActiveDay fuel arr d a <= 8
  /\ (searchActiveDay fuel arr d a <= 7 ->
      Js.includes arr (dayAfter d (searchActiveDay fuel arr d a - a)) = true)
  /\ (forall k, 0 <= k < searchActiveDay fuel arr d a - a ->
                Js.includes arr (dayAfter d k) = false).
Proof.
  revert d a. induction fuel as [| fuel IH]; intros d a Hd Ha Hfuel.
  - simpl in Hfuel. lia.
  - cbn [searchActiveDay].
    destruct (a <=? 7) eqn:Ea; simpl.
    + apply Z.leb_le in Ea.
      destruct (Js.includes arr d) eqn:Ed; simpl.
      * rewrite Z.sub_diag, dayAfter_0 by exact Hd.
        split; [lia |]. split; [intros _; exact Ed |]. intros k Hk. lia.
      * assert (Hd' : 1 <= d mod 7 + 1 <= 7)
          by (Z.div_mod_to_equations; lia).
        destruct (IH (d mod 7 + 1) (a + 1) Hd' ltac:(lia) ltac:(lia))
          as [Hr [Hhit Hmiss]].
        set (r := searchActiveDay fuel arr (d mod 7 + 1) (a + 1)) in *.
        split; [lia |]. split.
        -- intros Hr7. specialize (Hhit Hr7).
           rewrite dayAfter_next in Hhit by exact Hd.
           replace (r - (a + 1) + 1) with (r - a) in Hhit by lia.
           exact Hhit.
        -- intros k Hk. destruct (Z.eq_dec k 0) as [-> | Hk0].
           ++ rewrite dayAfter_0 by exact Hd. exact Ed.
           ++ specialize (Hmiss (k - 1) ltac:(lia)).
              rewrite dayAfter_next in Hmiss by exact Hd.
              replace (k - 1 + 1) with k in Hmiss by lia. exact Hmiss.
    + apply Z.leb_gt in Ea.
      split; [lia |]. split; [lia |]. intros k Hk. lia.
Qed.

(** More fuel than eight rounds changes nothing. *)
Lemma searchActiveDay_fuel fuel arr d :
  (8 <= fuel)%nat ->
  searchActiveDay fuel arr d 1 = searchActiveDay 8 arr d 1.
Proof.
  assert (H : forall n m a d', 1 <= a -> 9 <= a + Z.of_nat n -> (n <= m)%nat ->
            searchActiveDay m arr d' a = searchActiveDay n arr d' a).
  { induction n as [| n IH]; intros m a d' Ha Hn Hm.
    - destruct m as [| m]; [reflexivity |]. cbn [searchActiveDay].
      replace (a <=? 7) with false by (symmetry; apply Z.leb_gt; lia).
      reflexivity.
    - destruct m as [| m]; [lia |]. cbn [searchActiveDay].
      destruct ((a <=? 7) && negb (Js.includes arr d')); [| reflexivity].
      apply IH; lia. }
  intros Hfuel. apply H; lia.
Qed.

(** The shape of the next occurrence: [r] days after the current day, with
    [r = 0] only when the time has not come yet on an active day, [r] from
    1 to 7 the first later active day, and [r = 8] when no day is active. *)
Lemma nextOccurrence_shape arr t hour minute :
  exists r,
    0 <= r <= 8
    /\ nextOccurrence arr t hour minute = atTime (localDate t + r) hour minute
    /\ (r = 0 -> t < atTime (localDate t) hour minute
                 /\ Js.includes arr (dayNumber t) = true)
    /\ (1 <= r -> atTime (localDate t) hour minute <= t
                  \/ Js.includes arr (dayNumber t) = false)
    /\ (1 <= r <= 7 -> Js.includes arr (dayAfter (dayNumber t) r) = true)
    /\ (forall k, 1 <= k < r ->
                  Js.includes arr (dayAfter (dayNumber t) k) = false).
Proof.
  pose proof (currentDay_range t) as Hc. fold (dayNumber t) in Hc.
  assert (Hd : 1 <= dayNumber t mod 7 + 1 <= 7)
    by (Z.div_mod_to_equations; lia).
  destruct (searchActiveDay_spec 8 arr (dayNumber t mod 7 + 1) 1 Hd
              ltac:(lia) ltac:(simpl; lia)) as [Hr [Hhit Hmiss]].
  set (r := searchActiveDay 8 arr (dayNumber t mod 7 + 1) 1) in *.
  assert (Hsearch :
            0 <= r <= 8
            /\ (1 <= r <= 7 -> Js.includes arr (dayAfter (dayNumber t) r) = true)
            /\ (forall k, 1 <= k < r ->
                          Js.includes arr (dayAfter (dayNumber t) k) = false)).
  { split; [lia |]. split.
    - intros Hr7. specialize (Hhit ltac:(lia)).
      rewrite dayAfter_next in Hhit by exact Hc.
      replace (r - 1 + 1) with r in Hhit by lia. exact Hhit.
    - intros k Hk. specialize (Hmiss (k - 1) ltac:(lia)).
      rewrite dayAfter_next in Hmiss by exact Hc.
      replace (k - 1 + 1) with k in Hmiss by lia. exact Hmiss. }
  destruct Hsearch as [Hr' [Hhit' Hmiss']].
  unfold nextOccurrence. fold (dayNumber t). fold r.
  destruct (atTime (localDate t) hour minute <=? t) eqn:E.
  - apply Z.leb_le in E. exists r.
    split; [exact Hr' |]. split; [reflexivity |].
    split; [lia |]. split; [auto |]. split; assumption.
  - apply Z.leb_gt in E.
    destruct (Js.includes arr (dayNumber t)) eqn:Ea; simpl.
    + exists 0. split; [lia |]. split; [rewrite Z.add_0_r; reflexivity |].
      split; [auto |]. split; [lia |]. split; [lia |]. intros k Hk. lia.
    + exists r. split; [exact Hr' |]. split; [reflexivity |].
      split; [lia |]. split; [auto |]. split; assumption.
Qed.

Lemma in_scheduledOperationsAt config t op :
  In op (scheduledOperationsAt config t) ->
  (Js.truthy (autoOpenEnabled config) = true
   /\ so_type op = auto_open
   /\ so_scheduledTime op
      = nextOccurrence (activeDaysArrayOf config) t
          (Js.orZ (openHour config) 9) (Js.orZ (openMinute config) 0))
  \/ (Js.truthy (autoCloseEnabled config) = true
      /\ so_type op = auto_close
      /\ so_scheduledTime op
         = nextOccurrence (activeDaysArrayOf config) t
             (Js.orZ (closeHour config) 18) (Js.orZ (closeMinute config) 0)).
Proof.
  unfold scheduledOperationsAt. intros H. apply in_app_or in H.
  destruct H as [H | H].
  - destruct (Js.truthy (autoOpenEnabled config)); [| contradiction].
    destruct H as [<- | []]. left. auto.
  - destruct (Js.truthy (autoCloseEnabled config)); [| contradiction].
    destruct H as [<- | []]. right. auto.
Qed.

(** The next occurrence is in the future, less than nine days ahead, at
    the time of day asked for. *)
Lemma nextOccurrence_ahead arr t hour minute :
  onTheClock hour minute ->
  t < nextOccurrence arr t hour minute < t + 9 * 86400
  /\ getHours (nextOccurrence arr t hour minute) = hour
  /\ getMinutes (nextOccurrence arr t hour minute) = minute.
Proof.
  intros [Hh Hm].
  destruct (nextOccurrence_shape arr t hour minute)
    as [r [Hr [-> [H0 _]]]].
  destruct (atTime_fields (localDate t + r) hour minute Hh Hm)
    as [_ [-> ->]].
  split; [| split; reflexivity].
  destruct (Z.eq_dec r 0) as [-> | Hr0].
  - destruct (H0 eq_refl) as [Hlt _]. rewrite Z.add_0_r in *.
    split; [exact Hlt |]. unfold atTime, localDate.
    Z.div_mod_to_equations. lia.
  - unfold atTime, localDate. Z.div_mod_to_equations. lia.
Qed.

(** When some day from 1 to 7 is in the list, the day of the next
    occurrence is in the list. *)
Lemma nextOccurrence_active arr t hour minute d :
  onTheClock hour minute -> 1 <= d <= 7 -> Js.includes arr d = true ->
  Js.includes arr (dayNumber (nextOccurrence arr t hour minute)) = true.
Proof.
  intros Hclock Hd Hin.
  pose proof (currentDay_range t) as Hc. fold (dayNumber t) in Hc.
  destruct (nextOccurrence_shape arr t hour minute)
    as [r [Hr [-> [H0 [_ [Hhit Hmiss]]]]]].
  rewrite dayNumber_atTime by exact Hclock.
  destruct (Z.eq_dec r 0) as [-> | Hr0].
  - rewrite dayAfter_0 by exact Hc. apply H0. reflexivity.
  - destruct (Z.eq_dec r 8) as [-> | Hr8]; [| apply Hhit; lia].
    exfalso.
    set (k := if (d - dayNumber t) mod 7 =? 0 then 7
              else (d - dayNumber t) mod 7).
    assert (Hk : 1 <= k < 8 /\ dayAfter (dayNumber t) k = d).
    { unfold k, dayAfter.
      destruct (Z.eqb_spec ((d - dayNumber t) mod 7) 0);
        Z.div_mod_to_equations; lia. }
    destruct Hk as [Hk Hkd].
    specialize (Hmiss k Hk). rewrite Hkd in Hmiss. congruence.
Qed.

Section Schedule.

Variable utcOffset : string -> Z -> Z.

Lemma getScheduledOperations_run f now clientId w config :
  getScheduleConfig f clientId w = (Returned config, w) ->
  getScheduledOperations utcOffset f now clientId w =
  (Returned (match config with
             | Some c =>
                 scheduledOperationsAt c (wallClock utcOffset argentina now)
             | None => []
             end), w).
Proof.
  intros H. unfold getScheduledOperations.
  apply tryCatch_returned.
  rewrite (bind_returned _ _ _ _ _ H).
  destruct config; reflexivity.
Qed.

(** X4.  Every operation that [getScheduledOperations] announces for a
    configuration with times that a clock can show lies strictly after the
    current Argentine wall-clock time, less than nine days ahead, and at
    the configured hour and minute of its type. *)
Theorem scheduled_operations_lie_ahead :
  forall f now clientId w config ops op,
    getScheduleConfig f clientId w = (Returned (Some config), w) ->
    onTheClock (Js.orZ (openHour config) 9) (Js.orZ (openMinute config) 0) ->
    onTheClock (Js.orZ (closeHour config) 18)
      (Js.orZ (closeMinute config) 0) ->
    getScheduledOperations utcOffset f now clientId w = (Returned ops, w) ->
    In op ops ->
    wallClock utcOffset argentina now < so_scheduledTime op
    /\ so_scheduledTime op < wallClock utcOffset argentina now + 9 * 86400
    /\ getHours (so_scheduledTime op)
       = match so_type op with
         | auto_open => Js.orZ (openHour config) 9
         | auto_close => Js.orZ (closeHour config) 18
         end
    /\ getMinutes (so_scheduledTime op)
       = match so_type op with
         | auto_open => Js.orZ (openMinute config) 0
         | auto_close => Js.orZ (closeMinute config) 0
         end.
Proof.
  intros f now clientId w config ops op Hc Hopen Hclose Hrun Hin.
  rewrite (getScheduledOperations_run _ _ _ _ _ Hc) in Hrun.
  injection Hrun as <-.
  apply in_scheduledOperationsAt in Hin.
  destruct Hin as [[_ [-> ->]] | [_ [-> ->]]].
  - destruct (nextOccurrence_ahead (activeDaysArrayOf config)
                (wallClock utcOffset argentina now) _ _ Hopen)
      as [[H1 H2] [H3 H4]]. auto.
  - destruct (nextOccurrence_ahead (activeDaysArrayOf config)
                (wallClock utcOffset argentina now) _ _ Hclose)
      as [[H1 H2] [H3 H4]]. auto.
Qed.

End Schedule.

Section ScheduleAgreement.

Variable utcOffset : string -> Z -> Z.

Lemma activeDaysArrayOf_list config s :
  activeDays config = Some s -> activeDaysArrayOf config = evaluatorDays config.
Proof. intros H. unfold activeDaysArrayOf, evaluatorDays. rewrite H. reflexivity. Qed.

(** The decision of the evaluator at an instant that shows the scheduled
    hour and minute: only the day is left to check. *)
Lemma shouldExecuteAt_on_time config operation t :
  Js.truthy (match operation with
             | Open => autoOpenEnabled config
             | Close => autoCloseEnabled config
             end) = true ->
  getHours t = match operation with
               | Open => Js.orZ (openHour config) 9
               | Close => Js.orZ (closeHour config) 18
               end ->
  getMinutes t = match operation with
                 | Open => Js.orZ (openMinute config) 0
                 | Close => Js.orZ (closeMinute config) 0
                 end ->
  shouldExecuteAt config operation t
  = match operation with
    | Open => Js.includes (evaluatorDays config) (dayNumber t)
    | Close =>
        if (Js.orZ (closeHour config) 18 <? Js.orZ (openHour config) 9)
           || ((Js.orZ (closeHour config) 18 =? Js.orZ (openHour config) 9)
               && (Js.orZ (closeMinute config) 0
                   <=? Js.orZ (openMinute config) 0))
        then Js.includes (evaluatorDays config) (dayNumber t mod 7 + 1)
        else Js.includes (evaluatorDays config) (dayNumber t)
    end.
Proof.
  intros Hflag Hh Hm. unfold shouldExecuteAt.
  fold (evaluatorDays config). fold (dayNumber t).
  destruct operation; rewrite Hflag, Hh, Hm.
  - destruct (Js.includes _ _); simpl; [| reflexivity].
    apply andb_true_iff. split; [apply Z.leb_le | apply Z.ltb_lt]; lia.
  - assert (Hwin : forall x, (x <=? x) && (x <? x + 5) = true)
      by (intros x; apply andb_true_iff;
          split; [apply Z.leb_le | apply Z.ltb_lt]; lia).
    destruct (_ || _); destruct (Js.includes _ _); simpl;
      try reflexivity; apply Hwin.
Qed.

(** X5.  The next opening that [getScheduledOperations] announces is an
    instant at which the evaluator fires: for a configuration with a list
    of active days that has a day from 1 to 7 and an opening time that a
    clock can show, the evaluation for open is true whenever the Argentine
    wall clock shows the announced time. *)
Theorem announced_opening_fires :
  forall f f' now now' clientId w config s d ops op,
    getScheduleConfig f clientId w = (Returned (Some config), w) ->
    getScheduleConfig f' clientId w = (Returned (Some config), w) ->
    activeDays config = Some s ->
    1 <= d <= 7 -> Js.includes (evaluatorDays config) d = true ->
    onTheClock (Js.orZ (openHour config) 9) (Js.orZ (openMinute config) 0) ->
    getScheduledOperations utcOffset f now clientId w = (Returned ops, w) ->
    In op ops -> so_type op = auto_open ->
    wallClock utcOffset argentina now' = so_scheduledTime op ->
    shouldExecuteAutoOperation utcOffset f' now' clientId Open w
    = (Returned true, w).
Proof.
  intros f f' now now' clientId w config s d ops op Hc Hc' Hs Hd Hin Hclock
    Hrun Hop Htype Hnow'.
  rewrite (getScheduledOperations_run _ _ _ _ _ _ Hc) in Hrun.
  injection Hrun as <-.
  apply in_scheduledOperationsAt in Hop.
  destruct Hop as [[Hflag [_ HT]] | [_ [Hclose _]]]; [| congruence].
  rewrite (activeDaysArrayOf_list _ _ Hs) in HT.
  rewrite (shouldExecuteAutoOperation_run utcOffset _ _ _ _ _ _ Hc').
  rewrite Hnow', HT.
  destruct (nextOccurrence_ahead (evaluatorDays config)
              (wallClock utcOffset argentina now) _ _ Hclock)
    as [_ [Hh Hm]].
  rewrite (shouldExecuteAt_on_time config Open _ Hflag Hh Hm).
  rewrite (nextOccurrence_active _ _ _ _ d Hclock Hd Hin). reflexivity.
Qed.

(** X6.  The next closing that is announced falls on an active day, at the
    closing time.  When the closing time is later on the clock than the
    opening time the evaluator fires at that instant.  When it is not (the
    schedule passes midnight) the evaluator fires there only if the day
    after the announced one is active too, because it looks up the
    following day: with a single active day the announced closing never
    fires. *)
Theorem announced_closing_fires_by_next_day :
  forall f f' now now' clientId w config s d ops op,
    getScheduleConfig f clientId w = (Returned (Some config), w) ->
    getScheduleConfig f' clientId w = (Returned (Some config), w) ->
    activeDays config = Some s ->
    1 <= d <= 7 -> Js.includes (evaluatorDays config) d = true ->
    onTheClock (Js.orZ (closeHour config) 18)
      (Js.orZ (closeMinute config) 0) ->
    getScheduledOperations utcOffset f now clientId w = (Returned ops, w) ->
    In op ops -> so_type op = auto_close ->
    wallClock utcOffset argentina now' = so_scheduledTime op ->
    Js.includes (evaluatorDays config) (dayNumber (so_scheduledTime op)) = true
    /\ shouldExecuteAutoOperation utcOffset f' now' clientId Close w
       = (Returned
            (if (Js.orZ (closeHour config) 18 <? Js.orZ (openHour config) 9)
                || ((Js.orZ (closeHour config) 18
                     =? Js.orZ (openHour config) 9)
                    && (Js.orZ (closeMinute config) 0
                        <=? Js.orZ (openMinute config) 0))
             then Js.includes (evaluatorDays config)
                    (dayAfter (dayNumber (so_scheduledTime op)) 1)
             else true), w).
Proof.
  intros f f' now now' clientId w config s d ops op Hc Hc' Hs Hd Hin Hclock
    Hrun Hop Htype Hnow'.
  rewrite (getScheduledOperations_run _ _ _ _ _ _ Hc) in Hrun.
  injection Hrun as <-.
  apply in_scheduledOperationsAt in Hop.
  destruct Hop as [[_ [Hopen _]] | [Hflag [_ HT]]]; [congruence |].
  rewrite (activeDaysArrayOf_list _ _ Hs) in HT.
  rewrite (shouldExecuteAutoOperation_run utcOffset _ _ _ _ _ _ Hc').
  rewrite Hnow', HT.
  destruct (nextOccurrence_ahead (evaluatorDays config)
              (wallClock utcOffset argentina now) _ _ Hclock)
    as [_ [Hh Hm]].
  pose proof (nextOccurrence_active _ (wallClock utcOffset argentina now)
                _ _ d Hclock Hd Hin) as Hday.
  split; [exact Hday |].
  rewrite (shouldExecuteAt_on_time config Close _ Hflag Hh Hm).
  rewrite Hday.
  replace (dayAfter (dayNumber (nextOccurrence (evaluatorDays config)
                                  (wallClock utcOffset argentina now)
                                  (Js.orZ (closeHour config) 18)
                                  (Js.orZ (closeMinute config) 0))) 1)
    with (dayNumber (nextOccurrence (evaluatorDays config)
                       (wallClock utcOffset argentina now)
                       (Js.orZ (closeHour config) 18)
                       (Js.orZ (closeMinute config) 0)) mod 7 + 1).
  - reflexivity.
  - pose proof (currentDay_range
                  (nextOccurrence (evaluatorDays config)
                     (wallClock utcOffset argentina now)
                     (Js.orZ (closeHour config) 18)
                     (Js.orZ (closeMinute config) 0))) as Hr.
    fold (dayNumber (nextOccurrence (evaluatorDays config)
                       (wallClock utcOffset argentina now)
                       (Js.orZ (closeHour config) 18)
                       (Js.orZ (closeMinute config) 0))) in Hr.
    unfold dayAfter. Z.div_mod_to_equations. lia.
Qed.

(** X7.  With a list of active days that has no day from 1 to 7 the search
    for the next active day gives up after seven days: every announced
    operation is dated eight days after the current date, and the evaluator
    is false at every instant, the announced one included. *)
Theorem no_active_day_is_announced_eight_days_ahead :
  forall f f' now now' clientId w config s ops op,
    getScheduleConfig f clientId w = (Returned (Some config), w) ->
    getScheduleConfig f' clientId w = (Returned (Some config), w) ->
    activeDays config = Some s ->
    (forall d, 1 <= d <= 7 -> Js.includes (evaluatorDays config) d = false) ->
    getScheduledOperations utcOffset f now clientId w = (Returned ops, w) ->
    In op ops ->
    so_scheduledTime op
    = match so_type op with
      | auto_open =>
          atTime (localDate (wallClock utcOffset argentina now) + 8)
            (Js.orZ (openHour config) 9) (Js.orZ (openMinute config) 0)
      | auto_close =>
          atTime (localDate (wallClock utcOffset argentina now) + 8)
            (Js.orZ (closeHour config) 18) (Js.orZ (closeMinute config) 0)
      end
    /\ forall operation,
         shouldExecuteAutoOperation utcOffset f' now' clientId operation w
         = (Returned false, w).
Proof.
  intros f f' now now' clientId w config s ops op Hc Hc' Hs Hnone Hrun Hop.
  rewrite (getScheduledOperations_run _ _ _ _ _ _ Hc) in Hrun.
  injection Hrun as <-.
  assert (Height : forall hour minute,
            nextOccurrence (evaluatorDays config)
              (wallClock utcOffset argentina now) hour minute
            = atTime (localDate (wallClock utcOffset argentina now) + 8)
                hour minute).
  { intros hour minute.
    destruct (nextOccurrence_shape (evaluatorDays config)
                (wallClock utcOffset argentina now) hour minute)
      as [r [Hr [-> [H0 [_ [Hhit _]]]]]].
    pose proof (currentDay_range (wallClock utcOffset argentina now)) as Hday.
    fold (dayNumber (wallClock utcOffset argentina now)) in Hday.
    destruct (Z.eq_dec r 0) as [-> | Hr0].
    - destruct (H0 eq_refl) as [_ Hin].
      rewrite (Hnone _ Hday) in Hin. discriminate Hin.
    - destruct (Z.eq_dec r 8) as [-> | Hr8]; [reflexivity |].
      specialize (Hhit ltac:(lia)).
      rewrite (Hnone _ (dayAfter_range _ _)) in Hhit. discriminate Hhit. }
  split.
  - apply in_scheduledOperationsAt in Hop.
    rewrite (activeDaysArrayOf_list _ _ Hs) in Hop.
    destruct Hop as [[_ [-> ->]] | [_ [-> ->]]]; apply Height.
  - intros operation.
    rewrite (shouldExecuteAutoOperation_run utcOffset _ _ _ _ _ _ Hc').
    rewrite (shouldExecuteAt_no_day _ _ _ Hnone). reflexivity.
Qed.

(** X8.  A configuration without a list of active days is read in two
    ways: [getScheduledOperations] takes every day as active and announces
    the opening within the next 24 hours, while the evaluator takes no day
    as active and is false at every instant. *)
Theorem missing_day_list_is_read_two_ways :
  forall f f' now now' clientId w config,
    getScheduleConfig f clientId w = (Returned (Some config), w) ->
    getScheduleConfig f' clientId w = (Returned (Some config), w) ->
    activeDays config = None ->
    Js.truthy (autoOpenEnabled config) = true ->
    onTheClock (Js.orZ (openHour config) 9) (Js.orZ (openMinute config) 0) ->
    (exists ops op,
        getScheduledOperations utcOffset f now clientId w = (Returned ops, w)
        /\ In op ops /\ so_type op = auto_open
        /\ wallClock utcOffset argentina now < so_scheduledTime op
        /\ so_scheduledTime op
           <= wallClock utcOffset argentina now + 86400)
    /\ forall operation,
         shouldExecuteAutoOperation utcOffset f' now' clientId operation w
         = (Returned false, w).
Proof.
  intros f f' now now' clientId w config Hc Hc' Hnone Hflag Hclock.
  split.
  - rewrite (getScheduledOperations_run _ _ _ _ _ _ Hc).
    eexists. eexists. split; [reflexivity |].
    unfold scheduledOperationsAt. rewrite Hflag.
    split; [left; reflexivity |]. split; [reflexivity |].
    cbn [so_scheduledTime].
    unfold activeDaysArrayOf. rewrite Hnone.
    set (t := wallClock utcOffset argentina now).
    set (arr := [Some 1; Some 2; Some 3; Some 4; Some 5; Some 6; Some 7]).
    assert (Hall : forall d, 1 <= d <= 7 -> Js.includes arr d = true).
    { intros d Hd.
      assert (E : d = 1 \/ d = 2 \/ d = 3 \/ d = 4 \/ d = 5 \/ d = 6 \/ d = 7)
        by lia.
      destruct E as [-> | [-> | [-> | [-> | [-> | [-> | ->]]]]]];
        reflexivity. }
    destruct (nextOccurrence_ahead arr t _ _ Hclock) as [[Hlt _] _].
    split; [exact Hlt |].
    destruct (nextOccurrence_shape arr t (Js.orZ (openHour config) 9)
                (Js.orZ (openMinute config) 0))
      as [r [Hr [-> [_ [H1 [_ Hmiss]]]]]].
    pose proof (currentDay_range t) as Hday. fold (dayNumber t) in Hday.
    assert (Hr1 : r <= 1).
    { destruct (Z_le_gt_dec r 1) as [Hle | Hgt]; [exact Hle |].
      specialize (Hmiss 1 ltac:(lia)).
      rewrite (Hall _ (dayAfter_range _ _)) in Hmiss. discriminate Hmiss. }
    destruct Hclock as [Hh Hm].
    destruct (Z.eq_dec r 0) as [-> | Hr0].
    + unfold atTime, localDate. Z.div_mod_to_equations. lia.
    + assert (r = 1) by lia. subst r.
      destruct (H1 ltac:(lia)) as [Hpast | Hin].
      * unfold atTime in *. lia.
      * rewrite (Hall _ Hday) in Hin. discriminate Hin.
  - intros operation.
    rewrite (shouldExecuteAutoOperation_run utcOffset _ _ _ _ _ _ Hc').
    rewrite (shouldExecuteAt_no_day config); [reflexivity |].
    intros d _. unfold evaluatorDays. rewrite Hnone. reflexivity.
Qed.

End ScheduleAgreement.

(** ** Storing and reading configurations *)

Lemma find_replace clientId row other cs :
  cfg_clientId row = clientId ->
  find (fun c => cfg_clientId c =? other)
       (map (fun c => if cfg_clientId c =? clientId then row else c) cs)
  = if other =? clientId
    then option_map (fun _ => row)
           (find (fun c => cfg_clientId c =? clientId) cs)
    else find (fun c => cfg_clientId c =? other) cs.
Proof.
  intros Hrow. induction cs as [| c cs IH]; simpl.
  - destruct (other =? clientId); reflexivity.
  - rewrite IH. clear IH.
    destruct (Z.eqb_spec (cfg_clientId c) clientId) as [Ec | Ec];
      destruct (Z.eqb_spec other clientId) as [Eo | Eo]; subst;
      rewrite ?Z.eqb_refl; simpl;
      repeat match goal with
             | |- context [Z.eqb ?a ?b] => destruct (Z.eqb_spec a b)
             end;
      simpl; congruence.
Qed.

Lemma find_append clientId row other cs :
  cfg_clientId row = clientId ->
  find (fun c => cfg_clientId c =? other) (cs ++ [row])%list
  = match find (fun c => cfg_clientId c =? other) cs with
    | Some c => Some c
    | None => if other =? clientId then Some row else None
    end.
Proof.
  intros Hrow. induction cs as [| c cs IH]; simpl.
  - rewrite Hrow, Z.eqb_sym. destruct (other =? clientId); reflexivity.
  - destruct (cfg_clientId c =? other); [reflexivity | exact IH].
Qed.

(** The store after an [upsertScheduleConfig] whose lookup and write do
    not throw. *)
Lemma upsertScheduleConfig_run f clientId configData w :
  selectConfig_throws f = None -> writeConfig_throws f = None ->
  upsertScheduleConfig f clientId configData w
  = (Returned (cleanData clientId configData),
     withConfigs
       (match find (fun c => cfg_clientId c =? clientId) (configs w) with
        | Some _ =>
            map (fun c => if cfg_clientId c =? clientId
                          then cleanData clientId configData else c)
                (configs w)
        | None => (configs w ++ [cleanData clientId configData])%list
        end) w).
Proof.
  intros Hsel Hwrite. unfold upsertScheduleConfig.
  rewrite (bind_returned _ _ _ _ _ (getScheduleConfig_run f clientId w)).
  rewrite Hsel. unfold call. rewrite Hwrite.
  destruct (find _ (configs w)); reflexivity.
Qed.

Lemma getScheduleConfig_after_upsert f f' clientId configData w other :
  selectConfig_throws f = None -> writeConfig_throws f = None ->
  selectConfig_throws f' = None ->
  fst (getScheduleConfig f' other
         (exec (upsertScheduleConfig f clientId configData) w))
  = if other =? clientId then Returned (Some (cleanData clientId configData))
    else fst (getScheduleConfig f' other w).
Proof.
  intros Hsel Hwrite Hsel'. unfold exec.
  rewrite (upsertScheduleConfig_run _ _ _ _ Hsel Hwrite).
  rewrite !getScheduleConfig_run, Hsel'. cbn [fst snd configs withConfigs].
  destruct (find (fun c => cfg_clientId c =? clientId) (configs w))
    as [c |] eqn:E; cbv iota.
  - rewrite (find_replace clientId (cleanData clientId configData) other)
      by reflexivity.
    rewrite E. destruct (other =? clientId); reflexivity.
  - rewrite (find_append clientId (cleanData clientId configData) other)
      by reflexivity.
    destruct (Z.eqb_spec other clientId) as [-> | Eo].
    + rewrite E. reflexivity.
    + destruct (find (fun c0 => cfg_clientId c0 =? other) (configs w));
        reflexivity.
Qed.

Lemma getScheduleConfig_fst f clientId w :
  getScheduleConfig f clientId w = (fst (getScheduleConfig f clientId w), w).
Proof. rewrite getScheduleConfig_run. reflexivity. Qed.

(** X9.  Storing and reading back: after an [upsertScheduleConfig] whose
    store calls do not throw, [getScheduleConfig] of the same tenant returns
    the row that was returned by the upsert; the configuration of every
    other tenant reads as before, and the registers, the reports and the
    log are untouched. *)
Theorem upsert_then_lookup :
  forall f f' clientId configData w,
    selectConfig_throws f = None -> writeConfig_throws f = None ->
    selectConfig_throws f' = None ->
    exists row w',
      upsertScheduleConfig f clientId configData w = (Returned row, w')
      /\ getScheduleConfig f' clientId w' = (Returned (Some row), w')
      /\ (forall other, other <> clientId ->
            fst (getScheduleConfig f' other w')
            = fst (getScheduleConfig f' other w))
      /\ registers w' = registers w /\ reports w' = reports w
      /\ operationsLog w' = operationsLog w.
Proof.
  intros f f' clientId configData w Hsel Hwrite Hsel'.
  eexists. eexists.
  split; [apply (upsertScheduleConfig_run _ _ _ _ Hsel Hwrite) |].
  pose proof (getScheduleConfig_after_upsert f f' clientId configData w)
    as Hget.
  unfold exec in Hget.
  rewrite (upsertScheduleConfig_run _ _ _ _ Hsel Hwrite) in Hget.
  cbn [snd] in Hget.
  split.
  - specialize (Hget clientId Hsel Hwrite Hsel').
    rewrite Z.eqb_refl in Hget.
    rewrite getScheduleConfig_fst, Hget. reflexivity.
  - split; [| repeat split].
    intros other Hother. rewrite (Hget other Hsel Hwrite Hsel').
    replace (other =? clientId) with false
      by (symmetry; apply Z.eqb_neq; exact Hother).
    reflexivity.
Qed.

(** X11.  [upsertScheduleConfig] keeps at most one row per tenant: when
    the table has no two rows of one tenant and the lookup does not throw,
    the table after the call has none either. *)
Theorem upsert_keeps_one_row_per_tenant :
  forall f clientId configData w,
    selectConfig_throws f = None ->
    NoDup (map cfg_clientId (configs w)) ->
    NoDup (map cfg_clientId
             (configs (exec (upsertScheduleConfig f clientId configData) w))).
Proof.
  intros f clientId configData w Hsel Hnodup. unfold exec.
  destruct (writeConfig_throws f) as [m |] eqn:Hwrite.
  - unfold upsertScheduleConfig.
    rewrite (bind_returned _ _ _ _ _ (getScheduleConfig_run f clientId w)).
    rewrite Hsel. unfold call. rewrite Hwrite.
    destruct (find _ (configs w)); exact Hnodup.
  - rewrite (upsertScheduleConfig_run _ _ _ _ Hsel Hwrite).
    cbn [snd configs withConfigs].
    destruct (find (fun c => cfg_clientId c =? clientId) (configs w))
      as [c |] eqn:E; cbv iota.
    + rewrite map_map.
      replace (map (fun x => cfg_clientId
                               (if cfg_clientId x =? clientId
                                then cleanData clientId configData else x))
                 (configs w))
        with (map cfg_clientId (configs w)); [exact Hnodup |].
      apply map_ext. intros x.
      destruct (Z.eqb_spec (cfg_clientId x) clientId) as [Ex | Ex];
        [rewrite Ex |]; reflexivity.
    + rewrite map_app. cbn [map cfg_clientId cleanData].
      apply NoDup_app; [exact Hnodup | repeat constructor; intros [] |].
      intros x Hx [<- | []].
      apply in_map_iff in Hx. destruct Hx as [c [Hc Hin]].
      pose proof (find_none _ _ E c Hin) as Hf. cbv beta in Hf.
      apply Z.eqb_neq in Hf. contradiction.
Qed.

(** X12.  When the lookup inside [upsertScheduleConfig] throws, the error
    is swallowed and read as "no row": a second row is appended for a
    tenant that already has one, and since [getScheduleConfig] returns the
    first row of the tenant, the old configuration keeps being read. *)
Theorem upsert_after_failed_lookup_is_shadowed :
  forall f f' clientId configData w m old,
    selectConfig_throws f = Some m -> writeConfig_throws f = None ->
    selectConfig_throws f' = None ->
    getScheduleConfig f' clientId w = (Returned (Some old), w) ->
    exists row w',
      upsertScheduleConfig f clientId configData w = (Returned row, w')
      /\ configs w' = (configs w ++ [row])%list
      /\ getScheduleConfig f' clientId w' = (Returned (Some old), w').
Proof.
  intros f f' clientId configData w m old Hsel Hwrite Hsel' Hold.
  rewrite getScheduleConfig_run, Hsel' in Hold. injection Hold as Hold.
  eexists. eexists. split.
  - unfold upsertScheduleConfig.
    rewrite (bind_returned _ _ _ _ _ (getScheduleConfig_run f clientId w)).
    rewrite Hsel. unfold call. rewrite Hwrite. reflexivity.
  - split; [reflexivity |].
    rewrite getScheduleConfig_run, Hsel'. cbn [configs withConfigs].
    rewrite (find_append clientId (cleanData clientId configData) clientId)
      by reflexivity.
    rewrite Hold. reflexivity.
Qed.

(** ** Writing and reading the log *)

Lemma insertByExecutedTime_before_last e l last :
  executedTime e <= executedTime last ->
  insertByExecutedTime e (l ++ [last])
  = (insertByExecutedTime e l ++ [last])%list.
Proof.
  intros Hle. induction l as [| h t IH]; simpl.
  - replace (executedTime e <=? executedTime last) with true
      by (symmetry; apply Z.leb_le; exact Hle).
    reflexivity.
  - destruct (executedTime e <=? executedTime h); [reflexivity |].
    rewrite IH. reflexivity.
Qed.

Lemma orderByExecutedTime_last l last :
  (forall e, In e l -> executedTime e <= executedTime last) ->
  orderByExecutedTime (l ++ [last])
  = (orderByExecutedTime l ++ [last])%list.
Proof.
  induction l as [| h t IH]; intros H; simpl; [reflexivity |].
  rewrite IH by (intros e He; apply H; right; exact He).
  apply insertByExecutedTime_before_last. apply H. left. reflexivity.
Qed.

Lemma filter_client_append clientId l e :
  log_clientId e = clientId ->
  filter (fun x => log_clientId x =? clientId) (l ++ [e])
  = (filter (fun x => log_clientId x =? clientId) l ++ [e])%list.
Proof.
  intros H. rewrite filter_app. simpl. rewrite H, Z.eqb_refl. reflexivity.
Qed.

(** X13.  Writing and reading back: while the tenant has fewer entries
    than the limit, an entry written by [logAutoOperation] is in the list
    that [getAutoOperationsLog] returns, and that list holds exactly the
    entries of the tenant, each as often as it is in the log. *)
Theorem logged_entry_is_listed :
  forall f f' now operationData limit w,
    insertLog_throws f (log_status (logRow now operationData)) = None ->
    selectLog_throws f' = None ->
    (List.length
       (filter (fun e => (log_clientId e =? od_clientId operationData)%Z)
          (operationsLog w))
     < match limit with Some n => n | None => 50 end)%nat ->
    exists logs w',
      logAutoOperation f now operationData w
      = (Returned (logRow now operationData), w')
      /\ getAutoOperationsLog f' (od_clientId operationData) limit w'
         = (Returned logs, w')
      /\ In (logRow now operationData) logs
      /\ Permutation logs
           (logRow now operationData
            :: filter (fun e => log_clientId e =? od_clientId operationData)
                 (operationsLog w)).
Proof.
  intros f f' now operationData limit w Hins Hsel Hlen.
  eexists. eexists.
  split; [apply (logAutoOperation_returned _ _ _ _ Hins) |].
  unfold getAutoOperationsLog, tryCatch, call. rewrite Hsel.
  cbn [operationsLog withLog].
  rewrite (filter_client_append (od_clientId operationData) _
             (logRow now operationData) eq_refl).
  set (rows := filter (fun e => log_clientId e =? od_clientId operationData)
                 (operationsLog w)) in *.
  assert (Hperm : Permutation (orderByExecutedTime (rows ++ [logRow now
                                                               operationData]))
                    (logRow now operationData :: rows)).
  { rewrite orderByExecutedTime_perm. symmetry. apply Permutation_cons_append. }
  rewrite firstn_all2.
  - split; [reflexivity |]. split; [| exact Hperm].
    apply (Permutation_in _ (Permutation_sym Hperm)). left. reflexivity.
  - rewrite (Permutation_length Hperm). simpl. lia.
Qed.

(** X14.  Once the tenant has as many entries as the limit, entries that
    are written later never show up: the log is read oldest first and cut
    at the limit, so [getAutoOperationsLog] returns after the new entry the
    very list it returned before. *)
Theorem later_entries_are_cut_off :
  forall f f' now operationData limit w,
    insertLog_throws f (log_status (logRow now operationData)) = None ->
    (match limit with Some n => n | None => 50 end
     <= List.length
          (filter (fun e => (log_clientId e =? od_clientId operationData)%Z)
             (operationsLog w)))%nat ->
    (forall e, In e (operationsLog w) ->
               log_clientId e = od_clientId operationData ->
               executedTime e <= now) ->
    fst (getAutoOperationsLog f' (od_clientId operationData) limit
           (exec (logAutoOperation f now operationData) w))
    = fst (getAutoOperationsLog f' (od_clientId operationData) limit w).
Proof.
  intros f f' now operationData limit w Hins Hlen Hold.
  unfold exec. rewrite (logAutoOperation_returned _ _ _ _ Hins).
  unfold getAutoOperationsLog, tryCatch, call.
  destruct (selectLog_throws f'); [reflexivity |].
  cbn [fst snd operationsLog withLog].
  rewrite (filter_client_append (od_clientId operationData) _
             (logRow now operationData) eq_refl).
  set (rows := filter (fun e => log_clientId e =? od_clientId operationData)
                 (operationsLog w)) in *.
  rewrite orderByExecutedTime_last.
  - rewrite firstn_app.
    replace (match limit with Some n => n | None => 50%nat end
             - List.length (orderByExecutedTime rows))%nat with 0%nat.
    + rewrite firstn_O, app_nil_r. reflexivity.
    + rewrite (Permutation_length (orderByExecutedTime_perm rows)). lia.
  - intros e He. unfold rows in He. apply filter_In in He.
    destruct He as [He Hc]. apply Z.eqb_eq in Hc.
    exact (Hold e He Hc).
Qed.

(** ** The executor *)

Ltac run :=
  cbn -[openRegistersOf closingReport closeRegister Z.add Z.of_nat wallClock
        Js.toFixed Js.decimal String.append openingValues].

Section Workflows.

Variable utcOffset : string -> Z -> Z.
Variable getCurrentCashRegister : list CashRegister -> Z -> option CashRegister.
Variable createCashRegister : list CashRegister -> NewCashRegister -> CashRegister.

(** X15.  The open workflow when no register is open.  The new register
    is the one the storage builds from zero balances and [isOpen = true];
    it is appended and one [success] entry names it.  When the creation
    throws, nothing is created and one [failed] entry carries the message.
    When only the insertion of the [success] entry throws, the register
    stays created and the entry says [failed]. *)
Theorem auto_open_outcomes :
  forall f now clientId w,
    getCurrentCashRegister_throws f = None ->
    match getCurrentCashRegister (registers w) clientId with
    | Some r => isOpen r = false
    | None => True
    end ->
    let r := createCashRegister (registers w) (openingValues clientId now) in
    (createCashRegister_throws f = None -> insertLog_throws f success = None ->
     exists e,
       executeAutoOpen getCurrentCashRegister createCashRegister f now
         clientId w
       = (Returned tt,
          withLog (operationsLog w ++ [e])%list
            (withRegisters (registers w ++ [r])%list w))
       /\ log_status e = success /\ operationType e = auto_open
       /\ cashRegisterId e = Some (reg_id r))
    /\ (forall m,
          createCashRegister_throws f = Some m ->
          insertLog_throws f failed = None ->
          exists e,
            executeAutoOpen getCurrentCashRegister createCashRegister f now
              clientId w
            = (Returned tt, withLog (operationsLog w ++ [e])%list w)
            /\ log_status e = failed /\ errorMessage e = Some m)
    /\ (forall m,
          createCashRegister_throws f = None ->
          insertLog_throws f success = Some m ->
          insertLog_throws f failed = None ->
          exists e,
            executeAutoOpen getCurrentCashRegister createCashRegister f now
              clientId w
            = (Returned tt,
               withLog (operationsLog w ++ [e])%list
                 (withRegisters (registers w ++ [r])%list w))
            /\ log_status e = failed /\ errorMessage e = Some m).
Proof.
  intros f now clientId w Hget Hcur r.
  split; [| split].
  - intros Hcreate Hlog. eexists. split.
    { unfold executeAutoOpen, logAutoOperation, tryCatch, bind, call, ret,
        throw.
      rewrite Hget, Hcreate. run.
      destruct (getCurrentCashRegister (registers w) clientId) as [r0 |];
        [rewrite Hcur |]; run; rewrite Hlog; reflexivity. }
    repeat split.
  - intros m Hcreate Hlog. eexists. split.
    { unfold executeAutoOpen, logAutoOperation, tryCatch, bind, call, ret,
        throw.
      rewrite Hget, Hcreate. run.
      destruct (getCurrentCashRegister (registers w) clientId) as [r0 |];
        [rewrite Hcur |]; run; rewrite Hlog; reflexivity. }
    repeat split.
  - intros m Hcreate Hlog Hlog'. eexists. split.
    { unfold executeAutoOpen, logAutoOperation, tryCatch, bind, call, ret,
        throw.
      rewrite Hget, Hcreate. run.
      destruct (getCurrentCashRegister (registers w) clientId) as [r0 |];
        [rewrite Hcur |]; run; rewrite Hlog; run; rewrite Hlog';
        reflexivity. }
    repeat split.
Qed.

Lemma tryCatch_unit_returns (c : Eff unit) w :
  fst (tryCatch c (fun _ => ret tt) w) = Returned tt.
Proof.
  unfold tryCatch. destruct (c w) as [[[] | m] w']; reflexivity.
Qed.

(** X16.  Errors stop at the workflow: as long as the [failed] entry can
    be written, [executeAutoOpen] and [executeAutoClose] return normally
    whatever else throws; and [processClientScheduledOperations] returns
    normally in every case, also when that last insertion throws. *)
Theorem errors_are_absorbed :
  forall f now clientId w,
    (insertLog_throws f failed = None ->
     fst (executeAutoOpen getCurrentCashRegister createCashRegister f now
            clientId w) = Returned tt
     /\ fst (executeAutoClose utcOffset f now clientId w) = Returned tt)
    /\ fst (processClientScheduledOperations utcOffset getCurrentCashRegister
              createCashRegister f now clientId w) = Returned tt.
Proof.
  intros f now clientId w. split.
  - intros Hfailed. split.
    + unfold executeAutoOpen, logAutoOperation, tryCatch, bind, call, ret,
        throw.
      run. rewrite Hfailed.
      destruct (getCurrentCashRegister_throws f); run;
        [| destruct (getCurrentCashRegister (registers w) clientId)
             as [r |]; run;
           [destruct (isOpen r); run |];
           destruct (createCashRegister_throws f); run ];
        destruct (insertLog_throws f success); run;
        destruct (insertLog_throws f skipped); run; reflexivity.
    + unfold executeAutoClose, getRealTimeCashState, logAutoOperation,
        tryCatch, bind, call, ret, throw.
      run. rewrite Hfailed.
      destruct (selectRegister_throws f); run;
        [| destruct (openRegistersOf clientId (registers w)) as [| r rest];
           run;
           [| destruct (insertReport_throws f); run;
              [| destruct (updateRegister_throws f); run ] ] ];
        destruct (insertLog_throws f success); run;
        destruct (insertLog_throws f skipped); run; reflexivity.
  - unfold processClientScheduledOperations. apply tryCatch_unit_returns.
Qed.

Lemma map_keptByClose now r0 (balance : Js.number) rs :
  map keptByClose
    (map (fun r => if reg_id r =? reg_id r0
                   then closeRegister balance now r
                   else r) rs)
  = map keptByClose rs.
Proof.
  rewrite map_map. apply map_ext. intros r.
  destruct (reg_id r =? reg_id r0); reflexivity.
Qed.

(** X17.  What the workflows leave alone.  [executeAutoOpen] never writes
    configurations or reports and keeps every register, adding at most
    one.  [executeAutoClose] never writes configurations, adds at most one
    report, and keeps the number of registers and, for each of them, its
    id, its tenant, its initial balance and its [isOpen] flag: closing
    sets the status and the closing data only, so a register that was
    [isOpen] still is after an automatic close. *)
Theorem workflows_leave_the_rest_alone :
  forall f now clientId w,
    (let w' := exec (executeAutoOpen getCurrentCashRegister createCashRegister
                       f now clientId) w in
     configs w' = configs w /\ reports w' = reports w
     /\ exists added, registers w' = (registers w ++ added)%list
                      /\ (List.length added <= 1)%nat)
    /\ (let w' := exec (executeAutoClose utcOffset f now clientId) w in
        configs w' = configs w
        /\ map keptByClose (registers w') = map keptByClose (registers w)
        /\ exists added, reports w' = (reports w ++ added)%list
                         /\ (List.length added <= 1)%nat).
Proof.
  intros f now clientId w. split.
  - unfold exec, executeAutoOpen, logAutoOperation, tryCatch, bind, call, ret,
      throw.
    run.
    destruct (getCurrentCashRegister_throws f); run;
      [| destruct (getCurrentCashRegister (registers w) clientId) as [r |];
         run;
         [destruct (isOpen r); run |];
         destruct (createCashRegister_throws f); run ];
      destruct (insertLog_throws f success); run;
      destruct (insertLog_throws f skipped); run;
      destruct (insertLog_throws f failed); run;
      (split; [reflexivity |]); (split; [reflexivity |]);
      first [ exists (@nil CashRegister); split;
              [rewrite app_nil_r; reflexivity | simpl; lia]
            | eexists (cons _ nil); split; [reflexivity | simpl; lia] ].
  - unfold exec, executeAutoClose, getRealTimeCashState, logAutoOperation,
      tryCatch, bind, call, ret, throw.
    run.
    destruct (selectRegister_throws f); run;
      [| destruct (openRegistersOf clientId (registers w)) as [| r rest];
         run;
         [| destruct (insertReport_throws f); run;
            [| destruct (updateRegister_throws f); run ] ] ];
      destruct (insertLog_throws f success); run;
      destruct (insertLog_throws f skipped); run;
      destruct (insertLog_throws f failed); run;
      (split; [reflexivity |]);
      (split; [first [reflexivity | apply map_keptByClose] |]);
      first [ exists (@nil DailyReport); split;
              [rewrite app_nil_r; reflexivity | simpl; lia]
            | eexists (cons _ nil); split; [reflexivity | simpl; lia] ].
Qed.

End Workflows.

(** ** The tick over all clients *)

Section AllClients.

Variable utcOffset : string -> Z -> Z.
Variable getCurrentCashRegister : list CashRegister -> Z -> option CashRegister.
Variable createCashRegister : list CashRegister -> NewCashRegister -> CashRegister.
Variable getAllClients : World -> Outcome (list Client).

(** What one client's turn appends to the log. *)
Lemma processClientScheduledOperations_log f now clientId w :
  exists es,
    operationsLog
      (exec (processClientScheduledOperations utcOffset
               getCurrentCashRegister createCashRegister f now clientId) w)
    = (operationsLog w ++ es)%list
    /\ Forall (fun e => log_clientId e = clientId) es
    /\ (List.length es <= 2)%nat.
Proof.
  destruct (shouldExecuteAutoOperation_total utcOffset f now clientId Open w)
    as [b1 Hb1].
  destruct (guarded_footprint _ b1 _ w
              (executeAutoOpen_footprint getCurrentCashRegister
                 createCashRegister f now clientId w))
    as [es1 [H1 [L1 F1]]].
  destruct ((if b1
             then executeAutoOpen getCurrentCashRegister createCashRegister
                    f now clientId
             else ret tt) w) as [o1 w1] eqn:E1.
  destruct (shouldExecuteAutoOperation_total utcOffset f now clientId Close w1)
    as [b2 Hb2].
  destruct (guarded_footprint _ b2 _ w1
              (executeAutoClose_footprint utcOffset f now clientId w1))
    as [es2 [H2 [L2 F2]]].
  destruct ((if b2 then executeAutoClose utcOffset f now clientId else ret tt)
              w1) as [o2 w2] eqn:E2.
  simpl in H1, H2.
  rewrite (processClientScheduledOperations_run utcOffset
             getCurrentCashRegister createCashRegister f now clientId w
             b1 o1 w1 b2 o2 w2 Hb1 E1 Hb2 E2).
  assert (Hlog1 : operationsLog w1 = (operationsLog w ++ es1)%list).
  { pose proof (H1 (operationsLog w)) as E. rewrite withLog_same, E1 in E.
    injection E as E. rewrite E. reflexivity. }
  assert (Hlog2 : operationsLog w2 = (operationsLog w1 ++ es2)%list).
  { pose proof (H2 (operationsLog w1)) as E. rewrite withLog_same, E2 in E.
    injection E as E. rewrite E. reflexivity. }
  assert (C1 : Forall (fun e => log_clientId e = clientId) es1)
    by (eapply Forall_impl; [| exact F1]; intros e [He _]; exact He).
  assert (C2 : Forall (fun e => log_clientId e = clientId) es2)
    by (eapply Forall_impl; [| exact F2]; intros e [He _]; exact He).
  destruct o1.
  - exists (es1 ++ es2)%list. rewrite Hlog2, Hlog1, app_assoc.
    split; [reflexivity |]. split; [apply Forall_app; auto |].
    rewrite length_app. lia.
  - exists es1. split; [exact Hlog1 |]. split; [exact C1 | lia].
Qed.

(** The loop over the clients never stops early. *)
Lemma forEachClient_run f now clients w :
  forEachClient utcOffset getCurrentCashRegister createCashRegister f now
    clients w
  = (Returned tt,
     fold_left
       (fun w0 client =>
          exec (processClientScheduledOperations utcOffset
                  getCurrentCashRegister createCashRegister
                  (f (client_id client)) now (client_id client)) w0)
       (filter client_isActive clients) w).
Proof.
  revert w. induction clients as [| client rest IH]; intros w;
    [reflexivity |].
  cbn [forEachClient filter].
  destruct (client_isActive client); cbn [negb fold_left]; [| apply IH].
  unfold bind.
  pose proof (tryCatch_unit_returns
                (shouldOpen <- shouldExecuteAutoOperation utcOffset
                                 (f (client_id client)) now (client_id client)
                                 Open ;;
                 (if shouldOpen
                  then executeAutoOpen getCurrentCashRegister
                         createCashRegister (f (client_id client)) now
                         (client_id client)
                  else ret tt) ;;;
                 shouldClose <- shouldExecuteAutoOperation utcOffset
                                  (f (client_id client)) now
                                  (client_id client) Close ;;
                 if shouldClose
                 then executeAutoClose utcOffset (f (client_id client)) now
                        (client_id client)
                 else ret tt) w) as Hret.
  fold (processClientScheduledOperations utcOffset getCurrentCashRegister
          createCashRegister (f (client_id client)) now (client_id client))
    in Hret.
  unfold exec.
  destruct (processClientScheduledOperations utcOffset getCurrentCashRegister
              createCashRegister (f (client_id client)) now
              (client_id client) w) as [o w1].
  cbn [fst snd] in *. rewrite Hret. apply IH.
Qed.

(** X20.  A tick never throws and never stops early.  When the list of
    clients cannot be read nothing is done.  Otherwise every active client
    of the list gets its turn, in order, whatever failed for the clients
    before it; the entries appended to the log all belong to active
    clients of the list, at most two for each turn. *)
Theorem tick_serves_every_active_client :
  forall f now w,
    fst (checkScheduledOperations utcOffset getCurrentCashRegister
           createCashRegister getAllClients f now w) = Returned tt
    /\ (forall m, getAllClients w = Thrown m ->
          exec (checkScheduledOperations utcOffset getCurrentCashRegister
                  createCashRegister getAllClients f now) w = w)
    /\ (forall clients, getAllClients w = Returned clients ->
          exec (checkScheduledOperations utcOffset getCurrentCashRegister
                  createCashRegister getAllClients f now) w
          = fold_left
              (fun w0 client =>
                 exec (processClientScheduledOperations utcOffset
                         getCurrentCashRegister createCashRegister
                         (f (client_id client)) now (client_id client)) w0)
              (filter client_isActive clients) w
          /\ exists es,
               operationsLog
                 (exec (checkScheduledOperations utcOffset
                          getCurrentCashRegister createCashRegister
                          getAllClients f now) w)
               = (operationsLog w ++ es)%list
               /\ Forall (fun e =>
                            exists client,
                              In client clients
                              /\ client_isActive client = true
                              /\ log_clientId e = client_id client) es
               /\ (List.length es
                   <= 2 * List.length (filter client_isActive clients))%nat).
Proof.
  intros f now w. split; [apply tryCatch_unit_returns |]. split.
  - intros m Hm. unfold exec, checkScheduledOperations, tryCatch, bind.
    rewrite Hm. reflexivity.
  - intros clients Hclients.
    assert (Hrun : exec (checkScheduledOperations utcOffset
                           getCurrentCashRegister createCashRegister
                           getAllClients f now) w
                   = fold_left
                       (fun w0 client =>
                          exec (processClientScheduledOperations utcOffset
                                  getCurrentCashRegister createCashRegister
                                  (f (client_id client)) now
                                  (client_id client)) w0)
                       (filter client_isActive clients) w).
    { unfold exec, checkScheduledOperations, tryCatch, bind.
      rewrite Hclients, forEachClient_run. reflexivity. }
    split; [exact Hrun |]. rewrite Hrun.
    assert (Hactive : forall client, In client (filter client_isActive clients)
                        -> In client clients /\ client_isActive client = true)
      by (intros client H; apply filter_In in H; exact H).
    revert Hactive. generalize (filter client_isActive clients).
    intros active. clear Hclients Hrun. revert w.
    induction active as [| client rest IH]; intros w Hactive.
    + exists []. rewrite app_nil_r. split; [reflexivity |].
      split; [constructor | simpl; lia].
    + cbn [fold_left].
      destruct (processClientScheduledOperations_log (f (client_id client))
                  now (client_id client) w) as [es1 [Hlog1 [Hc1 Hl1]]].
      set (w1 := exec (processClientScheduledOperations utcOffset
                         getCurrentCashRegister createCashRegister
                         (f (client_id client)) now (client_id client)) w)
        in *.
      assert (Hrest : forall c, In c rest ->
                In c clients /\ client_isActive c = true)
        by (intros c Hc; apply Hactive; right; exact Hc).
      destruct (IH w1 Hrest) as [es2 [Hlog2 [Hc2 Hl2]]].
      exists (es1 ++ es2)%list. rewrite Hlog2, Hlog1, app_assoc.
      split; [reflexivity |]. split.
      * apply Forall_app. split; [| exact Hc2].
        eapply Forall_impl; [| exact Hc1].
        intros e He. exists client.
        destruct (Hactive client (or_introl eq_refl)) as [Hin Hact]. auto.
      * rewrite length_app. cbn [List.length]. lia.
Qed.

End AllClients.

(** ** The life cycle of the service *)

(** What holds of the service after any sequence of calls. *)
Lemma lifecycle_step s c :
  armed (timers s)
  = match intervalId s with Some id => [id] | None => [] end ->
  isRunning s = match intervalId s with Some _ => true | None => false end ->
  let s' := runCommand s c in
  armed (timers s')
  = match intervalId s' with Some id => [id] | None => [] end
  /\ isRunning s'
     = match intervalId s' with Some _ => true | None => false end
  /\ isRunning s' = match c with Start => true | Stop => false end.
Proof.
  intros Harmed Hrun. destruct c; cbn [runCommand].
  - unfold start. destruct (isRunning s) eqn:E.
    + rewrite E. auto.
    + destruct (intervalId s); [discriminate Hrun |].
      cbn. rewrite Harmed. auto.
  - unfold stop. cbn. split; [| auto].
    destruct (intervalId s) as [id |]; cbn; rewrite Harmed; [| reflexivity].
    cbn. rewrite Nat.eqb_refl. reflexivity.
Qed.

(** X21.  After any sequence of [start] and [stop] calls on a new service
    at most one interval timer is armed, and one is armed exactly when the
    service reports that it is running; it runs exactly when the last call
    was [start], so starting a running service arms no second timer. *)
Theorem service_arms_at_most_one_timer :
  forall commands,
    let s := fold_left runCommand commands newService in
    armed (timers s)
    = match intervalId s with Some id => [id] | None => [] end
    /\ (List.length (armed (timers s)) <= 1)%nat
    /\ isRunning s = match intervalId s with Some _ => true | None => false end
    /\ isRunning s = match last commands Stop with
                     | Start => true
                     | Stop => false
                     end
    /\ getStatus s = (isRunning s,
                      match armed (timers s) with
                      | [] => "Stopped"
                      | _ => "Active"
                      end).
Proof.
  intros commands.
  assert (H : let s := fold_left runCommand commands newService in
              armed (timers s)
              = match intervalId s with Some id => [id] | None => [] end
              /\ isRunning s
                 = match intervalId s with Some _ => true | None => false end
              /\ isRunning s = match last commands Stop with
                               | Start => true
                               | Stop => false
                               end).
  { induction commands as [| c commands IH] using rev_ind.
    - cbn. auto.
    - cbv zeta in *. rewrite fold_left_app, last_last. cbn [fold_left].
      destruct IH as [Harmed [Hrun _]].
      exact (lifecycle_step _ c Harmed Hrun). }
  cbv zeta in *. destruct H as [Harmed [Hrun Hlast]].
  split; [exact Harmed |].
  split; [rewrite Harmed; destruct (intervalId _); simpl; lia |].
  split; [exact Hrun |]. split; [exact Hlast |].
  unfold getStatus. rewrite Harmed, Hrun.
  destruct (intervalId _); reflexivity.
Qed.

(** ** The private check of the service *)

(** X22.  The private check of the service answers true at the scheduled
    minute and at the next one of the same day, on an active day.  Against
    the evaluator of the storage, on an enabled configuration that stores
    that hour and minute and has those days in its list: whenever the
    private check answers true for an hour other than 0 the evaluator
    answers true for open as well; for hour 0 the two disagree, since the
    evaluator reads a stored 0 as 9 and answers false at every instant at
    which the private check answers true. *)
Theorem private_check_against_evaluator :
  forall config t hour minute days,
    shouldExecuteOperation t hour minute days = true ->
    Js.truthy (autoOpenEnabled config) = true ->
    openHour config = Some hour ->
    openMinute config = Some minute ->
    (forall d, In d days -> Js.includes (evaluatorDays config) d = true) ->
    shouldExecuteAt config Open t = negb (hour =? 0)
    /\ 0 <= (t mod 86400) / 60 - (hour * 60 + minute) <= 1
    /\ In (dayNumber t) days.
Proof.
  intros config t hour minute days H Hflag Hh Hm Hdays.
  unfold shouldExecuteOperation in H. fold (dayNumber t) in H.
  rewrite minute_of_day in H.
  destruct (existsb (Z.eqb (dayNumber t)) days) eqn:Eday;
    [| discriminate H].
  cbn [negb] in H. apply andb_true_iff in H. destruct H as [H0 H1].
  apply Z.leb_le in H0, H1.
  apply existsb_exists in Eday. destruct Eday as [d [Hd Ed]].
  apply Z.eqb_eq in Ed. subst d.
  split; [| split; [lia | exact Hd]].
  assert (Hmin : Js.orZ (openMinute config) 0 = minute).
  { rewrite Hm. unfold Js.orZ. destruct (Z.eqb_spec minute 0); congruence. }
  unfold shouldExecuteAt. fold (evaluatorDays config). fold (dayNumber t).
  rewrite Hflag, (Hdays _ Hd), minute_of_day, Hmin, Hh. cbn [negb].
  unfold Js.orZ. destruct (Z.eqb_spec hour 0) as [-> | Hne]; cbn [negb].
  - apply andb_false_iff. left. apply Z.leb_gt. lia.
  - apply andb_true_iff. split; [apply Z.leb_le | apply Z.ltb_lt]; lia.
Qed.

(** ** Vendor statistics *)


(** ** Times that no clock shows *)

(** X24.  [upsertScheduleConfig] checks no range: an opening hour from 24
    up to 2147483647, the largest value of the integer column, is stored
    as [parseInt] reads it.  When the minute that is stored with it is not
    negative, such a configuration never opens: the minute of the day
    never reaches the scheduled one. *)
Theorem hour_past_the_clock_never_opens :
  forall utcOffset f f' now clientId configData w hour,
    selectConfig_throws f = None -> writeConfig_throws f = None ->
    Js.parseIntVal (cd_openHour configData) = Some hour ->
    24 <= hour <= 2147483647 ->
    0 <= Js.orZ (Js.parseIntVal (cd_openMinute configData)) 0 ->
    fst (upsertScheduleConfig f clientId configData w)
    = Returned (cleanData clientId configData)
    /\ openHour (cleanData clientId configData) = Some hour
    /\ fst (shouldExecuteAutoOperation utcOffset f' now clientId Open
              (exec (upsertScheduleConfig f clientId configData) w))
       = Returned false.
Proof.
  intros utcOffset f f' now clientId configData w hour Hsel Hwrite Hhour Hlate
    Hminute.
  assert (Hstored : openHour (cleanData clientId configData) = Some hour).
  { cbn [openHour cleanData]. rewrite Hhour. unfold Js.orZ.
    replace (hour =? 0) with false by (symmetry; apply Z.eqb_neq; lia).
    reflexivity. }
  split; [rewrite (upsertScheduleConfig_run _ _ _ _ Hsel Hwrite); reflexivity |].
  split; [exact Hstored |].
  rewrite (shouldExecuteAutoOperation_run utcOffset _ _ _ _ _ _
             (getScheduleConfig_run f' clientId _)).
  cbn [fst].
  destruct (selectConfig_throws f') as [m |] eqn:Hsel'; [reflexivity |].
  - pose proof (getScheduleConfig_after_upsert f f' clientId configData w
                  clientId Hsel Hwrite Hsel') as Hget.
    rewrite getScheduleConfig_run, Hsel', Z.eqb_refl in Hget.
    cbn [fst] in Hget. injection Hget as Hget. rewrite Hget. f_equal.
    unfold shouldExecuteAt. rewrite Hstored.
    destruct (Js.truthy (autoOpenEnabled (cleanData clientId configData)));
      [| reflexivity].
    destruct (negb _); [reflexivity |].
    pose proof (getHours_range (wallClock utcOffset argentina now)) as Hh.
    pose proof (getMinutes_range (wallClock utcOffset argentina now)) as Hm.
    assert (Horz : Js.orZ (Some hour) 9 = hour).
    { unfold Js.orZ.
      replace (hour =? 0) with false by (symmetry; apply Z.eqb_neq; lia).
      reflexivity. }
    rewrite Horz. cbn [openMinute cleanData].
    apply andb_false_iff. left. apply Z.leb_gt. cbn [Js.orZ].
    destruct (_ =? 0); lia.
Qed.

(** ** The further properties on the sample data *)

Ltac on_the_clock := unfold onTheClock; cbn; lia.

Lemma window_stays_within_the_day_witness :
  exists config,
    getScheduleConfig noFaults 1 openWorld
    = (Returned (Some config), openWorld)
    /\ wallClock sampleOffsets argentina tuesday1800 mod 86400
       < 60 * (Js.orZ (closeHour config) 18 * 60
               + Js.orZ (closeMinute config) 0) + 300.
Proof.
  pose proof (window_stays_within_the_day sampleOffsets noFaults tuesday1800
                1 Close openWorld eq_refl) as H.
  cbv zeta in H. destruct H as [config [Hc [_ [H _]]]].
  exists config. split; [exact Hc | exact H].
Defined.

Lemma window_opens_once_a_day_witness :
  wallClock sampleOffsets argentina (tuesday1800 + 120)
  - wallClock sampleOffsets argentina tuesday1800 < 300.
Proof.
  apply (window_opens_once_a_day sampleOffsets noFaults noFaults tuesday1800
           (tuesday1800 + 120) 1 Close openWorld);
    [reflexivity | reflexivity | vm_compute; congruence
    | vm_compute; congruence].
Defined.

Lemma no_day_from_1_to_7_never_fires_witness :
  shouldExecuteAutoOperation sampleOffsets noFaults monday0200 1 Close
    sundayZeroWorld = (Returned false, sundayZeroWorld).
Proof.
  apply (no_day_from_1_to_7_never_fires sampleOffsets noFaults monday0200 1
           Close sundayZeroWorld (nightSchedule "0" argentina));
    [reflexivity |].
  intros d Hd. change (Js.includes [Some 0] d = false). cbn.
  destruct d; try reflexivity; lia.
Defined.

Lemma scheduled_operations_lie_ahead_witness :
  wallClock sampleOffsets argentina tuesday0200
  < so_scheduledTime tuesdayOpening
  /\ getHours (so_scheduledTime tuesdayOpening) = 9.
Proof.
  destruct (scheduled_operations_lie_ahead sampleOffsets noFaults tuesday0200
              1 openWorld (daySchedule argentina)
              (scheduledOperationsAt (daySchedule argentina)
                 (wallClock sampleOffsets argentina tuesday0200))
              tuesdayOpening eq_refl ltac:(on_the_clock) ltac:(on_the_clock)
              eq_refl ltac:(vm_compute; left; reflexivity))
    as [H1 [_ [H3 _]]].
  split; [exact H1 | exact H3].
Defined.

Lemma announced_opening_fires_witness :
  shouldExecuteAutoOperation sampleOffsets noFaults tuesday0900 1 Open
    openWorld = (Returned true, openWorld).
Proof.
  apply (announced_opening_fires sampleOffsets noFaults noFaults tuesday0200
           tuesday0900 1 openWorld (daySchedule argentina) "1,2,3,4,5,6,7" 2
           (scheduledOperationsAt (daySchedule argentina)
              (wallClock sampleOffsets argentina tuesday0200))
           tuesdayOpening);
    try reflexivity; try lia; try on_the_clock.
  vm_compute. left. reflexivity.
Defined.

Lemma announced_closing_fires_by_next_day_witness :
  shouldExecuteAutoOperation sampleOffsets noFaults monday0200 1 Close
    mondayNightWorld = (Returned false, mondayNightWorld).
Proof.
  refine (proj2 (announced_closing_fires_by_next_day sampleOffsets noFaults
                   noFaults tuesday0200 monday0200 1 mondayNightWorld
                   (nightSchedule "1" argentina) "1" 1
                   (scheduledOperationsAt (nightSchedule "1" argentina)
                      (wallClock sampleOffsets argentina tuesday0200))
                   mondayClosing eq_refl eq_refl eq_refl _ eq_refl _ eq_refl
                   _ eq_refl eq_refl)).
  - lia.
  - on_the_clock.
  - vm_compute. right. left. reflexivity.
Defined.

Lemma no_active_day_is_announced_eight_days_ahead_witness :
  so_scheduledTime farClosing
  = atTime (localDate (wallClock sampleOffsets argentina tuesday0200) + 8) 2 0.
Proof.
  refine (proj1 (no_active_day_is_announced_eight_days_ahead sampleOffsets
                   noFaults noFaults tuesday0200 monday0200 1 sundayZeroWorld
                   (nightSchedule "0" argentina) "0"
                   (scheduledOperationsAt (nightSchedule "0" argentina)
                      (wallClock sampleOffsets argentina tuesday0200))
                   farClosing eq_refl eq_refl eq_refl _ eq_refl _)).
  - intros d Hd. change (Js.includes [Some 0] d = false). cbn.
    destruct d; try reflexivity; lia.
  - vm_compute. right. left. reflexivity.
Defined.

Lemma missing_day_list_is_read_two_ways_witness :
  shouldExecuteAutoOperation sampleOffsets noFaults tuesday0900 1 Open
    noListWorld = (Returned false, noListWorld).
Proof.
  refine (proj2 (missing_day_list_is_read_two_ways sampleOffsets noFaults
                   noFaults tuesday0200 tuesday0900 1 noListWorld
                   noListSchedule eq_refl eq_refl eq_refl eq_refl _) Open).
  on_the_clock.
Defined.

Lemma upsert_then_lookup_witness :
  exists row w',
    upsertScheduleConfig noFaults 1 midnightRequest emptyWorld
    = (Returned row, w')
    /\ getScheduleConfig noFaults 1 w' = (Returned (Some row), w').
Proof.
  destruct (upsert_then_lookup noFaults noFaults 1 midnightRequest emptyWorld
              eq_refl eq_refl eq_refl) as [row [w' [Hrun [Hget _]]]].
  exists row, w'. split; [exact Hrun | exact Hget].
Defined.

Lemma upsert_keeps_one_row_per_tenant_witness :
  NoDup (map cfg_clientId
           (configs (exec (upsertScheduleConfig noFaults 2 midnightRequest)
                       openWorld))).
Proof.
  apply (upsert_keeps_one_row_per_tenant noFaults 2 midnightRequest openWorld);
    [reflexivity |].
  cbn. constructor; [intros [] | constructor].
Defined.

Lemma upsert_after_failed_lookup_is_shadowed_witness :
  exists row w',
    upsertScheduleConfig selectConfigFails 1 midnightRequest openWorld
    = (Returned row, w')
    /\ List.length (configs w') = 2%nat
    /\ getScheduleConfig noFaults 1 w'
       = (Returned (Some (daySchedule argentina)), w').
Proof.
  destruct (upsert_after_failed_lookup_is_shadowed selectConfigFails noFaults
              1 midnightRequest openWorld "connection terminated"
              (daySchedule argentina) eq_refl eq_refl eq_refl eq_refl)
    as [row [w' [Hrun [Hconfigs Hget]]]].
  exists row, w'. split; [exact Hrun |]. split; [| exact Hget].
  rewrite Hconfigs. reflexivity.
Defined.

Lemma logged_entry_is_listed_witness :
  exists logs w',
    logAutoOperation noFaults 100 sampleOperation emptyWorld
    = (Returned (logRow 100 sampleOperation), w')
    /\ getAutoOperationsLog noFaults 1 None w' = (Returned logs, w')
    /\ In (logRow 100 sampleOperation) logs.
Proof.
  destruct (logged_entry_is_listed noFaults noFaults 100 sampleOperation None
              emptyWorld eq_refl eq_refl ltac:(cbn; lia))
    as [logs [w' [Hrun [Hget [Hin _]]]]].
  exists logs, w'. split; [exact Hrun |]. split; [exact Hget | exact Hin].
Defined.

Lemma later_entries_are_cut_off_witness :
  fst (getAutoOperationsLog noFaults 1 (Some 1%nat)
         (exec (logAutoOperation noFaults 200 sampleOperation)
            (withLog [entryAt 100 failed] emptyWorld)))
  = fst (getAutoOperationsLog noFaults 1 (Some 1%nat)
           (withLog [entryAt 100 failed] emptyWorld)).
Proof.
  apply (later_entries_are_cut_off noFaults noFaults 200 sampleOperation
           (Some 1%nat) (withLog [entryAt 100 failed] emptyWorld));
    [reflexivity | cbn; lia |].
  intros e [<- | []] _. cbn. lia.
Defined.

Lemma auto_open_outcomes_witness :
  exists e,
    executeAutoOpen sampleCurrentRegister sampleCreateRegister noFaults
      tuesday0900 1 closedWorld
    = (Returned tt,
       withLog (operationsLog closedWorld ++ [e])%list
         (withRegisters
            (registers closedWorld
             ++ [sampleCreateRegister (registers closedWorld)
                   (openingValues 1 tuesday0900)])%list closedWorld))
    /\ log_status e = success.
Proof.
  pose proof (auto_open_outcomes sampleCurrentRegister sampleCreateRegister
                noFaults tuesday0900 1 closedWorld eq_refl I) as H.
  cbv zeta in H. destruct H as [H _].
  destruct (H eq_refl eq_refl) as [e [Hrun [Hstatus _]]].
  exists e. split; [exact Hrun | exact Hstatus].
Defined.

Lemma errors_are_absorbed_witness :
  fst (executeAutoClose sampleOffsets selectRegisterFails tuesday1800 1
         openWorld) = Returned tt.
Proof.
  exact (proj2 (proj1 (errors_are_absorbed sampleOffsets sampleCurrentRegister
                         sampleCreateRegister selectRegisterFails tuesday1800
                         1 openWorld) eq_refl)).
Defined.

Lemma tick_serves_every_active_client_witness :
  exec (checkScheduledOperations sampleOffsets sampleCurrentRegister
          sampleCreateRegister (fun _ => Returned sampleClients)
          (fun _ => noFaults) tuesday0900) closedWorld
  = exec (processClientScheduledOperations sampleOffsets sampleCurrentRegister
            sampleCreateRegister noFaults tuesday0900 1) closedWorld.
Proof.
  destruct (tick_serves_every_active_client sampleOffsets
              sampleCurrentRegister sampleCreateRegister
              (fun _ => Returned sampleClients) (fun _ => noFaults)
              tuesday0900 closedWorld) as [_ [_ H]].
  destruct (H sampleClients eq_refl) as [Hrun _]. exact Hrun.
Defined.

(** At 09:01 the private check and the evaluator agree on the day
    schedule; at 00:00 a schedule that stores hour 0 is due for the private
    check and not for the evaluator. *)
Lemma private_check_against_evaluator_witness :
  shouldExecuteAt (daySchedule argentina) Open (atTime 20095 9 1) = true
  /\ shouldExecuteAt midnightSchedule Open (atTime 20095 0 0) = false.
Proof.
  split.
  - refine (proj1 (private_check_against_evaluator (daySchedule argentina)
                     (atTime 20095 9 1) 9 0 [2; 4] eq_refl eq_refl eq_refl
                     eq_refl _)).
    intros d [<- | [<- | []]]; reflexivity.
  - refine (proj1 (private_check_against_evaluator midnightSchedule
                     (atTime 20095 0 0) 0 0 [2] eq_refl eq_refl eq_refl
                     eq_refl _)).
    intros d [<- | []]; reflexivity.
Defined.


Lemma hour_past_the_clock_never_opens_witness :
  fst (shouldExecuteAutoOperation sampleOffsets noFaults tuesday0900 1 Open
         (exec (upsertScheduleConfig noFaults 1 lateRequest) emptyWorld))
  = Returned false.
Proof.
  refine (proj2 (proj2 (hour_past_the_clock_never_opens sampleOffsets noFaults
                          noFaults tuesday0900 1 lateRequest emptyWorld 25
                          eq_refl eq_refl eq_refl _ _))).
  - lia.
  - vm_compute. discriminate.
Defined.
